(** * vstats-cli: resource resolution and deployment orchestration

    A shallow embedding of the command layer of the vStats command-line
    client (package [commands]): the API client ([client.go]), the
    configuration singleton, and the [login], [logout], [whoami],
    [server], [web] and [ssh] commands, followed by the properties the
    specification states about them.

    Conventions.
    - Go's [int] and [int64] are [Z]; none of the modelled code does
      arithmetic on them apart from the expiry computation in [runLogin].
    - A Go function returning a pointer and an error, the pointer nil on
      failure, returns [result T]; one returning both a value and an error
      returns a pair [T * option error]; a function returning [error] returns
      [option error] ([None] is [nil]).
    - Everything outside the process (network, remote cloud, file system,
      terminal, clock, child processes) is an abstract environment [Env]
      driven through the functions of a [Platform]; the commands thread a
      [World] holding the package-level variables, the environment and a
      trace of the actions the process has taken.
    - Writes to the terminal (the [fmt] print calls and table rendering)
      carry nothing back into the program and are left out; the clock
      readings of the two listings, which feed only their tables, are
      kept. *)

From Stdlib Require Import String Ascii ZArith List Lia Bool DecimalString.
Import ListNotations.
Local Open Scope string_scope.
Local Open Scope Z_scope.

(** ** Fragments of the Go standard library *)

Module Go.

(** [error] values as [fmt.Errorf] builds them: a plain message, or,
    with the [%w] verb, a message together with the wrapped cause. *)
Inductive error : Type :=
| errorString (msg : string)
| wrapError (msg : string) (err : error).

Definition Error (e : error) : string :=
  match e with
  | errorString msg => msg
  | wrapError msg _ => msg
  end.

Definition Unwrap (e : error) : option error :=
  match e with
  | errorString _ => None
  | wrapError _ err => Some err
  end.

(** [fmt.Errorf(msg)] with no [%w]: nothing is wrapped. *)
Definition Errorf (msg : string) : error := errorString msg.

(** [fmt.Errorf(prefix + "%w", err)]. *)
Definition Errorf_w (prefix : string) (err : error) : error :=
  wrapError (prefix ++ Error err) err.

Inductive result (T : Type) : Type :=
| Ok (v : T)
| Fail (err : error).
Arguments Ok {T} v.
Arguments Fail {T} err.

(** [fmt.Sprintf("%d", n)]. *)
Definition Itoa (n : Z) : string := NilEmpty.string_of_int (Z.to_int n).

(** The double quote character, as a one-character string. *)
Definition dq : string := String (ascii_of_nat 34) EmptyString.

(** [strings.Contains(s, string(c))] for a one-byte separator. *)
Fixpoint containsByte (c : ascii) (s : string) : bool :=
  match s with
  | EmptyString => false
  | String a rest => if Ascii.eqb a c then true else containsByte c rest
  end.

(** [strings.SplitN(s, string(c), 2)] when [c] occurs in [s]: the text
    before the first occurrence and the text after it. *)
Fixpoint splitFirst (c : ascii) (s : string) : string * string :=
  match s with
  | EmptyString => (EmptyString, EmptyString)
  | String a rest =>
      if Ascii.eqb a c then (EmptyString, rest)
      else let (before, after) := splitFirst c rest in (String a before, after)
  end.

(** [time.Time] as an instant in nanoseconds since the Unix epoch, and
    [time.Duration] in nanoseconds. *)
Definition Time := Z.
Definition Duration := Z.
Definition Second : Duration := 1000000000.
Definition Hour : Duration := 3600 * Second.
Definition Time_Add (t : Time) (d : Duration) : Time := t + d.
Definition Time_Unix (t : Time) : Z := t / Second.

(** IEEE-754 double, kept as its bit pattern: the commands only carry
    such values from the decoder to the renderer. *)
Definition float64 := Z.

End Go.
Export Go.

(** ** Data model *)

(** [Config] (config.go). *)
Record Config : Type := {
  CloudURL : string;
  Token : string;
  Username : string;
  ExpiresAt : Z
}.

Definition DefaultCloudURL : string := "https://api.vstats.zsoft.cc".

(** [Client] (client.go); the [HTTPClient] field only fixes the 30 second
    timeout and is the same for every client the commands build. *)
Record Client : Type := {
  BaseURL : string;
  Client_Token : string
}.

Record APIError : Type := {
  APIError_Error : string;
  APIError_Message : string
}.

Record User : Type := {
  User_ID : string;
  User_Username : string;
  User_Email : option string;
  User_AvatarURL : option string;
  User_Plan : string;
  User_ServerLimit : Z;
  User_Status : string
}.

Record ServerMetrics : Type := {
  CPUUsage : option float64;
  CPUCores : option Z;
  LoadAvg1 : option float64;
  LoadAvg5 : option float64;
  LoadAvg15 : option float64;
  MemoryTotal : option Z;
  MemoryUsed : option Z;
  MemoryFree : option Z;
  DiskTotal : option Z;
  DiskUsed : option Z;
  DiskFree : option Z;
  ProcessCount : option Z
}.

Record Server : Type := {
  Server_ID : string;
  Server_Name : string;
  Hostname : option string;
  IPAddress : option string;
  AgentKey : string;
  AgentVersion : option string;
  OSType : option string;
  OSVersion : option string;
  Server_Status : string;
  LastSeenAt : option Time;
  Server_CreatedAt : Time;
  Metrics : option ServerMetrics
}.

Record MetricsData : Type := {
  CollectedAt : Time;
  MetricsData_CPUUsage : option float64;
  MetricsData_MemoryUsed : option Z;
  MetricsData_DiskUsed : option Z
}.

Record MetricsHistory : Type := {
  MetricsHistory_ServerID : string;
  Range : string;
  Data : list MetricsData
}.

Record VerifyResponse : Type := {
  Valid : bool;
  UserID : string;
  VerifyResponse_Username : string;
  VerifyResponse_Plan : string
}.

Record CurrentUserResponse : Type := {
  CurrentUser_User : User;
  ServerCount : Z;
  ServerLimit : Z
}.

Record AgentKeyResponse : Type := {
  AgentKeyResponse_AgentKey : string
}.

Record InstallCommandResponse : Type := {
  Command : string;
  InstallCommandResponse_AgentKey : string
}.

Record MetricsResponse : Type := {
  MetricsResponse_Metrics : option ServerMetrics
}.

(** [WebInstance] and [UserPlan] (web.go). *)
Record WebInstance : Type := {
  WebInstance_ID : string;
  WebInstance_Name : string;
  Host : string;
  Port : Z;
  URL : string;
  WebInstance_Status : string;
  Version : string;
  CloudMode : bool;
  SSLEnabled : bool;
  WebInstance_CreatedAt : Time;
  LastCheckAt : option Time
}.

Record UserPlan : Type := {
  Plan : string;
  MaxWebApps : Z;
  CurrentCount : Z;
  IsPro : bool
}.

Record WebInstanceStatus : Type := {
  WebInstanceStatus_Status : string;
  ResponseTime : string;
  WebInstanceStatus_Version : string;
  CloudConnected : bool;
  CheckedAt : option Time
}.

(** The values the commands hand to the encoders and decoders as
    [interface{}]: a code for each Go type that occurs, and its values. *)
Inductive ty : Type :=
| TConfig | TAPIError | TVerifyResponse | TCurrentUserResponse
| TServer | TServers | TServerMetrics | TMetricsResponse | TMetricsHistory
| TAgentKeyResponse | TInstallCommandResponse
| TWebInstance | TWebInstances | TWebInstanceStatus | TUserPlan
| TStringMap      (* map[string]string *)
| TPlanInstances. (* map[string]interface{}{"plan": ..., "instances": ...} *)

Definition denote (t : ty) : Type :=
  match t with
  | TConfig => Config
  | TAPIError => APIError
  | TVerifyResponse => VerifyResponse
  | TCurrentUserResponse => CurrentUserResponse
  | TServer => Server
  | TServers => list Server
  | TServerMetrics => ServerMetrics
  | TMetricsResponse => MetricsResponse
  | TMetricsHistory => MetricsHistory
  | TAgentKeyResponse => AgentKeyResponse
  | TInstallCommandResponse => InstallCommandResponse
  | TWebInstance => WebInstance
  | TWebInstances => list WebInstance
  | TWebInstanceStatus => WebInstanceStatus
  | TUserPlan => UserPlan
  | TStringMap => list (string * string)
  | TPlanInstances => (UserPlan * list WebInstance)%type
  end.

Definition any : Type := { t : ty & denote t }.
Definition pack (t : ty) (v : denote t) : any := existT denote t v.

(** Go zero values ([var x T]). *)
Definition zeroUser : User :=
  {| User_ID := ""; User_Username := ""; User_Email := None;
     User_AvatarURL := None; User_Plan := ""; User_ServerLimit := 0;
     User_Status := "" |}.

Definition zeroServerMetrics : ServerMetrics :=
  {| CPUUsage := None; CPUCores := None; LoadAvg1 := None; LoadAvg5 := None;
     LoadAvg15 := None; MemoryTotal := None; MemoryUsed := None;
     MemoryFree := None; DiskTotal := None; DiskUsed := None;
     DiskFree := None; ProcessCount := None |}.

Definition zeroServer : Server :=
  {| Server_ID := ""; Server_Name := ""; Hostname := None; IPAddress := None;
     AgentKey := ""; AgentVersion := None; OSType := None; OSVersion := None;
     Server_Status := ""; LastSeenAt := None; Server_CreatedAt := 0;
     Metrics := None |}.

Definition zeroWebInstance : WebInstance :=
  {| WebInstance_ID := ""; WebInstance_Name := ""; Host := ""; Port := 0;
     URL := ""; WebInstance_Status := ""; Version := ""; CloudMode := false;
     SSLEnabled := false; WebInstance_CreatedAt := 0; LastCheckAt := None |}.

Definition zeroUserPlan : UserPlan :=
  {| Plan := ""; MaxWebApps := 0; CurrentCount := 0; IsPro := false |}.

Definition zero (t : ty) : denote t :=
  match t with
  | TConfig => {| CloudURL := ""; Token := ""; Username := ""; ExpiresAt := 0 |}
  | TAPIError => {| APIError_Error := ""; APIError_Message := "" |}
  | TVerifyResponse =>
      {| Valid := false; UserID := ""; VerifyResponse_Username := "";
         VerifyResponse_Plan := "" |}
  | TCurrentUserResponse =>
      {| CurrentUser_User := zeroUser; ServerCount := 0; ServerLimit := 0 |}
  | TServer => zeroServer
  | TServers => []
  | TServerMetrics => zeroServerMetrics
  | TMetricsResponse => {| MetricsResponse_Metrics := None |}
  | TMetricsHistory =>
      {| MetricsHistory_ServerID := ""; Range := ""; Data := [] |}
  | TAgentKeyResponse => {| AgentKeyResponse_AgentKey := "" |}
  | TInstallCommandResponse =>
      {| Command := ""; InstallCommandResponse_AgentKey := "" |}
  | TWebInstance => zeroWebInstance
  | TWebInstances => []
  | TWebInstanceStatus =>
      {| WebInstanceStatus_Status := ""; ResponseTime := "";
         WebInstanceStatus_Version := ""; CloudConnected := false;
         CheckedAt := None |}
  | TUserPlan => zeroUserPlan
  | TStringMap => []
  | TPlanInstances => (zeroUserPlan, [])
  end.

(** The decode target of [Client.Do]: [nil] or a pointer to a value. *)
Definition target (rt : option ty) : Type :=
  match rt with
  | None => unit
  | Some t => denote t
  end.

(** ** The outside world *)

(** An HTTP request as [Client.Do] builds it, and the response as it reads
    it: the status code and the outcome of [io.ReadAll] on the body. *)
Record Request : Type := {
  Method : string;
  Request_URL : string;
  Header : list (string * string);
  Request_Body : option string
}.

Record Response : Type := {
  StatusCode : Z;
  Response_Body : result string
}.

(** What the process relies on and the repository does not define:
    the JSON and YAML codecs, the HTTP transport, the file system, the
    process launcher, the terminal and the clock. *)
Record Platform (Env : Type) : Type := {
  json_Marshal : forall t, denote t -> result string;
  json_MarshalIndent : forall t, denote t -> result string;
  json_Unmarshal : forall t, string -> denote t -> denote t * option error;
  yaml_Marshal : forall t, denote t -> result string;
  (* http.NewRequest(method, url, body): the error, if any *)
  http_NewRequest : string -> string -> option error;
  (* HTTPClient.Do followed by io.ReadAll of the body *)
  http_Do : Request -> Env -> result Response * Env;
  os_UserHomeDir : Env -> result string;
  filepath_Join : string -> string -> string;
  filepath_Dir : string -> string;
  os_MkdirAll : string -> Z -> Env -> option error * Env;
  os_WriteFile : string -> string -> Z -> Env -> option error * Env;
  exec_LookPath : string -> Env -> result string;
  (* exec.Command(path, args...).Run() on the inherited terminal *)
  exec_Run : string -> list string -> Env -> option error * Env;
  term_IsTerminal : Env -> bool;
  term_ReadPassword : Env -> result string * Env;
  (* bufio.NewReader(os.Stdin).ReadString('\n') *)
  bufio_ReadString : Env -> result string * Env;
  (* fmt.Scanln(&confirm): the word read, empty when nothing was read *)
  fmt_Scanln : Env -> string * Env;
  strings_TrimSpace : string -> string;
  strings_ToLower : string -> string;
  time_Now : Env -> Time * Env
}.

Arguments json_Marshal {Env} p t _.
Arguments json_MarshalIndent {Env} p t _.
Arguments json_Unmarshal {Env} p t _ _.
Arguments yaml_Marshal {Env} p t _.
Arguments http_NewRequest {Env} p _ _.
Arguments http_Do {Env} p _ _.
Arguments os_UserHomeDir {Env} p _.
Arguments filepath_Join {Env} p _ _.
Arguments filepath_Dir {Env} p _.
Arguments os_MkdirAll {Env} p _ _ _.
Arguments os_WriteFile {Env} p _ _ _ _.
Arguments exec_LookPath {Env} p _ _.
Arguments exec_Run {Env} p _ _ _.
Arguments term_IsTerminal {Env} p _.
Arguments term_ReadPassword {Env} p _.
Arguments bufio_ReadString {Env} p _.
Arguments fmt_Scanln {Env} p _.
Arguments strings_TrimSpace {Env} p _.
Arguments strings_ToLower {Env} p _.
Arguments time_Now {Env} p _.

(** The actions of the process that the properties below talk about, in
    the order they happen. *)
Inductive Event : Type :=
| EvDo (method path : string)        (* Client.Do was called *)
| EvRoundTrip (req : Request)        (* HTTPClient.Do was called on req *)
| EvNow (t : Time)                   (* the clock was read *)
| EvMkdirAll (dir : string) (perm : Z)
| EvWriteFile (path data : string) (perm : Z)
| EvRun (path : string) (args : list string). (* a child process was run *)

(** Package-level variables set from the command line (root.go, login.go,
    ssh.go). *)
Record Vars : Type := {
  version : string;
  outputFmt : string;
  noColor : bool;
  loginToken : string;
  sshUser : string;
  sshPort : Z;
  sshKey : string
}.

Record World (Env : Type) : Type := {
  cfg : Config;
  vars : Vars;
  env : Env;
  trace : list Event
}.

Arguments cfg {Env} w.
Arguments vars {Env} w.
Arguments env {Env} w.
Arguments trace {Env} w.

(** The calls into the API client recorded in a trace, as
    (method, path) pairs. *)
Fixpoint api_calls (tr : list Event) : list (string * string) :=
  match tr with
  | [] => []
  | EvDo method path :: rest => (method, path) :: api_calls rest
  | _ :: rest => api_calls rest
  end.

(** What reading the configuration back relies on: the file reader, the
    test for a missing file and the YAML decoder, which fills the
    configuration it is given and may fail part of the way. *)
Record FileReader (Env : Type) : Type := {
  os_ReadFile : string -> Env -> result string;
  os_IsNotExist : error -> bool;
  yaml_Unmarshal : string -> Config -> Config * option error
}.

Arguments os_ReadFile {Env} f _ _.
Arguments os_IsNotExist {Env} f _.
Arguments yaml_Unmarshal {Env} f _ _.

(** ** The commands *)

Section Commands.

Context {Env : Type} (P : Platform Env).

(** Commands run in a state monad over the world. *)
Definition M (A : Type) : Type := World Env -> A * World Env.

Definition ret {A : Type} (a : A) : M A := fun w => (a, w).

Definition bind {A B : Type} (c : M A) (k : A -> M B) : M B :=
  fun w => let (a, w') := c w in k a w'.

Notation "x <- c ;; k" := (bind c (fun x => k))
  (at level 61, c at next level, right associativity).
Notation "' pat <- c ;; k" := (bind c (fun x => match x with pat => k end))
  (at level 61, pat pattern, c at next level, right associativity).
Notation "c ;; k" := (bind c (fun _ => k))
  (at level 61, right associativity).

Definition log (e : Event) : M unit :=
  fun w => (tt, {| cfg := cfg w; vars := vars w; env := env w;
                   trace := trace w ++ [e] |}).

Definition getCfg : M Config := fun w => (cfg w, w).

Definition modifyCfg (f : Config -> Config) : M unit :=
  fun w => (tt, {| cfg := f (cfg w); vars := vars w; env := env w;
                   trace := trace w |}).

Definition getVars : M Vars := fun w => (vars w, w).

(** A call that may change the environment, and one that only reads it. *)
Definition liftEnv {A : Type} (f : Env -> A * Env) : M A :=
  fun w => let (a, e) := f (env w) in
           (a, {| cfg := cfg w; vars := vars w; env := e;
                  trace := trace w |}).

Definition readEnv {A : Type} (f : Env -> A) : M A :=
  fun w => (f (env w), w).

Definition set_Token (v : string) (c : Config) : Config :=
  {| CloudURL := CloudURL c; Token := v; Username := Username c;
     ExpiresAt := ExpiresAt c |}.

Definition set_Username (v : string) (c : Config) : Config :=
  {| CloudURL := CloudURL c; Token := Token c; Username := v;
     ExpiresAt := ExpiresAt c |}.

Definition set_ExpiresAt (v : Z) (c : Config) : Config :=
  {| CloudURL := CloudURL c; Token := Token c; Username := Username c;
     ExpiresAt := v |}.

(** *** client.go *)

(** [NewClient]. *)
Definition NewClient : M Client :=
  c <- getCfg ;;
  ret {| BaseURL := CloudURL c; Client_Token := Token c |}.

(** The request body of [Do]: [nil], or a value to serialise. *)
Definition marshalBody (body : option any) : result (option string) :=
  match body with
  | None => Ok None
  | Some (existT _ t v) =>
      match json_Marshal P t v with
      | Fail err => Fail (Errorf_w "failed to marshal request: " err)
      | Ok data => Ok (Some data)
      end
  end.

(** The tail of [Do]: decode into the target unless it is [nil]. *)
Definition decodeResult (rt : option ty) (respBody : string)
  : target rt -> target rt * option error :=
  match rt with
  | None => fun result => (result, None)
  | Some t => fun result =>
      let (v, uerr) := json_Unmarshal P t respBody result in
      match uerr with
      | Some err => (v, Some (Errorf_w "failed to parse response: " err))
      | None => (v, None)
      end
  end.

(** [Client.Do]. *)
Definition Do (c : Client) (method path : string) (body : option any)
    (rt : option ty) (result : target rt) : M (target rt * option error) :=
  log (EvDo method path) ;;
  match marshalBody body with
  | Fail err => ret (result, Some err)
  | Ok bodyReader =>
    match http_NewRequest P method (BaseURL c ++ path) with
    | Some err =>
        ret (result, Some (Errorf_w "failed to create request: " err))
    | None =>
      v <- getVars ;;
      let req :=
        {| Method := method;
           Request_URL := BaseURL c ++ path;
           Header :=
             [("Content-Type", "application/json");
              ("Accept", "application/json");
              ("User-Agent", "vstats-cli/" ++ version v)]
             ++ (if String.eqb (Client_Token c) "" then []
                 else [("Authorization", "Bearer " ++ Client_Token c)]);
           Request_Body := bodyReader |} in
      log (EvRoundTrip req) ;;
      r <- liftEnv (http_Do P req) ;;
      match r with
      | Fail err => ret (result, Some (Errorf_w "request failed: " err))
      | Ok resp =>
        match Response_Body resp with
        | Fail err =>
            ret (result, Some (Errorf_w "failed to read response: " err))
        | Ok respBody =>
          if 400 <=? StatusCode resp then
            let statusErr :=
              Errorf ("request failed with status "
                      ++ Itoa (StatusCode resp) ++ ": " ++ respBody) in
            let (apiErr, uerr) :=
              json_Unmarshal P TAPIError respBody (zero TAPIError) in
            match uerr with
            | None =>
                if negb (String.eqb (APIError_Error apiErr) "")
                then ret (result,
                          Some (Errorf ("API error: "
                                        ++ APIError_Error apiErr)))
                else ret (result, Some statusErr)
            | Some _ => ret (result, Some statusErr)
            end
          else ret (decodeResult rt respBody result)
        end
      end
    end
  end.

(** The shape shared by the methods of client.go: decode into a fresh
    value, and return a nil pointer when [Do] fails. *)
Definition fetch (c : Client) (method path : string) (body : option any)
    (t : ty) : M (result (denote t)) :=
  '(v, err) <- Do c method path body (Some t) (zero t) ;;
  match err with
  | Some e => ret (Fail e)
  | None => ret (Ok v)
  end.

Definition VerifyToken (c : Client) : M (result VerifyResponse) :=
  fetch c "GET" "/api/auth/verify" None TVerifyResponse.

Definition GetCurrentUser (c : Client) : M (result CurrentUserResponse) :=
  fetch c "GET" "/api/auth/me" None TCurrentUserResponse.

Definition ListServers (c : Client) : M (result (list Server)) :=
  fetch c "GET" "/api/servers" None TServers.

Definition CreateServer (c : Client) (name : string) : M (result Server) :=
  fetch c "POST" "/api/servers"
        (Some (pack TStringMap [("name", name)])) TServer.

Definition GetServer (c : Client) (id : string) : M (result Server) :=
  fetch c "GET" ("/api/servers/" ++ id) None TServer.

Definition UpdateServer (c : Client) (id name : string)
  : M (result Server) :=
  fetch c "PUT" ("/api/servers/" ++ id)
        (Some (pack TStringMap [("name", name)])) TServer.

Definition DeleteServer (c : Client) (id : string) : M (option error) :=
  '(_, err) <- Do c "DELETE" ("/api/servers/" ++ id) None None tt ;;
  ret err.

Definition RegenerateAgentKey (c : Client) (id : string)
  : M (result AgentKeyResponse) :=
  fetch c "POST" ("/api/servers/" ++ id ++ "/regenerate-key") None
        TAgentKeyResponse.

Definition GetInstallCommand (c : Client) (id : string)
  : M (result InstallCommandResponse) :=
  fetch c "GET" ("/api/servers/" ++ id ++ "/install-command") None
        TInstallCommandResponse.

Definition GetServerMetrics (c : Client) (id : string)
  : M (result MetricsResponse) :=
  fetch c "GET" ("/api/servers/" ++ id ++ "/metrics") None
        TMetricsResponse.

Definition GetServerHistory (c : Client) (id rangeStr : string)
  : M (result MetricsHistory) :=
  let path := "/api/servers/" ++ id ++ "/history" in
  let path := if negb (String.eqb rangeStr "")
              then path ++ "?range=" ++ rangeStr else path in
  fetch c "GET" path None TMetricsHistory.

(** The helpers [get], [post], [put] and [delete]. *)
Definition get (c : Client) (path : string) (t : ty) (result : denote t)
  : M (denote t * option error) :=
  Do c "GET" ("/api" ++ path) None (Some t) result.

Definition post (c : Client) (path : string) (body : any) (t : ty)
    (result : denote t) : M (denote t * option error) :=
  Do c "POST" ("/api" ++ path) (Some body) (Some t) result.

Definition put (c : Client) (path : string) (body : any)
  : M (option error) :=
  '(_, err) <- Do c "PUT" ("/api" ++ path) (Some body) None tt ;;
  ret err.

Definition delete (c : Client) (path : string) : M (option error) :=
  '(_, err) <- Do c "DELETE" ("/api" ++ path) None None tt ;;
  ret err.

(** *** web.go: client methods *)

Definition ListWebInstances (c : Client)
  : M (list WebInstance * option error) :=
  get c "/web/instances" TWebInstances [].

Definition GetWebInstance (c : Client) (id : string)
  : M (WebInstance * option error) :=
  get c ("/web/instances/" ++ id) TWebInstance zeroWebInstance.

Definition RegisterWebInstance (c : Client) (instance : WebInstance)
  : M (WebInstance * option error) :=
  post c "/web/instances" (pack TWebInstance instance)
       TWebInstance zeroWebInstance.

Definition UpdateWebInstance (c : Client) (instance : WebInstance)
  : M (option error) :=
  put c ("/web/instances/" ++ WebInstance_ID instance)
      (pack TWebInstance instance).

Definition RemoveWebInstance (c : Client) (id : string)
  : M (option error) :=
  delete c ("/web/instances/" ++ id).

Definition CheckWebInstance (c : Client) (id : string)
  : M (WebInstanceStatus * option error) :=
  get c ("/web/instances/" ++ id ++ "/check") TWebInstanceStatus
      (zero TWebInstanceStatus).

Definition GetUserPlan (c : Client) : M (UserPlan * option error) :=
  get c "/user/plan" TUserPlan zeroUserPlan.

(** *** config.go *)

Definition GetConfigDir : M (result string) :=
  home <- readEnv (os_UserHomeDir P) ;;
  match home with
  | Fail err => ret (Fail err)
  | Ok home => ret (Ok (filepath_Join P home ".vstats"))
  end.

Definition GetConfigPath : M (result string) :=
  dir <- GetConfigDir ;;
  match dir with
  | Fail err => ret (Fail err)
  | Ok dir => ret (Ok (filepath_Join P dir "config.yaml"))
  end.

(** [SaveConfig]; the permissions are 0700 and 0600. *)
Definition SaveConfig : M (option error) :=
  path <- GetConfigPath ;;
  match path with
  | Fail err => ret (Some err)
  | Ok path =>
    let dir := filepath_Dir P path in
    log (EvMkdirAll dir 448) ;;
    err <- liftEnv (os_MkdirAll P dir 448) ;;
    match err with
    | Some err => ret (Some err)
    | None =>
      c <- getCfg ;;
      match yaml_Marshal P TConfig c with
      | Fail err => ret (Some err)
      | Ok data =>
          log (EvWriteFile path data 384) ;;
          liftEnv (os_WriteFile P path data 384)
      end
    end
  end.

Definition IsLoggedIn : M bool :=
  c <- getCfg ;;
  ret (negb (String.eqb (Token c) "")).

(** *** output.go *)

Definition OutputJSON (t : ty) (data : denote t) : M (option error) :=
  match json_MarshalIndent P t data with
  | Fail err => ret (Some err)
  | Ok _ => ret None
  end.

Definition OutputYAML (t : ty) (data : denote t) : M (option error) :=
  match yaml_Marshal P t data with
  | Fail err => ret (Some err)
  | Ok _ => ret None
  end.

(** The [switch outputFmt] that ends most commands: the JSON and YAML
    cases return what the encoder returns, the default case prints a
    summary and the command returns [nil].  The two listings, whose
    default case reads the clock for its last column, have their own
    switch below. *)
Definition output (t : ty) (data : denote t) : M (option error) :=
  v <- getVars ;;
  if String.eqb (outputFmt v) "json" then OutputJSON t data
  else if String.eqb (outputFmt v) "yaml" then OutputYAML t data
  else ret None.

(** *** login.go *)

Definition errNotLoggedIn : error :=
  Errorf "not logged in. Run 'vstats login' first".

(** [requireLogin]. *)
Definition requireLogin : M (option error) :=
  ok <- IsLoggedIn ;;
  if negb ok then ret (Some errNotLoggedIn) else ret None.

(** The interactive part of [runLogin]: read the token from the
    terminal, hidden when standard input is a terminal. *)
Definition promptToken : M (result string) :=
  isTerm <- readEnv (term_IsTerminal P) ;;
  if isTerm then
    r <- liftEnv (term_ReadPassword P) ;;
    match r with
    | Fail err => ret (Fail (Errorf_w "failed to read token: " err))
    | Ok byteToken => ret (Ok byteToken)
    end
  else
    r <- liftEnv (bufio_ReadString P) ;;
    match r with
    | Fail err => ret (Fail (Errorf_w "failed to read token: " err))
    | Ok input => ret (Ok (strings_TrimSpace P input))
    end.

(** [time.Now()]. *)
Definition Now : M Time :=
  t <- liftEnv (time_Now P) ;;
  log (EvNow t) ;;
  ret t.

(** The head of [runLogin]: the token of the [--token] flag, or the one
    read from the terminal when the flag is empty. *)
Definition readToken : M (result string) :=
  v <- getVars ;;
  if String.eqb (loginToken v) "" then promptToken
  else ret (Ok (loginToken v)).

(** [runLogin]. *)
Definition runLogin : M (option error) :=
  r <- readToken ;;
  match r with
  | Fail err => ret (Some err)
  | Ok token =>
    if String.eqb token "" then ret (Some (Errorf "token is required"))
    else
      c <- getCfg ;;
      let client := {| BaseURL := CloudURL c; Client_Token := token |} in
      resp <- VerifyToken client ;;
      match resp with
      | Fail err => ret (Some (Errorf_w "authentication failed: " err))
      | Ok resp =>
        if negb (Valid resp) then ret (Some (Errorf "invalid token"))
        else
          modifyCfg (set_Token token) ;;
          modifyCfg (set_Username (VerifyResponse_Username resp)) ;;
          now <- Now ;;
          modifyCfg
            (set_ExpiresAt (Time_Unix (Time_Add now (7 * 24 * Hour)))) ;;
          err <- SaveConfig ;;
          match err with
          | Some err => ret (Some (Errorf_w "failed to save config: " err))
          | None => ret None
          end
      end
  end.

(** [logoutCmd]. *)
Definition logoutRunE : M (option error) :=
  ok <- IsLoggedIn ;;
  if negb ok then ret None
  else
    modifyCfg (set_Token "") ;;
    modifyCfg (set_Username "") ;;
    modifyCfg (set_ExpiresAt 0) ;;
    err <- SaveConfig ;;
    match err with
    | Some err => ret (Some (Errorf_w "failed to save config: " err))
    | None => ret None
    end.

(** [whoamiCmd]; the JSON and YAML cases ignore the encoder's error. *)
Definition whoamiRunE : M (option error) :=
  ok <- IsLoggedIn ;;
  if negb ok then ret (Some errNotLoggedIn)
  else
    client <- NewClient ;;
    resp <- GetCurrentUser client ;;
    match resp with
    | Fail err => ret (Some (Errorf_w "failed to get user info: " err))
    | Ok _ => ret None
    end.

(** *** web.go: helpers *)

(** [formatLimit]. *)
Definition formatLimit (limit : Z) : string :=
  if limit <? 0 then "unlimited" else Itoa limit.

(** [buildWebURL]. *)
Definition buildWebURL (host : string) (port : Z) (domain : string)
    (ssl : bool) : string :=
  let scheme := if ssl then "https" else "http" in
  if negb (String.eqb domain "") then
    if ssl && (port =? 443) then scheme ++ "://" ++ domain
    else if negb ssl && (port =? 80) then scheme ++ "://" ++ domain
    else scheme ++ "://" ++ domain ++ ":" ++ Itoa port
  else if (port =? 80) || (port =? 443) then scheme ++ "://" ++ host
  else scheme ++ "://" ++ host ++ ":" ++ Itoa port.

(** *** server.go: resolution *)

(** The loop of [findServerByNameOrID]: the first element of the
    listing whose name is the reference. *)
Fixpoint scanByName (nameOrID : string) (servers : list Server)
  : option Server :=
  match servers with
  | [] => None
  | s :: rest =>
      if String.eqb (Server_Name s) nameOrID then Some s
      else scanByName nameOrID rest
  end.

(** [findServerByNameOrID]. *)
Definition findServerByNameOrID (client : Client) (nameOrID : string)
  : M (result Server) :=
  r <- GetServer client nameOrID ;;
  match r with
  | Ok server => ret (Ok server)
  | Fail _ =>
    l <- ListServers client ;;
    match l with
    | Fail _ => ret (Fail (Errorf ("server not found: " ++ nameOrID)))
    | Ok servers =>
      match scanByName nameOrID servers with
      | Some s => ret (Ok s)
      | None => ret (Fail (Errorf ("server not found: " ++ nameOrID)))
      end
    end
  end.

(** *** ssh.go: helpers *)

(** [parseSSHHost]. *)
Definition parseSSHHost (hostArg : string) : string * string :=
  if containsByte "@"%char hostArg then splitFirst "@"%char hostArg
  else ("", hostArg).

(** [buildSSHArgs]; [v] holds the package-level [sshPort] and [sshKey]
    the function reads. *)
Definition buildSSHArgs (v : Vars) (user host : string) : list string :=
  let args : list string := [] in
  let args := if negb (sshPort v =? 0)
              then (args ++ ["-p"; Itoa (sshPort v)])%list else args in
  let args := if negb (String.eqb (sshKey v) "")
              then (args ++ ["-i"; sshKey v])%list else args in
  let target := if negb (String.eqb user "")
                then user ++ "@" ++ host else host in
  (args ++ [target])%list.

(** [runSSHCommand]. *)
Definition runSSHCommand (sshArgs : list string) (command : string)
  : M (option error) :=
  r <- readEnv (exec_LookPath P "ssh") ;;
  match r with
  | Fail _ =>
      ret (Some (Errorf "ssh not found in PATH. Please install OpenSSH"))
  | Ok sshPath =>
      let fullArgs := (sshArgs ++ [command])%list in
      log (EvRun sshPath fullArgs) ;;
      liftEnv (exec_Run P sshPath fullArgs)
  end.

(** The user and host both [ssh] commands connect as: a [--user] flag
    (the package-level [sshUser]) overrides the user of [user@host], and
    the default is [root]. *)
Definition sshTarget (v : Vars) (hostArg : string) : string * string :=
  let (user, host) := parseSSHHost hostArg in
  let user := if negb (String.eqb (sshUser v) "") then sshUser v
              else user in
  let user := if String.eqb user "" then "root" else user in
  (user, host).

(** [cfg.CloudURL], or the default when it is empty. *)
Definition cloudURLOrDefault (c : Config) : string :=
  if String.eqb (CloudURL c) "" then "https://api.vstats.zsoft.cc"
  else CloudURL c.

(** The remote command of [sshAgentCmd]. *)
Definition agentInstallCmd (cloudURL token serverName : string) : string :=
  "curl -fsSL https://vstats.zsoft.cc/agent.sh | sudo bash -s --"
  ++ " --server " ++ dq ++ cloudURL ++ dq
  ++ " --token " ++ dq ++ token ++ dq
  ++ " --name " ++ dq ++ serverName ++ dq.

(** The remote command of [sshWebCmd]. *)
Definition webInstallCmd (cloudURL token : string) (webPort : Z)
    (domain : string) (enableSSL : bool) : string :=
  let installCmd :=
    "curl -fsSL https://vstats.zsoft.cc/install.sh | sudo bash -s --"
    ++ " --cloud-mode --cloud-url " ++ dq ++ cloudURL ++ dq
    ++ " --cloud-token " ++ dq ++ token ++ dq
    ++ " --port " ++ Itoa webPort in
  if enableSSL && negb (String.eqb domain "")
  then installCmd ++ " --ssl --domain " ++ dq ++ domain ++ dq
  else installCmd.

(** The defaults of [sshWebCmd] for the dashboard name and port. *)
Definition defaultWebName (webName host : string) : string :=
  if String.eqb webName "" then "web-" ++ host else webName.

Definition defaultWebPort (webPort : Z) : Z :=
  if webPort =? 0 then 3001 else webPort.

(** The default of [sshAgentCmd] for the server name. *)
Definition defaultServerName (serverName host : string) : string :=
  if String.eqb serverName "" then host else serverName.

(** *** output.go: relative times

    [formatTimeAgo] answers "-" for [nil] and otherwise compares the time
    with the clock ([time.Since]).  The text goes to the table that is
    printed; what is kept here is the reading of the clock. *)
Definition formatTimeAgo (t : option Time) : M unit :=
  match t with
  | None => ret tt
  | Some _ => Now ;; ret tt
  end.

(** A [for ... range] loop run for its effects. *)
Fixpoint forEach {A : Type} (xs : list A) (body : A -> M unit) : M unit :=
  match xs with
  | [] => ret tt
  | x :: rest => body x ;; forEach rest body
  end.

(** *** server.go: commands

    Each [RunE] takes the positional arguments and the flags the
    command reads with [cmd.Flags()]. *)

(** [serverListCmd]. *)
Definition serverListRunE : M (option error) :=
  err <- requireLogin ;;
  match err with
  | Some err => ret (Some err)
  | None =>
    client <- NewClient ;;
    r <- ListServers client ;;
    match r with
    | Fail err => ret (Some (Errorf_w "failed to list servers: " err))
    | Ok servers =>
      v <- getVars ;;
      if String.eqb (outputFmt v) "json" then OutputJSON TServers servers
      else if String.eqb (outputFmt v) "yaml" then OutputYAML TServers servers
      else
        (* one table row per server; none when the listing is empty *)
        forEach servers (fun s => formatTimeAgo (LastSeenAt s)) ;;
        ret None
    end
  end.

(** [serverCreateCmd]. *)
Definition serverCreateRunE (name : string) : M (option error) :=
  err <- requireLogin ;;
  match err with
  | Some err => ret (Some err)
  | None =>
    client <- NewClient ;;
    r <- CreateServer client name ;;
    match r with
    | Fail err => ret (Some (Errorf_w "failed to create server: " err))
    | Ok server => output TServer server
    end
  end.

(** [serverShowCmd]. *)
Definition serverShowRunE (serverID : string) : M (option error) :=
  err <- requireLogin ;;
  match err with
  | Some err => ret (Some err)
  | None =>
    client <- NewClient ;;
    r <- findServerByNameOrID client serverID ;;
    match r with
    | Fail err => ret (Some err)
    | Ok server => output TServer server
    end
  end.

(** The confirmation prompt of the delete and remove commands: [true]
    when the answer is "y" or "yes" in any letter case. *)
Definition confirmed : M bool :=
  confirm <- liftEnv (fmt_Scanln P) ;;
  ret (negb (negb (String.eqb (strings_ToLower P confirm) "y")
             && negb (String.eqb (strings_ToLower P confirm) "yes"))).

(** [serverDeleteCmd]. *)
Definition serverDeleteRunE (serverID : string) (force : bool)
  : M (option error) :=
  err <- requireLogin ;;
  match err with
  | Some err => ret (Some err)
  | None =>
    client <- NewClient ;;
    r <- findServerByNameOrID client serverID ;;
    match r with
    | Fail err => ret (Some err)
    | Ok server =>
      go <- (if negb force then confirmed else ret true) ;;
      if negb go then ret None
      else
        err <- DeleteServer client (Server_ID server) ;;
        match err with
        | Some err => ret (Some (Errorf_w "failed to delete server: " err))
        | None => ret None
        end
    end
  end.

(** [serverUpdateCmd]. *)
Definition serverUpdateRunE (serverID name : string) : M (option error) :=
  err <- requireLogin ;;
  match err with
  | Some err => ret (Some err)
  | None =>
    if String.eqb name "" then
      ret (Some (Errorf
        "no changes specified. Use --name to update the server name"))
    else
      client <- NewClient ;;
      r <- findServerByNameOrID client serverID ;;
      match r with
      | Fail err => ret (Some err)
      | Ok server =>
        u <- UpdateServer client (Server_ID server) name ;;
        match u with
        | Fail err => ret (Some (Errorf_w "failed to update server: " err))
        | Ok updated => output TServer updated
        end
      end
  end.

(** [serverMetricsCmd]. *)
Definition serverMetricsRunE (serverID : string) : M (option error) :=
  err <- requireLogin ;;
  match err with
  | Some err => ret (Some err)
  | None =>
    client <- NewClient ;;
    r <- findServerByNameOrID client serverID ;;
    match r with
    | Fail err => ret (Some err)
    | Ok server =>
      m <- GetServerMetrics client (Server_ID server) ;;
      match m with
      | Fail err => ret (Some (Errorf_w "failed to get metrics: " err))
      | Ok resp =>
        match MetricsResponse_Metrics resp with
        | None => ret None
        | Some metrics => output TServerMetrics metrics
        end
      end
    end
  end.

(** [serverHistoryCmd]. *)
Definition serverHistoryRunE (serverID rangeStr : string)
  : M (option error) :=
  err <- requireLogin ;;
  match err with
  | Some err => ret (Some err)
  | None =>
    let rangeStr := if String.eqb rangeStr "" then "1h" else rangeStr in
    client <- NewClient ;;
    r <- findServerByNameOrID client serverID ;;
    match r with
    | Fail err => ret (Some err)
    | Ok server =>
      h <- GetServerHistory client (Server_ID server) rangeStr ;;
      match h with
      | Fail err => ret (Some (Errorf_w "failed to get history: " err))
      | Ok history => output TMetricsHistory history
      end
    end
  end.

(** [serverInstallCmd]. *)
Definition serverInstallRunE (serverID : string) : M (option error) :=
  err <- requireLogin ;;
  match err with
  | Some err => ret (Some err)
  | None =>
    client <- NewClient ;;
    r <- findServerByNameOrID client serverID ;;
    match r with
    | Fail err => ret (Some err)
    | Ok server =>
      i <- GetInstallCommand client (Server_ID server) ;;
      match i with
      | Fail err =>
          ret (Some (Errorf_w "failed to get install command: " err))
      | Ok resp => output TInstallCommandResponse resp
      end
    end
  end.

(** [serverKeyCmd]. *)
Definition serverKeyRunE (serverID : string) (regenerate : bool)
  : M (option error) :=
  err <- requireLogin ;;
  match err with
  | Some err => ret (Some err)
  | None =>
    client <- NewClient ;;
    r <- findServerByNameOrID client serverID ;;
    match r with
    | Fail err => ret (Some err)
    | Ok server =>
      if regenerate then
        k <- RegenerateAgentKey client (Server_ID server) ;;
        match k with
        | Fail err => ret (Some (Errorf_w "failed to regenerate key: " err))
        | Ok resp => output TAgentKeyResponse resp
        end
      else output TStringMap [("agent_key", AgentKey server)]
    end
  end.

(** *** web.go: commands *)

(** [webListCmd]. *)
Definition webListRunE : M (option error) :=
  err <- requireLogin ;;
  match err with
  | Some err => ret (Some err)
  | None =>
    client <- NewClient ;;
    '(instances, err) <- ListWebInstances client ;;
    match err with
    | Some err => ret (Some (Errorf_w "failed to list web instances: " err))
    | None =>
      v <- getVars ;;
      if String.eqb (outputFmt v) "json"
      then OutputJSON TWebInstances instances
      else if String.eqb (outputFmt v) "yaml"
      then OutputYAML TWebInstances instances
      else
        (* one table row per instance; none when the listing is empty *)
        forEach instances
          (fun i => formatTimeAgo (Some (WebInstance_CreatedAt i))) ;;
        ret None
    end
  end.

(** [webRemoveCmd]. *)
Definition webRemoveRunE (instanceID : string) (force : bool)
  : M (option error) :=
  err <- requireLogin ;;
  match err with
  | Some err => ret (Some err)
  | None =>
    client <- NewClient ;;
    '(instance, err) <- GetWebInstance client instanceID ;;
    match err with
    | Some _ =>
        ret (Some (Errorf ("web instance not found: " ++ instanceID)))
    | None =>
      go <- (if negb force then confirmed else ret true) ;;
      if negb go then ret None
      else
        err <- RemoveWebInstance client (WebInstance_ID instance) ;;
        match err with
        | Some err =>
            ret (Some (Errorf_w "failed to remove instance: " err))
        | None => ret None
        end
    end
  end.

(** [webStatusCmd]. *)
Definition webStatusRunE : M (option error) :=
  err <- requireLogin ;;
  match err with
  | Some err => ret (Some err)
  | None =>
    client <- NewClient ;;
    '(plan, err) <- GetUserPlan client ;;
    match err with
    | Some err => ret (Some (Errorf_w "failed to get plan: " err))
    | None =>
      '(instances, err) <- ListWebInstances client ;;
      match err with
      | Some err => ret (Some (Errorf_w "failed to list instances: " err))
      | None => output TPlanInstances (plan, instances)
      end
    end
  end.

(** [webCheckCmd]. *)
Definition webCheckRunE (instanceID : string) : M (option error) :=
  err <- requireLogin ;;
  match err with
  | Some err => ret (Some err)
  | None =>
    client <- NewClient ;;
    '(instance, err) <- GetWebInstance client instanceID ;;
    match err with
    | Some _ =>
        ret (Some (Errorf ("web instance not found: " ++ instanceID)))
    | None =>
      '(status, err) <- CheckWebInstance client (WebInstance_ID instance) ;;
      match err with
      | Some _ => ret None
      | None => output TWebInstanceStatus status
      end
    end
  end.

(** *** ssh.go: commands *)

(** [sshAgentCmd], with the flags [--name] and [--server]. *)
Definition sshAgentRunE (hostArg serverName existingServerID : string)
  : M (option error) :=
  err <- requireLogin ;;
  match err with
  | Some err => ret (Some err)
  | None =>
    v <- getVars ;;
    let (user, host) := sshTarget v hostArg in
    let serverName := defaultServerName serverName host in
    client <- NewClient ;;
    r <- (if negb (String.eqb existingServerID "") then
            r <- findServerByNameOrID client existingServerID ;;
            match r with
            | Fail err => ret (Fail err)
            | Ok server => ret (Ok (Server_ID server, AgentKey server))
            end
          else
            r <- CreateServer client serverName ;;
            match r with
            | Fail err =>
                ret (Fail (Errorf_w "failed to create server: " err))
            | Ok server => ret (Ok (Server_ID server, AgentKey server))
            end) ;;
    match r with
    | Fail err => ret (Some err)
    | Ok _ =>
      let sshArgs := buildSSHArgs v user host in
      c <- getCfg ;;
      let installCmd :=
        agentInstallCmd (cloudURLOrDefault c) (Token c) serverName in
      err <- runSSHCommand sshArgs installCmd ;;
      match err with
      | Some err => ret (Some (Errorf_w "deployment failed: " err))
      | None => ret None
      end
    end
  end.

(** The instance [sshWebCmd] registers: name, host, port and URL, every
    other field at its zero value. *)
Definition newWebInstance (name host : string) (port : Z) (url : string)
  : WebInstance :=
  {| WebInstance_ID := ""; WebInstance_Name := name; Host := host;
     Port := port; URL := url; WebInstance_Status := ""; Version := "";
     CloudMode := false; SSLEnabled := false; WebInstance_CreatedAt := 0;
     LastCheckAt := None |}.

Definition set_Status (v : string) (i : WebInstance) : WebInstance :=
  {| WebInstance_ID := WebInstance_ID i;
     WebInstance_Name := WebInstance_Name i; Host := Host i;
     Port := Port i; URL := URL i; WebInstance_Status := v;
     Version := Version i; CloudMode := CloudMode i;
     SSLEnabled := SSLEnabled i;
     WebInstance_CreatedAt := WebInstance_CreatedAt i;
     LastCheckAt := LastCheckAt i |}.

Definition errLimitReached : error := Errorf "web instance limit reached".

(** [sshWebCmd], with the flags [--name], [--web-port], [--domain] and
    [--ssl]. *)
Definition sshWebRunE (hostArg webName : string) (webPort : Z)
    (domain : string) (enableSSL : bool) : M (option error) :=
  err <- requireLogin ;;
  match err with
  | Some err => ret (Some err)
  | None =>
    client <- NewClient ;;
    '(plan, err) <- GetUserPlan client ;;
    match err with
    | Some err => ret (Some (Errorf_w "failed to check plan: " err))
    | None =>
      if negb (IsPro plan) && (CurrentCount plan >=? MaxWebApps plan)
      then ret (Some errLimitReached)
      else
        v <- getVars ;;
        let (user, host) := sshTarget v hostArg in
        let webName := defaultWebName webName host in
        let webPort := defaultWebPort webPort in
        '(instance, err) <-
          RegisterWebInstance client
            (newWebInstance webName host webPort
               (buildWebURL host webPort domain enableSSL)) ;;
        match err with
        | Some err =>
            ret (Some (Errorf_w "failed to register web instance: " err))
        | None =>
          let sshArgs := buildSSHArgs v user host in
          c <- getCfg ;;
          let installCmd :=
            webInstallCmd (cloudURLOrDefault c) (Token c) webPort domain
                          enableSSL in
          err <- runSSHCommand sshArgs installCmd ;;
          match err with
          | Some err =>
              _ <- RemoveWebInstance client (WebInstance_ID instance) ;;
              ret (Some (Errorf_w "deployment failed: " err))
          | None =>
              _ <- UpdateWebInstance client (set_Status "online" instance) ;;
              ret None
          end
        end
    end
  end.

(** *** The commands that need a session

    [whoami] and every command of the [server], [web] and [ssh]
    groups. *)

Inductive AuthCommand : Type :=
| Whoami
| ServerList
| ServerCreate (name : string)
| ServerShow (serverID : string)
| ServerDelete (serverID : string) (force : bool)
| ServerUpdate (serverID name : string)
| ServerMetricsCmd (serverID : string)
| ServerHistory (serverID rangeStr : string)
| ServerInstall (serverID : string)
| ServerKey (serverID : string) (regenerate : bool)
| WebList
| WebRemove (instanceID : string) (force : bool)
| WebStatus
| WebCheck (instanceID : string)
| SSHAgent (hostArg serverName existingServerID : string)
| SSHWeb (hostArg webName : string) (webPort : Z) (domain : string)
         (enableSSL : bool).

Definition RunE (c : AuthCommand) : M (option error) :=
  match c with
  | Whoami => whoamiRunE
  | ServerList => serverListRunE
  | ServerCreate name => serverCreateRunE name
  | ServerShow serverID => serverShowRunE serverID
  | ServerDelete serverID force => serverDeleteRunE serverID force
  | ServerUpdate serverID name => serverUpdateRunE serverID name
  | ServerMetricsCmd serverID => serverMetricsRunE serverID
  | ServerHistory serverID rangeStr => serverHistoryRunE serverID rangeStr
  | ServerInstall serverID => serverInstallRunE serverID
  | ServerKey serverID regenerate => serverKeyRunE serverID regenerate
  | WebList => webListRunE
  | WebRemove instanceID force => webRemoveRunE instanceID force
  | WebStatus => webStatusRunE
  | WebCheck instanceID => webCheckRunE instanceID
  | SSHAgent hostArg serverName existingServerID =>
      sshAgentRunE hostArg serverName existingServerID
  | SSHWeb hostArg webName webPort domain enableSSL =>
      sshWebRunE hostArg webName webPort domain enableSSL
  end.

(** *** config.go: reading and setting the configuration *)

Context (F : FileReader Env).

Definition set_CloudURL (v : string) (c : Config) : Config :=
  {| CloudURL := v; Token := Token c; Username := Username c;
     ExpiresAt := ExpiresAt c |}.

(** [LoadConfig]; the decoder works on the package-level configuration in
    place, so what it has filled in stays even when it fails. *)
Definition LoadConfig (path : string) : M (option error) :=
  p <- (if String.eqb path "" then GetConfigPath else ret (Ok path)) ;;
  match p with
  | Fail err => ret (Some err)
  | Ok path =>
    data <- readEnv (os_ReadFile F path) ;;
    match data with
    | Fail err =>
        if os_IsNotExist F err then ret None else ret (Some err)
    | Ok data =>
        c <- getCfg ;;
        let (c', err) := yaml_Unmarshal F data c in
        modifyCfg (fun _ => c') ;;
        ret err
    end
  end.

(** [initConfig] (root.go); [cfgFile] and [cloudURL] are the package-level
    variables of the [--config] and [--cloud-url] flags.  A load error
    is only printed. *)
Definition initConfig (cfgFile cloudURL : string) : M unit :=
  _ <- LoadConfig cfgFile ;;
  if negb (String.eqb cloudURL "") then modifyCfg (set_CloudURL cloudURL)
  else ret tt.

(** [configSetCmd]. *)
Definition configSetRunE (key value : string) : M (option error) :=
  if String.eqb key "cloud_url" then
    modifyCfg (set_CloudURL value) ;;
    err <- SaveConfig ;;
    match err with
    | Some err => ret (Some (Errorf_w "failed to save config: " err))
    | None => ret None
    end
  else ret (Some (Errorf ("unknown configuration key: " ++ key))).

(** [configPathCmd]. *)
Definition configPathRunE : M (option error) :=
  path <- GetConfigPath ;;
  match path with
  | Fail err => ret (Some err)
  | Ok _ => ret None
  end.

(** *** web.go and output.go: status rendering *)

(** The escape character that starts a terminal colour code. *)
Definition ESC : string := String (ascii_of_nat 27) EmptyString.

Definition ColorReset : string := ESC ++ "[0m".
Definition ColorRed : string := ESC ++ "[31m".
Definition ColorGreen : string := ESC ++ "[32m".
Definition ColorYellow : string := ESC ++ "[33m".
Definition ColorGray : string := ESC ++ "[90m".

(** [color]. *)
Definition color (v : Vars) (c text : string) : string :=
  if noColor v then text else c ++ text ++ ColorReset.

(** [statusColor]. *)
Definition statusColor (status : string) : string :=
  let s := strings_ToLower P status in
  if String.eqb s "online" || String.eqb s "active"
     || String.eqb s "healthy" then ColorGreen
  else if String.eqb s "offline" || String.eqb s "inactive"
          || String.eqb s "unhealthy" then ColorRed
  else if String.eqb s "pending" || String.eqb s "connecting"
  then ColorYellow
  else ColorGray.

(** [statusIcon]. *)
Definition statusIcon (status : string) : string :=
  let s := strings_ToLower P status in
  if String.eqb s "online" || String.eqb s "active"
     || String.eqb s "healthy" then "●"
  else if String.eqb s "offline" || String.eqb s "inactive"
          || String.eqb s "unhealthy" then "○"
  else if String.eqb s "pending" || String.eqb s "connecting" then "◐"
  else "?".

(** [formatStatus]. *)
Definition formatStatus (v : Vars) (status : string) : string :=
  let icon := statusIcon status in
  let c := statusColor status in
  color v c (icon ++ " " ++ status).

(** [formatWebStatus]. *)
Definition formatWebStatus (v : Vars) (status : string) : string :=
  if String.eqb status "online" then
    if noColor v then "● online" else ESC ++ "[32m● online" ++ ESC ++ "[0m"
  else if String.eqb status "offline" then
    if noColor v then "○ offline" else ESC ++ "[31m○ offline" ++ ESC ++ "[0m"
  else if String.eqb status "pending" then
    if noColor v then "◐ pending" else ESC ++ "[33m◐ pending" ++ ESC ++ "[0m"
  else status.


End Commands.

(** ** A test double for the platform

    A small cloud with a fixed set of answers, used to run the commands
    on concrete inputs.  The environment counts the interactions that may
    change it. *)

Module Fake.

Definition Env : Type := nat.

Record Scenario : Type := {
  sc_plan : UserPlan;         (* the answer to GET /api/user/plan *)
  sc_servers : list Server;   (* the answer to GET /api/servers *)
  sc_listFails : bool;        (* GET /api/servers fails in transport *)
  sc_sshFails : bool;         (* the ssh child exits with status 1 *)
  sc_now : Time               (* the clock *)
}.

Definition mkServer (id name : string) : Server :=
  {| Server_ID := id; Server_Name := name; Hostname := None;
     IPAddress := None; AgentKey := "key-" ++ id; AgentVersion := None;
     OSType := None; OSVersion := None; Server_Status := "online";
     LastSeenAt := None; Server_CreatedAt := 0; Metrics := None |}.

Definition registered : WebInstance :=
  {| WebInstance_ID := "w-7"; WebInstance_Name := "web-h"; Host := "h";
     Port := 3001; URL := "http://h:3001";
     WebInstance_Status := "pending"; Version := ""; CloudMode := true;
     SSLEnabled := false; WebInstance_CreatedAt := 0;
     LastCheckAt := None |}.

Definition verified : VerifyResponse :=
  {| Valid := true; UserID := "u-1"; VerifyResponse_Username := "alice";
     VerifyResponse_Plan := "free" |}.

Definition base : string := DefaultCloudURL.

(** The transport: the server [srv-1] exists, every other id is
    unknown, and deleting a web instance fails in transport. *)
Definition respond (sc : Scenario) (req : Request) : result Response :=
  let m := Method req in
  let u := Request_URL req in
  let ok := Ok {| StatusCode := 200; Response_Body := Ok "{}" |} in
  let notFound := Ok {| StatusCode := 404; Response_Body := Ok "gone" |} in
  if String.eqb m "GET" && String.eqb u (base ++ "/api/servers/srv-1")
  then ok
  else if String.eqb m "GET" && String.prefix (base ++ "/api/servers/") u
  then notFound
  else if String.eqb m "GET" && String.eqb u (base ++ "/api/servers")
  then (if sc_listFails sc then Fail (Errorf "connection refused") else ok)
  else if String.eqb m "DELETE"
          && String.prefix (base ++ "/api/web/instances/") u
  then Fail (Errorf "connection reset")
  else ok.

Definition http (sc : Scenario) (req : Request) (e : Env)
  : result Response * Env :=
  (respond sc req, S e).

(** The decoder ignores the body and answers by the type asked for; an
    error payload never decodes. *)
Definition unmarshal (sc : Scenario) (t : ty)
  : string -> denote t -> denote t * option error :=
  match t with
  | TAPIError => fun _ v => (v, Some (Errorf "invalid character"))
  | TServer => fun _ _ => (mkServer "srv-1" "alpha", None)
  | TServers => fun _ _ => (sc_servers sc, None)
  | TUserPlan => fun _ _ => (sc_plan sc, None)
  | TWebInstance => fun _ _ => (registered, None)
  | TVerifyResponse => fun _ _ => (verified, None)
  | _ => fun _ v => (v, None)
  end.

Definition encodeConfig (c : Config) : string :=
  "token: " ++ Token c ++ "; username: " ++ Username c
  ++ "; expires_at: " ++ Itoa (ExpiresAt c).

Definition yaml (t : ty) : denote t -> result string :=
  match t with
  | TConfig => fun c => Ok (encodeConfig c)
  | _ => fun _ => Ok "-"
  end.

Definition platform (sc : Scenario) : Platform Env :=
  {| json_Marshal := fun _ _ => Ok "{}";
     json_MarshalIndent := fun _ _ => Ok "{}";
     json_Unmarshal := unmarshal sc;
     yaml_Marshal := yaml;
     http_NewRequest := fun _ _ => None;
     http_Do := http sc;
     os_UserHomeDir := fun _ => Ok "/home/u";
     filepath_Join := fun a b => a ++ "/" ++ b;
     filepath_Dir := fun _ => "/home/u/.vstats";
     os_MkdirAll := fun _ _ e => (None, S e);
     os_WriteFile := fun _ _ _ e => (None, S e);
     exec_LookPath := fun _ _ => Ok "/usr/bin/ssh";
     exec_Run := fun _ _ e =>
       (if sc_sshFails sc then Some (Errorf "exit status 1") else None,
        S e);
     term_IsTerminal := fun _ => false;
     term_ReadPassword := fun e => (Ok "", S e);
     bufio_ReadString := fun e => (Ok "", S e);
     fmt_Scanln := fun e => ("", S e);
     strings_TrimSpace := fun s => s;
     strings_ToLower := fun s => s;
     time_Now := fun e => (sc_now sc, e) |}.

Definition freePlan (count : Z) : UserPlan :=
  {| Plan := "free"; MaxWebApps := 1; CurrentCount := count;
     IsPro := false |}.

Definition scenario (plan : UserPlan) (servers : list Server)
    (listFails sshFails : bool) : Scenario :=
  {| sc_plan := plan; sc_servers := servers; sc_listFails := listFails;
     sc_sshFails := sshFails; sc_now := 1700000000123456789 |}.

Definition flags (token : string) : Vars :=
  {| version := "dev"; outputFmt := "table"; noColor := false;
     loginToken := token; sshUser := ""; sshPort := 0; sshKey := "" |}.

(** A fresh process with a session, and one without. *)
Definition loggedIn : World Env :=
  {| cfg := {| CloudURL := DefaultCloudURL; Token := "tok";
               Username := "alice"; ExpiresAt := 1700604800 |};
     vars := flags ""; env := O; trace := [] |}.

Definition loggedOut : World Env :=
  {| cfg := {| CloudURL := DefaultCloudURL; Token := "";
               Username := ""; ExpiresAt := 0 |};
     vars := flags ""; env := O; trace := [] |}.

(** The listing used below: two servers are named "web", after one
    named "WEB". *)
Definition listing : list Server :=
  [mkServer "s-1" "WEB"; mkServer "s-2" "web"; mkServer "s-3" "web"].

(** A free plan with room, a cloud whose ssh step fails, and a free
    plan that is full. *)
Definition cloud : Platform Env :=
  platform (scenario (freePlan 0) listing false false).

Definition cloudSSHFails : Platform Env :=
  platform (scenario (freePlan 0) listing false true).

Definition cloudFull : Platform Env :=
  platform (scenario (freePlan 1) listing false false).

Definition cloudListFails : Platform Env :=
  platform (scenario (freePlan 0) listing true false).

(** A non-pro plan whose maximum is the negative "unlimited" value. *)
Definition cloudNegative : Platform Env :=
  platform
    (scenario {| Plan := "free"; MaxWebApps := -1; CurrentCount := 0;
                 IsPro := false |} listing false false).

Definition client : Client :=
  {| BaseURL := DefaultCloudURL; Client_Token := "tok" |}.

(** A process started as [vstats login --token t0k], with no session. *)
Definition atLogin : World Env :=
  {| cfg := cfg loggedOut; vars := flags "t0k"; env := O; trace := [] |}.

(** The error of a failed result. *)
Definition errorOf {T : Type} (r : result T) : error :=
  match r with
  | Fail e => e
  | Ok _ => Errorf ""
  end.

(** The cloud [p] behind a transport that fails, with [cause], for the
    one request with method [method] and URL [url]. *)
Definition failing (p : Platform Env) (method url : string)
    (cause : error) : Platform Env :=
  {| json_Marshal := json_Marshal p;
     json_MarshalIndent := json_MarshalIndent p;
     json_Unmarshal := json_Unmarshal p;
     yaml_Marshal := yaml_Marshal p;
     http_NewRequest := http_NewRequest p;
     http_Do := fun req e =>
       if String.eqb (Method req) method
          && String.eqb (Request_URL req) url
       then (Fail cause, S e)
       else http_Do p req e;
     os_UserHomeDir := os_UserHomeDir p;
     filepath_Join := filepath_Join p;
     filepath_Dir := filepath_Dir p;
     os_MkdirAll := os_MkdirAll p;
     os_WriteFile := os_WriteFile p;
     exec_LookPath := exec_LookPath p;
     exec_Run := exec_Run p;
     term_IsTerminal := term_IsTerminal p;
     term_ReadPassword := term_ReadPassword p;
     bufio_ReadString := bufio_ReadString p;
     fmt_Scanln := fmt_Scanln p;
     strings_TrimSpace := strings_TrimSpace p;
     strings_ToLower := strings_ToLower p;
     time_Now := time_Now p |}.

(** A cloud whose health check times out, one that refuses to register
    an instance, and one whose plan is "pro" and over its maximum. *)
Definition cloudCheckFails : Platform Env :=
  failing cloud "GET" (base ++ "/api/web/instances/w-7/check")
    (Errorf "timeout").

Definition cloudRegisterFails : Platform Env :=
  failing cloud "POST" (base ++ "/api/web/instances")
    (Errorf "connection refused").

Definition cloudPro : Platform Env :=
  platform
    (scenario {| Plan := "pro"; MaxWebApps := 1; CurrentCount := 5;
                 IsPro := true |} listing false false).

(** A file system that holds no configuration file until something was
    written (the environment counts the writes), and then holds the
    session of [loggedIn]; the decoder knows that one document. *)
Definition notExist : error := Errorf "no such file or directory".

Definition reader : FileReader Env :=
  {| os_ReadFile := fun _ e =>
       match e with
       | O => Fail notExist
       | S _ => Ok (encodeConfig (cfg loggedIn))
       end;
     os_IsNotExist := fun err =>
       String.eqb (Error err) "no such file or directory";
     yaml_Unmarshal := fun data c =>
       if String.eqb data (encodeConfig (cfg loggedIn))
       then (cfg loggedIn, None)
       else (c, Some (Errorf "yaml: unmarshal errors")) |}.

Definition plainFlags : Vars :=
  {| version := "dev"; outputFmt := "table"; noColor := true;
     loginToken := ""; sshUser := ""; sshPort := 0; sshKey := "" |}.


(** A cloud whose listing has a server that was seen. *)
Definition cloudSeen : Platform Env :=
  platform
    (scenario (freePlan 0)
       [mkServer "s-1" "alpha";
        {| Server_ID := "s-2"; Server_Name := "beta"; Hostname := None;
           IPAddress := None; AgentKey := "key-s-2"; AgentVersion := None;
           OSType := None; OSVersion := None; Server_Status := "online";
           LastSeenAt := Some 1700000000000000000; Server_CreatedAt := 0;
           Metrics := None |}]
       false false).

End Fake.

(** ** A test double with a disk

    The environment is the content of the file system, the latest write
    first; there is no network.  The codec writes one field per line. *)

Module Disk.

Definition Env : Type := list (string * string).

Fixpoint read (path : string) (e : Env) : result string :=
  match e with
  | [] => Fail Fake.notExist
  | (p, data) :: rest => if String.eqb p path then Ok data else read path rest
  end.

Definition nl : string := String (ascii_of_nat 10) EmptyString.

Definition encode (c : Config) : string :=
  CloudURL c ++ nl ++ Token c ++ nl ++ Username c ++ nl
  ++ Itoa (ExpiresAt c).

Definition decode (data : string) (c : Config) : Config * option error :=
  let (url, r1) := splitFirst (ascii_of_nat 10) data in
  let (token, r2) := splitFirst (ascii_of_nat 10) r1 in
  let (username, expiry) := splitFirst (ascii_of_nat 10) r2 in
  match NilEmpty.int_of_string expiry with
  | Some n =>
      ({| CloudURL := url; Token := token; Username := username;
          ExpiresAt := Z.of_int n |}, None)
  | None =>
      ({| CloudURL := url; Token := token; Username := username;
          ExpiresAt := ExpiresAt c |},
       Some (Errorf "yaml: unmarshal errors"))
  end.

Definition yaml (t : ty) : denote t -> result string :=
  match t with
  | TConfig => fun c => Ok (encode c)
  | _ => fun _ => Ok "-"
  end.

Definition platform : Platform Env :=
  {| json_Marshal := json_Marshal Fake.cloud;
     json_MarshalIndent := json_MarshalIndent Fake.cloud;
     json_Unmarshal := json_Unmarshal Fake.cloud;
     yaml_Marshal := yaml;
     http_NewRequest := http_NewRequest Fake.cloud;
     http_Do := fun _ e => (Fail (Errorf "network is unreachable"), e);
     os_UserHomeDir := fun _ => Ok "/home/u";
     filepath_Join := filepath_Join Fake.cloud;
     filepath_Dir := filepath_Dir Fake.cloud;
     os_MkdirAll := fun _ _ e => (None, e);
     os_WriteFile := fun path data _ e => (None, (path, data) :: e);
     exec_LookPath := fun _ _ => Fail (Errorf "not found");
     exec_Run := fun _ _ e => (None, e);
     term_IsTerminal := fun _ => false;
     term_ReadPassword := fun e => (Ok "", e);
     bufio_ReadString := fun e => (Ok "", e);
     fmt_Scanln := fun e => ("", e);
     strings_TrimSpace := fun s => s;
     strings_ToLower := fun s => s;
     time_Now := fun e => (0, e) |}.

Definition reader : FileReader Env :=
  {| os_ReadFile := read;
     os_IsNotExist := os_IsNotExist Fake.reader;
     yaml_Unmarshal := decode |}.

(** A process with a session and an empty disk, and the configuration a
    new process starts with. *)
Definition session : World Env :=
  {| cfg := cfg Fake.loggedIn; vars := Fake.flags ""; env := [];
     trace := [] |}.

Definition fresh : Config := cfg Fake.loggedOut.

End Disk.

(** ** Properties *)

Section Properties.

Context {Env : Type} (P : Platform Env).
Context (FR : FileReader Env).

(** *** Vocabulary of the statements *)

(** Between [w] and [w'] the process made exactly the calls [calls] to
    the API client, in that order. *)
Definition issued (w w' : World Env) (calls : list (string * string))
  : Prop :=
  exists tr, trace w' = (trace w ++ tr)%list /\ api_calls tr = calls.

(** [w'] has the package-level variables of [w]. *)
Definition same_vars (w w' : World Env) : Prop :=
  cfg w' = cfg w /\ vars w' = vars w.

(** The client a command builds with [NewClient] in the world [w]. *)
Definition session_client (w : World Env) : Client := fst (NewClient w).

(** [s] is the first server of the listing whose name is exactly
    [name]. *)
Definition first_named (name : string) (servers : list Server)
    (s : Server) : Prop :=
  exists before after,
    servers = (before ++ s :: after)%list
    /\ Server_Name s = name
    /\ forall x, In x before -> Server_Name x <> name.

(** The text [s] occurs in [msg]. *)
Definition mentions (msg s : string) : Prop :=
  exists before after, msg = before ++ s ++ after.

(** The scheme of a dashboard URL, and the port that scheme implies. *)
Definition scheme (ssl : bool) : string := if ssl then "https" else "http".

Definition schemePort (ssl : bool) : Z := if ssl then 443 else 80.

(** The request [Client.Do] hands to [HTTPClient.Do] for a client, a
    client version, a method, a path and a serialised body;
    [Request_URL] is the URL string given to [http.NewRequest]. *)
Definition request_of (c : Client) (ver method path : string)
    (bodyReader : option string) : Request :=
  {| Method := method;
     Request_URL := BaseURL c ++ path;
     Header :=
       [("Content-Type", "application/json");
        ("Accept", "application/json");
        ("User-Agent", "vstats-cli/" ++ ver)]
       ++ (if String.eqb (Client_Token c) "" then []
           else [("Authorization", "Bearer " ++ Client_Token c)]);
     Request_Body := bodyReader |}.

(** The world after [Client.Do] was entered, and after its round trip
    left the environment [e]. *)
Definition entered (w : World Env) (method path : string) : World Env :=
  {| cfg := cfg w; vars := vars w; env := env w;
     trace := trace w ++ [EvDo method path] |}.

Definition answered (w : World Env) (method path : string) (req : Request)
    (e : Env) : World Env :=
  {| cfg := cfg w; vars := vars w; env := e;
     trace := (trace w ++ [EvDo method path]) ++ [EvRoundTrip req] |}.

(** A request of the client [c]: the URL string it was built for starts
    with the client's base URL, it says it speaks JSON, names the client
    version, and carries the bearer token exactly when the client has
    one. *)
Definition from_client (c : Client) (ver : string) (req : Request) : Prop :=
  String.prefix (BaseURL c) (Request_URL req) = true
  /\ In ("Content-Type", "application/json") (Header req)
  /\ In ("Accept", "application/json") (Header req)
  /\ In ("User-Agent", "vstats-cli/" ++ ver) (Header req)
  /\ forall v, In ("Authorization", v) (Header req)
               <-> Client_Token c <> "" /\ v = "Bearer " ++ Client_Token c.


(** The client of a session. *)
Definition client_of (c : Config) : Client :=
  {| BaseURL := CloudURL c; Client_Token := Token c |}.

(** The events a command of the session [cf0], [v0] may add to the
    trace: calls to the API client with a method in [okmethod], requests
    of the session's client, child processes if [okrun] and clock
    readings if [oknow]; never a write to the file system. *)
Definition allowed (cf0 : Config) (v0 : Vars) (okmethod : string -> Prop)
    (okrun oknow : Prop) (e : Event) : Prop :=
  match e with
  | EvDo method _ => okmethod method
  | EvRoundTrip req => from_client (client_of cf0) (version v0) req
  | EvRun _ _ => okrun
  | EvNow _ => oknow
  | EvMkdirAll _ _ => False
  | EvWriteFile _ _ _ => False
  end.

(** The computation [m], started in the session [cf0], [v0], ends in the
    same session, adds only allowed events, and returns a value in [Q]. *)
Definition keeps (cf0 : Config) (v0 : Vars) (okmethod : string -> Prop)
    (okrun oknow : Prop) {A : Type} (m : @M Env A) (Q : A -> Prop) : Prop :=
  forall w r w',
    cfg w = cf0 -> vars w = v0 -> m w = (r, w') ->
    cfg w' = cf0 /\ vars w' = v0
    /\ (exists tr, trace w' = (trace w ++ tr)%list
                   /\ Forall (allowed cf0 v0 okmethod okrun oknow) tr)
    /\ Q r.

(** The HTTP methods each command uses, the commands that run a child
    process, and the commands that read the clock. *)
Definition methods_of (c : AuthCommand) : list string :=
  match c with
  | Whoami => ["GET"]
  | ServerList => ["GET"]
  | ServerCreate _ => ["POST"]
  | ServerShow _ => ["GET"]
  | ServerDelete _ _ => ["GET"; "DELETE"]
  | ServerUpdate _ _ => ["GET"; "PUT"]
  | ServerMetricsCmd _ => ["GET"]
  | ServerHistory _ _ => ["GET"]
  | ServerInstall _ => ["GET"]
  | ServerKey _ regenerate => if regenerate then ["GET"; "POST"] else ["GET"]
  | WebList => ["GET"]
  | WebRemove _ _ => ["GET"; "DELETE"]
  | WebStatus => ["GET"]
  | WebCheck _ => ["GET"]
  | SSHAgent _ _ existingServerID =>
      if String.eqb existingServerID "" then ["POST"] else ["GET"]
  | SSHWeb _ _ _ _ _ => ["GET"; "POST"; "PUT"; "DELETE"]
  end.

Definition runs_process (c : AuthCommand) : bool :=
  match c with
  | SSHAgent _ _ _ => true
  | SSHWeb _ _ _ _ _ => true
  | _ => false
  end.

Definition reads_clock (c : AuthCommand) : bool :=
  match c with
  | ServerList => true
  | WebList => true
  | _ => false
  end.


(** The path of the configuration file under the home directory
    [home]. *)
Definition config_path (home : string) : string :=
  filepath_Join P (filepath_Join P home ".vstats") "config.yaml".

(** The configuration [c] with the session cleared. *)
Definition cleared (c : Config) : Config :=
  {| CloudURL := CloudURL c; Token := ""; Username := ""; ExpiresAt := 0 |}.


(** What [LoadConfig] does once it has the path of the file. *)
Definition loaded (path : string) (w : World Env)
  : option error * World Env :=
  match os_ReadFile FR path (env w) with
  | Fail e => (if os_IsNotExist FR e then None else Some e, w)
  | Ok data =>
      (snd (yaml_Unmarshal FR data (cfg w)),
       {| cfg := fst (yaml_Unmarshal FR data (cfg w));
          vars := vars w; env := env w; trace := trace w |})
  end.


(** *** Strings and traces *)

Lemma string_app_nil_r (s : string) : s ++ "" = s.
Proof. induction s as [|a s IH]; simpl; [reflexivity | now rewrite IH]. Qed.

Lemma string_app_assoc (a b c : string) : (a ++ b) ++ c = a ++ (b ++ c).
Proof. induction a as [|x a IH]; simpl; [reflexivity | now rewrite IH]. Qed.

Lemma string_length_app (a b : string) :
  String.length (a ++ b) = (String.length a + String.length b)%nat.
Proof. induction a as [|x a IH]; simpl; [reflexivity | now rewrite IH]. Qed.

Lemma api_calls_app (a b : list Event) :
  api_calls (a ++ b) = (api_calls a ++ api_calls b)%list.
Proof.
  induction a as [|e a IH]; simpl; [reflexivity|].
  destruct e; simpl; rewrite IH; reflexivity.
Qed.

Lemma issued_refl (w : World Env) : issued w w [].
Proof. exists []. rewrite app_nil_r. split; reflexivity. Qed.

Lemma issued_trans (w w1 w2 : World Env) c1 c2 :
  issued w w1 c1 -> issued w1 w2 c2 -> issued w w2 (c1 ++ c2)%list.
Proof.
  intros [t1 [H1 C1]] [t2 [H2 C2]].
  exists (t1 ++ t2)%list. split.
  - rewrite H2, H1, app_assoc. reflexivity.
  - rewrite api_calls_app, C1, C2. reflexivity.
Qed.

Lemma same_vars_refl (w : World Env) : same_vars w w.
Proof. split; reflexivity. Qed.

Lemma same_vars_trans (w w1 w2 : World Env) :
  same_vars w w1 -> same_vars w1 w2 -> same_vars w w2.
Proof.
  intros [A B] [C D]. split; congruence.
Qed.

(** Case analysis on every [match] and [if] a computation branches on. *)
Ltac split_run :=
  repeat match goal with
         | |- context [match ?x with _ => _ end] =>
             lazymatch x with
             | context [match _ with _ => _ end] => fail
             | _ => destruct x eqn:?
             end
         end.

(** *** The API client *)

Lemma Do_issued c method path body rt result w :
  issued w (snd (Do P c method path body rt result w)) [(method, path)].
Proof.
  unfold issued, Do, bind, log, getVars, liftEnv, ret.
  split_run; simpl;
    first [ exists [EvDo method path]; split; reflexivity
          | eexists; split;
            [ rewrite <- app_assoc; simpl; reflexivity | reflexivity ] ].
Qed.

Lemma Do_same_vars c method path body rt result w :
  same_vars w (snd (Do P c method path body rt result w)).
Proof.
  unfold same_vars, Do, bind, log, getVars, liftEnv, ret.
  split_run; simpl; split; reflexivity.
Qed.

Lemma Do_frame c method path body rt result w r w1 :
  Do P c method path body rt result w = (r, w1) ->
  issued w w1 [(method, path)] /\ same_vars w w1.
Proof.
  intros H.
  pose proof (Do_issued c method path body rt result w) as I.
  pose proof (Do_same_vars c method path body rt result w) as V.
  rewrite H in I, V. split; assumption.
Qed.

Lemma fetch_frame c method path body t w r w1 :
  fetch P c method path body t w = (r, w1) ->
  issued w w1 [(method, path)] /\ same_vars w w1.
Proof.
  unfold fetch, bind, ret. intros H.
  destruct (Do P c method path body (Some t) (zero t) w) as [[v err] w']
    eqn:E.
  apply Do_frame in E.
  destruct err; inversion H; subst; exact E.
Qed.

Lemma GetServer_frame c id w r w1 :
  GetServer P c id w = (r, w1) ->
  issued w w1 [("GET", "/api/servers/" ++ id)] /\ same_vars w w1.
Proof. unfold GetServer. apply (fetch_frame c _ _ _ TServer). Qed.

Lemma ListServers_frame c w r w1 :
  ListServers P c w = (r, w1) ->
  issued w w1 [("GET", "/api/servers")] /\ same_vars w w1.
Proof. unfold ListServers. apply (fetch_frame c _ _ _ TServers). Qed.

Lemma CreateServer_frame c name w r w1 :
  CreateServer P c name w = (r, w1) ->
  issued w w1 [("POST", "/api/servers")] /\ same_vars w w1.
Proof. unfold CreateServer. apply (fetch_frame c _ _ _ TServer). Qed.

Lemma VerifyToken_frame c w r w1 :
  VerifyToken P c w = (r, w1) ->
  issued w w1 [("GET", "/api/auth/verify")] /\ same_vars w w1.
Proof. unfold VerifyToken. apply (fetch_frame c _ _ _ TVerifyResponse). Qed.

Lemma GetUserPlan_frame c w r w1 :
  GetUserPlan P c w = (r, w1) ->
  issued w w1 [("GET", "/api/user/plan")] /\ same_vars w w1.
Proof. unfold GetUserPlan, get. apply (Do_frame c _ _ _ (Some TUserPlan)). Qed.

Lemma RegisterWebInstance_frame c i w r w1 :
  RegisterWebInstance P c i w = (r, w1) ->
  issued w w1 [("POST", "/api/web/instances")] /\ same_vars w w1.
Proof.
  unfold RegisterWebInstance, post.
  apply (Do_frame c _ _ _ (Some TWebInstance)).
Qed.

Lemma RemoveWebInstance_frame c id w r w1 :
  RemoveWebInstance P c id w = (r, w1) ->
  issued w w1 [("DELETE", "/api/web/instances/" ++ id)] /\ same_vars w w1.
Proof.
  unfold RemoveWebInstance, delete, bind, ret. intros H.
  destruct (Do P c "DELETE" ("/api" ++ "/web/instances/" ++ id) None None
               tt w) as [[v err] w'] eqn:E.
  apply Do_frame in E. inversion H; subst. exact E.
Qed.

(** *** The subprocess and the configuration file *)

Lemma runSSHCommand_frame sshArgs command w r w1 :
  runSSHCommand P sshArgs command w = (r, w1) ->
  issued w w1 [] /\ same_vars w w1.
Proof.
  unfold runSSHCommand, bind, readEnv, log, liftEnv, ret. intros H.
  destruct (exec_LookPath P "ssh" (env w)) as [sshPath|err].
  - simpl in H.
    destruct (exec_Run P sshPath (sshArgs ++ [command])%list (env w))
      as [x e].
    inversion H; subst. split.
    + eexists. split; [reflexivity | reflexivity].
    + split; reflexivity.
  - inversion H; subst. split; [apply issued_refl | apply same_vars_refl].
Qed.

Lemma SaveConfig_frame w r w1 :
  SaveConfig P w = (r, w1) -> issued w w1 [] /\ same_vars w w1.
Proof.
  unfold SaveConfig, GetConfigPath, GetConfigDir, bind, readEnv, log,
    liftEnv, getCfg, ret.
  intros H. revert H. split_run; simpl in *; intros H; inversion H; subst;
    repeat match goal with
           | E : (_, _) = (_, _) |- _ => inversion E; subst; clear E
           end;
    (split; [ first [ apply issued_refl
                    | eexists; split;
                      [ first [ reflexivity
                              | rewrite <- app_assoc; reflexivity ]
                      | reflexivity ] ]
            | split; reflexivity ]).
Qed.

(** *** Resolution by name or id *)

Lemma scanByName_first name servers s :
  first_named name servers s -> scanByName name servers = Some s.
Proof.
  intros [before [after [-> [Hs Hb]]]].
  induction before as [|x before IH]; simpl.
  - apply String.eqb_eq in Hs. rewrite Hs. reflexivity.
  - assert (Hx : Server_Name x <> name) by (apply Hb; left; reflexivity).
    apply String.eqb_neq in Hx. rewrite Hx.
    apply IH. intros y Hy. apply Hb. right. exact Hy.
Qed.

Lemma scanByName_none name servers :
  (forall s, In s servers -> Server_Name s <> name) ->
  scanByName name servers = None.
Proof.
  induction servers as [|x rest IH]; simpl; intros H; [reflexivity|].
  assert (Hx : Server_Name x <> name) by (apply H; left; reflexivity).
  apply String.eqb_neq in Hx. rewrite Hx.
  apply IH. intros y Hy. apply H. right. exact Hy.
Qed.

(** C1. [findServerByNameOrID] begins with the fetch by id.  When that
    fetch succeeds its server is the answer and it is the only call
    made: the listing is not fetched.  When it fails the listing is
    fetched next, and if that succeeds the answer is the first server
    of the listing whose name is exactly (case-sensitively) the
    reference. *)
Theorem findServerByNameOrID_resolves
    (client : Client) (nameOrID : string) (w w1 : World Env)
    (r : result Server) :
  GetServer P client nameOrID w = (r, w1) ->
  match r with
  | Ok server =>
      findServerByNameOrID P client nameOrID w = (Ok server, w1)
      /\ issued w w1 [("GET", "/api/servers/" ++ nameOrID)]
  | Fail _ =>
      let (l, w2) := ListServers P client w1 in
      snd (findServerByNameOrID P client nameOrID w) = w2
      /\ issued w w2 [("GET", "/api/servers/" ++ nameOrID);
                      ("GET", "/api/servers")]
      /\ forall servers s,
           l = Ok servers ->
           first_named nameOrID servers s ->
           fst (findServerByNameOrID P client nameOrID w) = Ok s
  end.
Proof.
  intros HG. pose proof (GetServer_frame _ _ _ _ _ HG) as [I1 _].
  unfold findServerByNameOrID, bind. rewrite HG.
  destruct r as [server|e].
  - split; [reflexivity | exact I1].
  - destruct (ListServers P client w1) as [l w2] eqn:HL.
    pose proof (ListServers_frame _ _ _ _ HL) as [I2 _].
    split; [|split].
    + destruct l as [servers|e2]; [|reflexivity].
      destruct (scanByName nameOrID servers); reflexivity.
    + exact (issued_trans _ _ _ _ _ I1 I2).
    + intros servers s -> Hfirst.
      rewrite (scanByName_first _ _ _ Hfirst). reflexivity.
Qed.

(** C6. When the fetch by id fails and either the listing cannot be
    fetched or no server in it has the reference as its name,
    [findServerByNameOrID] fails with the error "server not found: "
    followed by the reference; the error wraps nothing, so neither
    fetch error travels with it. *)
Theorem findServerByNameOrID_not_found
    (client : Client) (nameOrID : string) (w w1 w2 : World Env)
    (e : error) (l : result (list Server)) :
  GetServer P client nameOrID w = (Fail e, w1) ->
  ListServers P client w1 = (l, w2) ->
  (forall servers, l = Ok servers ->
     forall s, In s servers -> Server_Name s <> nameOrID) ->
  exists err,
    findServerByNameOrID P client nameOrID w = (Fail err, w2)
    /\ Error err = "server not found: " ++ nameOrID
    /\ mentions (Error err) nameOrID
    /\ Unwrap err = None.
Proof.
  intros HG HL Hno.
  exists (Errorf ("server not found: " ++ nameOrID)).
  split; [|split; [reflexivity|split; [|reflexivity]]].
  - unfold findServerByNameOrID, bind. rewrite HG, HL.
    destruct l as [servers|e2]; [|reflexivity].
    rewrite (scanByName_none _ _ (Hno servers eq_refl)). reflexivity.
  - exists "server not found: ", "". simpl.
    rewrite string_app_nil_r. reflexivity.
Qed.

(** *** The dashboard URL *)

Lemma string_app_neq (a b : string) : a ++ ":" ++ b <> a.
Proof.
  intros H. apply (f_equal String.length) in H.
  rewrite string_length_app in H. simpl in H. lia.
Qed.

Lemma url_with_port_neq (sch name port : string) :
  sch ++ "://" ++ name ++ ":" ++ port <> sch ++ "://" ++ name.
Proof.
  rewrite <- (string_app_assoc "://" name).
  rewrite <- (string_app_assoc sch ("://" ++ name)).
  rewrite <- (string_app_assoc sch "://" name).
  apply string_app_neq.
Qed.

(** C4. [buildWebURL] on the four sample inputs; with a custom domain
    the URL is scheme://domain exactly when the port is the one the
    scheme implies (443 with SSL, 80 without) and carries the port
    otherwise; with no domain the URL is scheme://host exactly when the
    port is 80 or 443 and carries the port otherwise. *)
Theorem buildWebURL_spec :
  buildWebURL "h" 443 "" true = "https://h"
  /\ buildWebURL "h" 8080 "" true = "https://h:8080"
  /\ buildWebURL "h" 80 "d.example.com" false = "http://d.example.com"
  /\ buildWebURL "h" 3001 "d.example.com" true
     = "https://d.example.com:3001"
  /\ (forall host port domain ssl,
        domain <> "" ->
        (buildWebURL host port domain ssl = scheme ssl ++ "://" ++ domain
         <-> port = schemePort ssl)
        /\ (port <> schemePort ssl ->
            buildWebURL host port domain ssl
            = scheme ssl ++ "://" ++ domain ++ ":" ++ Itoa port))
  /\ (forall host port ssl,
        (buildWebURL host port "" ssl = scheme ssl ++ "://" ++ host
         <-> port = 80 \/ port = 443)
        /\ (port <> 80 -> port <> 443 ->
            buildWebURL host port "" ssl
            = scheme ssl ++ "://" ++ host ++ ":" ++ Itoa port)).
Proof.
  repeat (split; [reflexivity|]). split.
  - intros host port domain ssl Hd.
    apply String.eqb_neq in Hd.
    unfold buildWebURL, scheme, schemePort. rewrite Hd. simpl negb. cbv iota.
    destruct ssl; simpl andb.
    + destruct (Z.eqb_spec port 443) as [->|Hp].
      * split; [split; reflexivity | intros H; contradiction].
      * split; [split; intros H | intros _; reflexivity].
        -- exfalso. exact (url_with_port_neq _ _ _ H).
        -- contradiction.
    + destruct (Z.eqb_spec port 80) as [->|Hp].
      * split; [split; reflexivity | intros H; contradiction].
      * split; [split; intros H | intros _; reflexivity].
        -- exfalso. exact (url_with_port_neq _ _ _ H).
        -- contradiction.
  - intros host port ssl.
    unfold buildWebURL, scheme. simpl negb. cbv iota.
    destruct (Z.eqb_spec port 80) as [->|H80]; simpl orb.
    + split; [split; [intros _; left; reflexivity | reflexivity]
             | intros H; contradiction].
    + destruct (Z.eqb_spec port 443) as [->|H443].
      * split; [split; [intros _; right; reflexivity | reflexivity]
               | intros _ H; contradiction].
      * split; [split; intros H | intros _ _; reflexivity].
        -- exfalso. exact (url_with_port_neq _ _ _ H).
        -- destruct H; contradiction.
Qed.

(** *** Sessions *)

Lemma logged_in (w : World Env) :
  Token (cfg w) <> "" -> requireLogin w = (None, w).
Proof.
  intros H. apply String.eqb_neq in H.
  unfold requireLogin, IsLoggedIn, bind, getCfg, ret. rewrite H.
  reflexivity.
Qed.

Lemma logged_out (w : World Env) :
  Token (cfg w) = "" -> requireLogin w = (Some errNotLoggedIn, w).
Proof.
  intros H. unfold requireLogin, IsLoggedIn, bind, getCfg, ret.
  rewrite H. reflexivity.
Qed.

(** C7. With an empty session token [whoami] and every command of the
    [server], [web] and [ssh] groups returns the not-logged-in error and
    leaves the world as it found it: nothing is sent and nothing is
    run. *)
Theorem commands_require_login (c : AuthCommand) (w : World Env) :
  Token (cfg w) = "" ->
  RunE P c w = (Some errNotLoggedIn, w).
Proof.
  intros H. pose proof (logged_out w H) as R.
  destruct c.
  { unfold RunE, whoamiRunE, IsLoggedIn, bind, getCfg, ret.
    rewrite H. reflexivity. }
  all: cbv [RunE serverListRunE serverCreateRunE serverShowRunE
            serverDeleteRunE serverUpdateRunE serverMetricsRunE
            serverHistoryRunE serverInstallRunE serverKeyRunE webListRunE
            webRemoveRunE webStatusRunE webCheckRunE sshAgentRunE
            sshWebRunE bind];
    rewrite R; reflexivity.
Qed.

Lemma SaveConfig_cfg (w : World Env) : cfg (snd (SaveConfig P w)) = cfg w.
Proof.
  destruct (SaveConfig P w) as [r w1] eqn:E.
  apply SaveConfig_frame in E. destruct E as [_ [C _]]. exact C.
Qed.

(** C8. [logout] without a session returns [nil] and leaves the world,
    and so the configuration file, as it was; hence running [logout]
    again after any [logout] changes nothing either. *)
Theorem logout_idempotent (w : World Env) :
  (Token (cfg w) = "" -> logoutRunE P w = (None, w))
  /\ (let w1 := snd (logoutRunE P w) in logoutRunE P w1 = (None, w1)).
Proof.
  assert (Hno : forall v : World Env,
             Token (cfg v) = "" -> logoutRunE P v = (None, v)).
  { intros v H. unfold logoutRunE, IsLoggedIn, bind, getCfg, ret.
    rewrite H. reflexivity. }
  split; [apply Hno|].
  cbv zeta. apply Hno.
  unfold logoutRunE, IsLoggedIn, bind, getCfg, modifyCfg, ret.
  destruct (String.eqb (Token (cfg w)) "") eqn:E; simpl.
  - apply String.eqb_eq. exact E.
  - match goal with
    | |- context [SaveConfig P ?v] =>
        pose proof (SaveConfig_cfg v) as C;
        destruct (SaveConfig P v) as [r w1]
    end.
    simpl in C. destruct r; simpl; rewrite C; reflexivity.
Qed.

(** *** Deployment over SSH *)

(** The web deployment stops at the plan check when the plan is not
    "pro" and the count has reached the maximum. *)
Lemma sshWeb_limit_reached hostArg webName webPort domain enableSSL
    (w w1 : World Env) (plan : UserPlan) :
  Token (cfg w) <> "" ->
  GetUserPlan P (session_client w) w = ((plan, None), w1) ->
  negb (IsPro plan) && (CurrentCount plan >=? MaxWebApps plan) = true ->
  sshWebRunE P hostArg webName webPort domain enableSSL w
  = (Some errLimitReached, w1).
Proof.
  intros Htok Hplan Hq. apply logged_in in Htok.
  unfold sshWebRunE, bind. rewrite Htok.
  unfold session_client in Hplan. simpl in Hplan.
  unfold NewClient, bind, getCfg, ret. rewrite Hplan, Hq. reflexivity.
Qed.

(** C3. When the fetched plan is not "pro" and its count has reached
    its maximum, the web deployment returns the limit error in the
    world the plan fetch left: the fetch of the plan is the only call
    made, so no instance is registered and nothing is run. *)
Theorem sshWeb_quota_preflight hostArg webName webPort domain enableSSL
    (w w1 : World Env) (plan : UserPlan) :
  Token (cfg w) <> "" ->
  GetUserPlan P (session_client w) w = ((plan, None), w1) ->
  IsPro plan = false ->
  CurrentCount plan >= MaxWebApps plan ->
  sshWebRunE P hostArg webName webPort domain enableSSL w
  = (Some errLimitReached, w1)
  /\ issued w w1 [("GET", "/api/user/plan")].
Proof.
  intros Htok Hplan Hpro Hcount. split.
  - apply (sshWeb_limit_reached _ _ _ _ _ _ _ plan); try assumption.
    rewrite Hpro. simpl. apply Z.geb_le. lia.
  - apply GetUserPlan_frame in Hplan. apply Hplan.
Qed.

(** C9. A plan that is not "pro" and has a negative maximum always
    stops the web deployment with the limit error, whatever its
    (non-negative) count: the plan check compares the count with the
    maximum as it is, and only [formatLimit] reads a negative maximum
    as "unlimited". *)
Theorem sshWeb_negative_limit hostArg webName webPort domain enableSSL
    (w w1 : World Env) (plan : UserPlan) :
  Token (cfg w) <> "" ->
  GetUserPlan P (session_client w) w = ((plan, None), w1) ->
  IsPro plan = false ->
  MaxWebApps plan < 0 ->
  0 <= CurrentCount plan ->
  sshWebRunE P hostArg webName webPort domain enableSSL w
  = (Some errLimitReached, w1)
  /\ formatLimit (MaxWebApps plan) = "unlimited".
Proof.
  intros Htok Hplan Hpro Hmax Hcount. split.
  - apply (sshWeb_limit_reached _ _ _ _ _ _ _ plan); try assumption.
    rewrite Hpro. simpl. apply Z.geb_le. lia.
  - unfold formatLimit.
    destruct (Z.ltb_spec (MaxWebApps plan) 0); [reflexivity | lia].
Qed.

(** C2. In the web deployment, once the instance is registered and the
    SSH step returns an error, the command calls
    [RemoveWebInstance] with the id of the registered instance, drops
    whatever that call returns, and returns "deployment failed: "
    wrapping the SSH error.  The calls made in the whole run are the
    plan fetch, the registration and that one removal. *)
Theorem sshWeb_failure_removes_instance
    hostArg webName webPort domain enableSSL
    (w w1 w2 w3 : World Env) (plan : UserPlan) (instance : WebInstance)
    (e : error) :
  let client := session_client w in
  let user := fst (sshTarget (vars w) hostArg) in
  let host := snd (sshTarget (vars w) hostArg) in
  let port := defaultWebPort webPort in
  Token (cfg w) <> "" ->
  GetUserPlan P client w = ((plan, None), w1) ->
  IsPro plan = true \/ CurrentCount plan < MaxWebApps plan ->
  RegisterWebInstance P client
    (newWebInstance (defaultWebName webName host) host port
       (buildWebURL host port domain enableSSL)) w1
  = ((instance, None), w2) ->
  runSSHCommand P (buildSSHArgs (vars w) user host)
    (webInstallCmd (cloudURLOrDefault (cfg w)) (Token (cfg w)) port
       domain enableSSL) w2
  = (Some e, w3) ->
  exists cleanup w4,
    RemoveWebInstance P client (WebInstance_ID instance) w3 = (cleanup, w4)
    /\ sshWebRunE P hostArg webName webPort domain enableSSL w
       = (Some (Errorf_w "deployment failed: " e), w4)
    /\ issued w w4
         [("GET", "/api/user/plan");
          ("POST", "/api/web/instances");
          ("DELETE", "/api/web/instances/" ++ WebInstance_ID instance)].
Proof.
  intros client user host port Htok Hplan Hq Hreg Hssh.
  destruct (RemoveWebInstance P client (WebInstance_ID instance) w3)
    as [cleanup w4] eqn:Hrm.
  exists cleanup, w4.
  pose proof (GetUserPlan_frame _ _ _ _ Hplan) as [I1 [C1 V1]].
  pose proof (RegisterWebInstance_frame _ _ _ _ _ Hreg) as [I2 [C2 V2]].
  pose proof (runSSHCommand_frame _ _ _ _ _ Hssh) as [I3 _].
  pose proof (RemoveWebInstance_frame _ _ _ _ _ Hrm) as [I4 _].
  split; [reflexivity|split].
  - assert (Hq' : negb (IsPro plan)
                  && (CurrentCount plan >=? MaxWebApps plan) = false).
    { destruct Hq as [Hp|Hc]; [rewrite Hp; reflexivity|].
      apply andb_false_iff. right.
      destruct (Z.geb_spec (CurrentCount plan) (MaxWebApps plan));
        [lia | reflexivity]. }
    apply logged_in in Htok.
    unfold sshWebRunE, bind. rewrite Htok.
    unfold NewClient, bind, getCfg, getVars, ret.
    change {| BaseURL := CloudURL (cfg w); Client_Token := Token (cfg w) |}
      with client.
    rewrite Hplan, Hq', V1.
    rewrite (surjective_pairing (sshTarget (vars w) hostArg)).
    fold user host port. rewrite Hreg, C2, C1, Hssh, Hrm.
    reflexivity.
  - exact (issued_trans _ _ _ _ _ I1
             (issued_trans _ _ _ _ _ I2
                (issued_trans _ _ _ _ _ I3 I4))).
Qed.

(** C5. In the agent deployment, once a new server is created and the
    SSH step returns an error, the command returns "deployment failed: "
    wrapping that error in the world the SSH step left.  The creation
    is the only call made in the run: no call deletes the server. *)
Theorem sshAgent_failure_keeps_server hostArg serverName
    (w w1 w2 : World Env) (server : Server) (e : error) :
  let client := session_client w in
  let user := fst (sshTarget (vars w) hostArg) in
  let host := snd (sshTarget (vars w) hostArg) in
  let name := defaultServerName serverName host in
  Token (cfg w) <> "" ->
  CreateServer P client name w = (Ok server, w1) ->
  runSSHCommand P (buildSSHArgs (vars w) user host)
    (agentInstallCmd (cloudURLOrDefault (cfg w)) (Token (cfg w)) name) w1
  = (Some e, w2) ->
  sshAgentRunE P hostArg serverName "" w
  = (Some (Errorf_w "deployment failed: " e), w2)
  /\ Unwrap (Errorf_w "deployment failed: " e) = Some e
  /\ issued w w2 [("POST", "/api/servers")]
  /\ forall tr method path,
       trace w2 = (trace w ++ tr)%list ->
       In (method, path) (api_calls tr) -> method <> "DELETE".
Proof.
  intros client user host name Htok Hcreate Hssh.
  pose proof (CreateServer_frame _ _ _ _ _ Hcreate) as [I1 [C1 V1]].
  pose proof (runSSHCommand_frame _ _ _ _ _ Hssh) as [I2 _].
  assert (I : issued w w2 [("POST", "/api/servers")])
    by exact (issued_trans _ _ _ _ _ I1 I2).
  split; [|split; [reflexivity|split; [exact I|]]].
  - apply logged_in in Htok.
    unfold sshAgentRunE, bind. rewrite Htok.
    unfold NewClient, bind, getCfg, getVars, ret.
    rewrite (surjective_pairing (sshTarget (vars w) hostArg)).
    fold user host name.
    change (String.eqb "" "") with true. cbv beta iota delta [negb].
    change {| BaseURL := CloudURL (cfg w); Client_Token := Token (cfg w) |}
      with client.
    rewrite Hcreate, C1, Hssh. reflexivity.
  - intros tr method path Htr Hin.
    destruct I as [tr0 [Htr0 Hcalls]].
    rewrite Htr0 in Htr. apply app_inv_head in Htr. subst tr0.
    rewrite Hcalls in Hin. destruct Hin as [Hin|[]].
    inversion Hin. discriminate.
Qed.

(** *** Login *)

Lemma readToken_cfg (w w0 : World Env) (r : result string) :
  readToken P w = (r, w0) -> cfg w0 = cfg w /\ trace w0 = trace w.
Proof.
  unfold readToken, promptToken, bind, getVars, readEnv, liftEnv, ret.
  intros H. revert H. split_run; intros H; inversion H; subst;
    repeat match goal with
           | E : (_, _) = (_, _) |- _ => inversion E; subst; clear E
           end;
    split; reflexivity.
Qed.

Lemma seven_days (now : Time) :
  Time_Unix (Time_Add now (7 * 24 * Hour)) = Time_Unix now + 7 * 24 * 3600.
Proof.
  unfold Time_Unix, Time_Add, Hour, Second.
  replace (now + 7 * 24 * (3600 * 1000000000))
    with (now + (7 * 24 * 3600) * 1000000000) by lia.
  rewrite Z.div_add by lia. reflexivity.
Qed.

(** C10. When [runLogin] succeeds, it has read a token, the verify call
    made with that token has answered with a valid response, and the
    clock has then been read once.  The configuration it leaves holds
    that token, the username of the response, and as expiry the Unix
    time of the clock reading plus 7 * 24 hours; nothing else of the
    response is kept.  That configuration is the one persisted: after
    the clock reading the home directory was found, [os.MkdirAll] on the
    directory of [.vstats/config.yaml] under it returned no error, the
    configuration was encoded, and [os.WriteFile] of that encoding to
    that file returned no error and left the final environment. *)
Theorem runLogin_expiry (w w' : World Env) :
  runLogin P w = (None, w') ->
  exists token w0 resp w1 now e2 home data e3,
    readToken P w = (Ok token, w0)
    /\ VerifyToken P {| BaseURL := CloudURL (cfg w); Client_Token := token |}
         w0 = (Ok resp, w1)
    /\ Valid resp = true
    /\ time_Now P (env w1) = (now, e2)
    /\ cfg w' = {| CloudURL := CloudURL (cfg w);
                   Token := token;
                   Username := VerifyResponse_Username resp;
                   ExpiresAt := Time_Unix now + 7 * 24 * 3600 |}
    /\ os_UserHomeDir P e2 = Ok home
    /\ os_MkdirAll P (filepath_Dir P (config_path home)) 448 e2 = (None, e3)
    /\ yaml_Marshal P TConfig (cfg w') = Ok data
    /\ os_WriteFile P (config_path home) data 384 e3 = (None, env w')
    /\ trace w' = (trace w1
                   ++ [EvNow now;
                       EvMkdirAll (filepath_Dir P (config_path home)) 448;
                       EvWriteFile (config_path home) data 384])%list.
Proof.
  unfold runLogin, bind. intros H.
  destruct (readToken P w) as [r w0] eqn:HR.
  destruct r as [token|err]; [|discriminate].
  destruct (readToken_cfg _ _ _ HR) as [C0 _].
  destruct (String.eqb token ""); [discriminate|].
  unfold getCfg in H. rewrite C0 in H.
  destruct (VerifyToken P _ w0) as [rv w1] eqn:HV.
  destruct rv as [resp|err]; [|discriminate].
  destruct (VerifyToken_frame _ _ _ _ HV) as [_ [C1 _]].
  destruct (Valid resp) eqn:Hvalid; [|discriminate].
  simpl negb in H. cbv iota in H.
  unfold modifyCfg, Now, SaveConfig, GetConfigPath, GetConfigDir, bind,
    readEnv, log, liftEnv, getCfg, ret in H.
  simpl in H.
  destruct (time_Now P (env w1)) as [now e2] eqn:HN. simpl in H.
  destruct (os_UserHomeDir P e2) as [home|err] eqn:HH; simpl in H;
    [|discriminate].
  fold (config_path home) in H.
  destruct (os_MkdirAll P (filepath_Dir P (config_path home)) 448 e2)
    as [[err|] e3] eqn:HM; simpl in H; [discriminate|].
  match type of H with
  | context [yaml_Marshal P TConfig ?c] =>
      destruct (yaml_Marshal P TConfig c) as [data|err] eqn:HY;
      simpl in H; [|discriminate]
  end.
  destruct (os_WriteFile P (config_path home) data 384 e3)
    as [[err|] e4] eqn:HW; simpl in H; [discriminate|].
  inversion H; subst w'; clear H.
  exists token, w0, resp, w1, now, e2, home, data, e3.
  cbn [cfg vars env trace].
  repeat split; try reflexivity; try assumption.
  - unfold set_ExpiresAt, set_Username, set_Token. simpl.
    rewrite C1, C0. f_equal. exact (seven_days now).
  - rewrite <- !app_assoc. reflexivity.
Qed.

(** *** More on the API client *)

Lemma string_prefix_app (a b : string) : String.prefix a (a ++ b) = true.
Proof.
  induction a as [|x a IH]; simpl.
  - destruct b; reflexivity.
  - destruct (Ascii.ascii_dec x x) as [_|N]; [exact IH | contradiction].
Qed.

Lemma request_of_from_client c ver method path bodyReader :
  from_client c ver (request_of c ver method path bodyReader).
Proof.
  unfold from_client, request_of. simpl.
  split; [apply string_prefix_app|].
  split; [left; reflexivity|].
  split; [right; left; reflexivity|].
  split; [right; right; left; reflexivity|].
  intros v. destruct (String.eqb_spec (Client_Token c) "") as [E|N]; simpl.
  - split.
    + intros [H|[H|[H|[]]]]; discriminate.
    + intros [H _]. contradiction.
  - split.
    + intros [H|[H|[H|[H|[]]]]]; try discriminate.
      inversion H. split; [exact N | reflexivity].
    + intros [_ ->]. right. right. right. left. reflexivity.
Qed.

(** [Do] step by step: what it returns and the world it leaves, by the
    outcome of each stage. *)
Lemma Do_marshal_fails c method path body rt result w err :
  marshalBody P body = Fail err ->
  Do P c method path body rt result w
  = ((result, Some err), entered w method path).
Proof.
  intros H. unfold Do, bind, log, ret. rewrite H. reflexivity.
Qed.

Lemma Do_new_request_fails c method path body rt result w bodyReader err :
  marshalBody P body = Ok bodyReader ->
  http_NewRequest P method (BaseURL c ++ path) = Some err ->
  Do P c method path body rt result w
  = ((result, Some (Errorf_w "failed to create request: " err)),
     entered w method path).
Proof.
  intros H N. unfold Do, bind, log, ret. rewrite H, N. reflexivity.
Qed.

Lemma Do_round_trip c method path body rt result w bodyReader r e :
  marshalBody P body = Ok bodyReader ->
  http_NewRequest P method (BaseURL c ++ path) = None ->
  http_Do P (request_of c (version (vars w)) method path bodyReader) (env w)
  = (r, e) ->
  Do P c method path body rt result w
  = (match r with
     | Fail err => (result, Some (Errorf_w "request failed: " err))
     | Ok resp =>
         match Response_Body resp with
         | Fail err =>
             (result, Some (Errorf_w "failed to read response: " err))
         | Ok respBody =>
             if 400 <=? StatusCode resp then
               let statusErr :=
                 Errorf ("request failed with status "
                         ++ Itoa (StatusCode resp) ++ ": " ++ respBody) in
               let (apiErr, uerr) :=
                 json_Unmarshal P TAPIError respBody (zero TAPIError) in
               match uerr with
               | None =>
                   if negb (String.eqb (APIError_Error apiErr) "")
                   then (result,
                         Some (Errorf ("API error: "
                                       ++ APIError_Error apiErr)))
                   else (result, Some statusErr)
               | Some _ => (result, Some statusErr)
               end
             else decodeResult P rt respBody result
         end
     end,
     answered w method path
       (request_of c (version (vars w)) method path bodyReader) e).
Proof.
  intros H N R. unfold Do, bind, log, getVars, liftEnv, ret.
  rewrite H, N. cbn [vars env cfg trace].
  fold (request_of c (version (vars w)) method path bodyReader).
  rewrite R. unfold answered.
  destruct r as [resp|err]; [|reflexivity].
  destruct (Response_Body resp) as [respBody|err]; [|reflexivity].
  destruct (400 <=? StatusCode resp); [|reflexivity].
  destruct (json_Unmarshal P TAPIError respBody (zero TAPIError))
    as [apiErr [uerr|]]; [reflexivity|].
  destruct (negb (String.eqb (APIError_Error apiErr) "")); reflexivity.
Qed.


(** The trace [Do] leaves. *)
Lemma Do_trace c method path body rt result w :
  let w' := snd (Do P c method path body rt result w) in
  (trace w' = (trace w ++ [EvDo method path])%list /\ env w' = env w)
  \/ exists req,
       trace w' = (trace w ++ [EvDo method path; EvRoundTrip req])%list
       /\ Method req = method
       /\ Request_URL req = BaseURL c ++ path
       /\ from_client c (version (vars w)) req.
Proof.
  cbv zeta.
  destruct (marshalBody P body) as [bodyReader|err] eqn:H.
  - destruct (http_NewRequest P method (BaseURL c ++ path)) as [err|] eqn:N.
    + rewrite (Do_new_request_fails _ _ _ _ _ _ _ _ _ H N).
      left. split; reflexivity.
    + destruct (http_Do P
                  (request_of c (version (vars w)) method path bodyReader)
                  (env w)) as [r e] eqn:R.
      rewrite (Do_round_trip _ _ _ _ _ _ _ _ _ _ H N R).
      right. eexists. split; [|split; [|split]].
      * simpl. rewrite <- app_assoc. reflexivity.
      * reflexivity.
      * reflexivity.
      * apply request_of_from_client.
  - rewrite (Do_marshal_fails _ _ _ _ _ _ _ _ H).
    left. split; reflexivity.
Qed.

(** X1. Whatever [Do] returns, it calls [HTTPClient.Do] at most once,
    and only after the body was serialised and [http.NewRequest] took
    the method and the URL string.  The request of that one call is
    built from the method asked for and from the client's base URL
    followed by the path, as the URL string given to [http.NewRequest],
    with the headers of the client, the bearer token included exactly
    when the client has one; the environment [Do] leaves is the one that
    call left.  When [HTTPClient.Do] is not called the environment is
    untouched.  What the HTTP client does with the request it is given,
    such as following a redirect, is its own business and not stated
    here. *)
Theorem Do_calls_transport_at_most_once c method path body rt result w :
  let w' := snd (Do P c method path body rt result w) in
  (trace w' = (trace w ++ [EvDo method path])%list /\ env w' = env w)
  \/ exists bodyReader,
       let req := request_of c (version (vars w)) method path bodyReader in
       marshalBody P body = Ok bodyReader
       /\ http_NewRequest P method (BaseURL c ++ path) = None
       /\ trace w' = (trace w ++ [EvDo method path; EvRoundTrip req])%list
       /\ env w' = snd (http_Do P req (env w))
       /\ Method req = method
       /\ Request_URL req = BaseURL c ++ path
       /\ from_client c (version (vars w)) req.
Proof.
  cbv zeta.
  destruct (marshalBody P body) as [bodyReader|err] eqn:H.
  - destruct (http_NewRequest P method (BaseURL c ++ path)) as [err|] eqn:N.
    + rewrite (Do_new_request_fails _ _ _ _ _ _ _ _ _ H N).
      left. split; reflexivity.
    + destruct (http_Do P
                  (request_of c (version (vars w)) method path bodyReader)
                  (env w)) as [r e] eqn:R.
      rewrite (Do_round_trip _ _ _ _ _ _ _ _ _ _ H N R).
      right. exists bodyReader.
      split; [reflexivity|]. split; [reflexivity|]. split.
      { simpl. rewrite <- app_assoc. reflexivity. }
      split; [simpl; rewrite R; reflexivity|]. split; [reflexivity|].
      split; [reflexivity|]. apply request_of_from_client.
  - rewrite (Do_marshal_fails _ _ _ _ _ _ _ _ H).
    left. split; reflexivity.
Qed.

(** X2. [Do] returns no error only after a full exchange: the body was
    serialised, the request was built and sent, the transport answered
    with a readable body and a status below 400, and the body decoded
    into the target. *)
Theorem Do_success_is_complete c method path body rt result w v w' :
  Do P c method path body rt result w = ((v, None), w') ->
  exists bodyReader resp respBody,
    marshalBody P body = Ok bodyReader
    /\ http_NewRequest P method (BaseURL c ++ path) = None
    /\ http_Do P (request_of c (version (vars w)) method path bodyReader)
         (env w) = (Ok resp, env w')
    /\ Response_Body resp = Ok respBody
    /\ StatusCode resp < 400
    /\ decodeResult P rt respBody result = (v, None).
Proof.
  intros D.
  destruct (marshalBody P body) as [bodyReader|err] eqn:H.
  2:{ rewrite (Do_marshal_fails _ _ _ _ _ _ _ _ H) in D. discriminate. }
  destruct (http_NewRequest P method (BaseURL c ++ path)) as [err|] eqn:N.
  { rewrite (Do_new_request_fails _ _ _ _ _ _ _ _ _ H N) in D.
    discriminate. }
  destruct (http_Do P
              (request_of c (version (vars w)) method path bodyReader)
              (env w)) as [r e] eqn:R.
  rewrite (Do_round_trip _ _ _ _ _ _ _ _ _ _ H N R) in D.
  destruct r as [resp|err]; [|discriminate].
  destruct (Response_Body resp) as [respBody|err] eqn:B; [|discriminate].
  destruct (Z.leb_spec 400 (StatusCode resp)) as [Hs|Hs].
  - destruct (json_Unmarshal P TAPIError respBody (zero TAPIError))
      as [apiErr [uerr|]]; [discriminate|].
    destruct (negb (String.eqb (APIError_Error apiErr) "")); discriminate.
  - inversion D as [[D1 D2]]. subst w'. simpl.
    exists bodyReader, resp, respBody.
    repeat split; try reflexivity; try assumption.
Qed.

(** [Do] on an answer of status 400 or more whose body was read. *)
Lemma Do_status_error_read
    c method path body rt result w bodyReader resp respBody e :
  marshalBody P body = Ok bodyReader ->
  http_NewRequest P method (BaseURL c ++ path) = None ->
  http_Do P (request_of c (version (vars w)) method path bodyReader) (env w)
  = (Ok resp, e) ->
  Response_Body resp = Ok respBody ->
  400 <= StatusCode resp ->
  exists err w',
    Do P c method path body rt result w = ((result, Some err), w')
    /\ Unwrap err = None
    /\ env w' = e
    /\ (forall apiErr,
          json_Unmarshal P TAPIError respBody (zero TAPIError)
          = (apiErr, None) ->
          APIError_Error apiErr <> "" ->
          Error err = "API error: " ++ APIError_Error apiErr)
    /\ ((forall apiErr,
           json_Unmarshal P TAPIError respBody (zero TAPIError)
           = (apiErr, None) ->
           APIError_Error apiErr = "") ->
        Error err = "request failed with status "
                    ++ Itoa (StatusCode resp) ++ ": " ++ respBody).
Proof.
  intros H N R B Hs.
  rewrite (Do_round_trip _ _ _ _ _ _ _ _ _ _ H N R), B.
  apply Z.leb_le in Hs. rewrite Hs.
  destruct (json_Unmarshal P TAPIError respBody (zero TAPIError))
    as [apiErr [uerr|]] eqn:U.
  - eexists. eexists. split; [reflexivity|].
    split; [reflexivity|]. split; [reflexivity|]. split.
    + intros a Ha. discriminate.
    + reflexivity.
  - destruct (String.eqb_spec (APIError_Error apiErr) "") as [E|NE]; simpl.
    + eexists. eexists. split; [reflexivity|].
      split; [reflexivity|]. split; [reflexivity|]. split.
      * intros a Ha Hne. inversion Ha; subst a. contradiction.
      * reflexivity.
    + eexists. eexists. split; [reflexivity|].
      split; [reflexivity|]. split; [reflexivity|]. split.
      * intros a Ha _. inversion Ha; subst a. reflexivity.
      * intros Hall. exfalso. apply NE. apply (Hall apiErr eq_refl).
Qed.

(** X3. When the transport answers with a status of 400 or more, [Do]
    fails and leaves the target as it was.  The body is read before the
    status is looked at: if it cannot be read, the error is the read
    error under "failed to read response: ".  If it is read, the error
    wraps nothing, and its message is "API error: " followed by the
    [error] field of the payload when the payload decodes and that field
    is not empty, and the status line with the raw body otherwise; the
    [message] field of the payload is not used. *)
Theorem Do_http_status_error
    c method path body rt result w bodyReader resp e :
  marshalBody P body = Ok bodyReader ->
  http_NewRequest P method (BaseURL c ++ path) = None ->
  http_Do P (request_of c (version (vars w)) method path bodyReader) (env w)
  = (Ok resp, e) ->
  400 <= StatusCode resp ->
  exists err w',
    Do P c method path body rt result w = ((result, Some err), w')
    /\ env w' = e
    /\ (forall rerr,
          Response_Body resp = Fail rerr ->
          err = Errorf_w "failed to read response: " rerr)
    /\ (forall respBody,
          Response_Body resp = Ok respBody ->
          Unwrap err = None
          /\ (forall apiErr,
                json_Unmarshal P TAPIError respBody (zero TAPIError)
                = (apiErr, None) ->
                APIError_Error apiErr <> "" ->
                Error err = "API error: " ++ APIError_Error apiErr)
          /\ ((forall apiErr,
                 json_Unmarshal P TAPIError respBody (zero TAPIError)
                 = (apiErr, None) ->
                 APIError_Error apiErr = "") ->
              Error err = "request failed with status "
                          ++ Itoa (StatusCode resp) ++ ": " ++ respBody)).
Proof.
  intros H N R Hs.
  destruct (Response_Body resp) as [respBody|rerr] eqn:B.
  - destruct (Do_status_error_read c method path body rt result w bodyReader
                resp respBody e H N R B Hs)
      as [err [w' [D [U [E [A S]]]]]].
    exists err, w'. split; [exact D|]. split; [exact E|]. split.
    + intros r0 E0. discriminate E0.
    + intros b0 E0. inversion E0; subst b0.
      split; [exact U|]. split; [exact A | exact S].
  - rewrite (Do_round_trip _ _ _ _ _ _ _ _ _ _ H N R), B.
    eexists. eexists. split; [reflexivity|]. split; [reflexivity|]. split.
    + intros r0 E0. inversion E0. reflexivity.
    + intros b0 E0. discriminate E0.
Qed.


(** *** What the commands keep and what they may do *)

Section Discipline.

Variables (cf0 : Config) (v0 : Vars).
Variables (okmethod : string -> Prop) (okrun oknow : Prop).

Local Abbreviation keeps' := (keeps cf0 v0 okmethod okrun oknow).

Lemma keeps_ret {A : Type} (a : A) (Q : A -> Prop) :
  Q a -> keeps' (ret a) Q.
Proof.
  intros HQ w r w' Hc Hv H. inversion H; subst.
  split; [reflexivity|split; [reflexivity|split; [|exact HQ]]].
  exists []. rewrite app_nil_r. split; [reflexivity | constructor].
Qed.

Lemma keeps_bind {A B : Type} (m : @M Env A) (k : A -> @M Env B)
    (Q : A -> Prop) (R : B -> Prop) :
  keeps' m Q -> (forall a, Q a -> keeps' (k a) R) -> keeps' (bind m k) R.
Proof.
  intros Hm Hk w r w' Hc Hv H. unfold bind in H.
  destruct (m w) as [a w1] eqn:E.
  destruct (Hm _ _ _ Hc Hv E) as [C1 [V1 [[t1 [T1 F1]] HQ]]].
  destruct (Hk a HQ _ _ _ C1 V1 H) as [C2 [V2 [[t2 [T2 F2]] HR]]].
  split; [exact C2|split; [exact V2|split; [|exact HR]]].
  exists (t1 ++ t2)%list. split.
  - rewrite T2, T1, app_assoc. reflexivity.
  - apply Forall_app. split; assumption.
Qed.

Lemma keeps_weaken {A : Type} (m : @M Env A) (Q Q' : A -> Prop) :
  keeps' m Q -> (forall a, Q a -> Q' a) -> keeps' m Q'.
Proof.
  intros Hm HQ w r w' Hc Hv H.
  destruct (Hm _ _ _ Hc Hv H) as [C [V [T q]]].
  repeat split; try assumption. apply HQ. exact q.
Qed.

Lemma keeps_getCfg : keeps' getCfg (fun c => c = cf0).
Proof.
  intros w r w' Hc Hv H. inversion H; subst.
  split; [reflexivity|split; [reflexivity|split; [|reflexivity]]].
  exists []. rewrite app_nil_r. split; [reflexivity | constructor].
Qed.

Lemma keeps_getVars : keeps' getVars (fun v => v = v0).
Proof.
  intros w r w' Hc Hv H. inversion H; subst.
  split; [reflexivity|split; [reflexivity|split; [|reflexivity]]].
  exists []. rewrite app_nil_r. split; [reflexivity | constructor].
Qed.

Lemma keeps_NewClient : keeps' NewClient (fun c => c = client_of cf0).
Proof.
  unfold NewClient. eapply keeps_bind; [apply keeps_getCfg|].
  intros c ->. apply keeps_ret. reflexivity.
Qed.

Lemma keeps_IsLoggedIn : keeps' IsLoggedIn (fun _ => True).
Proof.
  unfold IsLoggedIn. eapply keeps_bind; [apply keeps_getCfg|].
  intros c _. apply keeps_ret. exact I.
Qed.

Lemma keeps_requireLogin : keeps' requireLogin (fun _ => True).
Proof.
  unfold requireLogin. eapply keeps_bind; [apply keeps_IsLoggedIn|].
  intros ok _. destruct (negb ok); apply keeps_ret; exact I.
Qed.

Lemma keeps_readEnv {A : Type} (f : Env -> A) :
  keeps' (readEnv f) (fun _ => True).
Proof.
  intros w r w' Hc Hv H. inversion H; subst.
  split; [reflexivity|split; [reflexivity|split; [|exact I]]].
  exists []. rewrite app_nil_r. split; [reflexivity | constructor].
Qed.

Lemma keeps_liftEnv {A : Type} (f : Env -> A * Env) :
  keeps' (liftEnv f) (fun _ => True).
Proof.
  intros w r w' Hc Hv H. unfold liftEnv in H.
  destruct (f (env w)) as [a e]. inversion H; subst.
  split; [reflexivity|split; [reflexivity|split; [|exact I]]].
  exists []. rewrite app_nil_r. split; [reflexivity | constructor].
Qed.

Lemma keeps_log (e : Event) :
  allowed cf0 v0 okmethod okrun oknow e -> keeps' (log e) (fun _ => True).
Proof.
  intros He w r w' Hc Hv H. inversion H; subst.
  split; [reflexivity|split; [reflexivity|split; [|exact I]]].
  exists [e]. split; [reflexivity | constructor; [exact He | constructor]].
Qed.

Lemma keeps_Do method path body rt result :
  okmethod method ->
  keeps' (Do P (client_of cf0) method path body rt result) (fun _ => True).
Proof.
  intros Hm w r w' Hc Hv H.
  pose proof (Do_same_vars (client_of cf0) method path body rt result w)
    as [C V].
  pose proof (Do_trace (client_of cf0) method path body
                rt result w) as T.
  rewrite H in C, V, T. simpl in C, V, T.
  split; [congruence|split; [congruence|split; [|exact I]]].
  destruct T as [[T _]|[req [T [_ [_ F]]]]].
  - exists [EvDo method path]. split; [exact T|].
    constructor; [exact Hm | constructor].
  - exists [EvDo method path; EvRoundTrip req]. split; [exact T|].
    constructor; [exact Hm|].
    constructor; [|constructor]. simpl. rewrite <- Hv. exact F.
Qed.

Lemma keeps_output t data : keeps' (output P t data) (fun _ => True).
Proof.
  unfold output, OutputJSON, OutputYAML.
  eapply keeps_bind; [apply keeps_getVars|]. intros v _.
  destruct (String.eqb (outputFmt v) "json").
  - destruct (json_MarshalIndent P t data); apply keeps_ret; exact I.
  - destruct (String.eqb (outputFmt v) "yaml"); [|apply keeps_ret; exact I].
    destruct (yaml_Marshal P t data); apply keeps_ret; exact I.
Qed.

Lemma keeps_Now : oknow -> keeps' (Now P) (fun _ => True).
Proof.
  intros Hn. unfold Now.
  eapply keeps_bind; [apply keeps_liftEnv|]. intros t _.
  eapply keeps_bind; [apply keeps_log; exact Hn|]. intros _ _.
  apply keeps_ret. exact I.
Qed.

Lemma keeps_formatTimeAgo (t : option Time) :
  oknow -> keeps' (formatTimeAgo P t) (fun _ => True).
Proof.
  intros Hn. destruct t as [t|]; simpl; [|apply keeps_ret; exact I].
  eapply keeps_bind; [apply keeps_Now; exact Hn|]. intros _ _.
  apply keeps_ret. exact I.
Qed.

Lemma keeps_forEach {A : Type} (xs : list A) (body : A -> @M Env unit) :
  (forall x, keeps' (body x) (fun _ => True)) ->
  keeps' (forEach xs body) (fun _ => True).
Proof.
  intros Hb. induction xs as [|x rest IH]; simpl.
  - apply keeps_ret. exact I.
  - eapply keeps_bind; [apply Hb|]. intros _ _. exact IH.
Qed.

Lemma keeps_confirmed : keeps' (confirmed P) (fun _ => True).
Proof.
  unfold confirmed. eapply keeps_bind; [apply keeps_liftEnv|].
  intros a _. apply keeps_ret. exact I.
Qed.

Lemma keeps_runSSHCommand sshArgs command :
  okrun -> keeps' (runSSHCommand P sshArgs command) (fun _ => True).
Proof.
  intros Hr. unfold runSSHCommand.
  eapply keeps_bind; [apply keeps_readEnv|]. intros r _.
  destruct r as [sshPath|err]; [|apply keeps_ret; exact I].
  eapply keeps_bind; [apply keeps_log; exact Hr|]. intros _ _.
  apply keeps_liftEnv.
Qed.

(** One step through a command: split a bind, take the next primitive,
    or branch where the command branches. *)
Ltac keeps_step :=
  match goal with
  | |- keeps _ _ _ _ _ (ret _) _ => apply keeps_ret; exact I
  | |- keeps _ _ _ _ _ (bind NewClient _) _ =>
      eapply keeps_bind; [apply keeps_NewClient|];
      let c := fresh "client" in intros c ->
  | |- keeps _ _ _ _ _ (bind getVars _) _ =>
      eapply keeps_bind; [apply keeps_getVars|];
      let v := fresh "v" in intros v ->
  | |- keeps _ _ _ _ _ (bind getCfg _) _ =>
      eapply keeps_bind; [apply keeps_getCfg|];
      let c := fresh "c" in intros c ->
  | |- keeps _ _ _ _ _ (bind _ _) _ =>
      apply keeps_bind with (Q := fun _ => True);
      [|let a := fresh "a" in intros a _]
  | |- keeps _ _ _ _ _ requireLogin _ => apply keeps_requireLogin
  | |- keeps _ _ _ _ _ IsLoggedIn _ => apply keeps_IsLoggedIn
  | |- keeps _ _ _ _ _ (Do _ _ ?method ?path ?body ?rt ?result) _ =>
      apply (keeps_Do method path body rt result)
  | |- keeps _ _ _ _ _ (output _ _ _) _ => apply keeps_output
  | |- keeps _ _ _ _ _ (OutputJSON _ _ _) _ =>
      unfold OutputJSON
  | |- keeps _ _ _ _ _ (OutputYAML _ _ _) _ =>
      unfold OutputYAML
  | |- keeps _ _ _ _ _ (forEach _ _) _ =>
      apply keeps_forEach; intros ?; apply keeps_formatTimeAgo
  | |- keeps _ _ _ _ _ (confirmed _) _ => apply keeps_confirmed
  | |- keeps _ _ _ _ _ (runSSHCommand _ _ _) _ => apply keeps_runSSHCommand
  | |- keeps _ _ _ _ _ (match ?x with _ => _ end) _ => destruct x eqn:?
  end.

Ltac keeps_run := repeat keeps_step.

Lemma keeps_findServerByNameOrID nameOrID :
  okmethod "GET" ->
  keeps' (findServerByNameOrID P (client_of cf0) nameOrID) (fun _ => True).
Proof.
  intros G.
  unfold findServerByNameOrID, GetServer, ListServers, fetch.
  keeps_run; exact G.
Qed.

Ltac keeps_cmd :=
  repeat first
    [ keeps_step
    | match goal with
      | |- keeps _ _ _ _ _ (findServerByNameOrID _ _ _) _ =>
          apply keeps_findServerByNameOrID
      end ].

Lemma RunE_keeps (c : AuthCommand) :
  (forall method, In method (methods_of c) -> okmethod method) ->
  (runs_process c = true -> okrun) ->
  (reads_clock c = true -> oknow) ->
  keeps' (RunE P c) (fun _ => True).
Proof.
  intros Hm Hr Hn.
  destruct c as [| |name|serverID|serverID force|serverID name|serverID
                 |serverID rangeStr|serverID|serverID regenerate|
                 |instanceID force| |instanceID
                 |hostArg serverName existingServerID
                 |hostArg webName webPort domain enableSSL];
    try destruct regenerate;
    try destruct (String.eqb existingServerID "") eqn:Hex;
    simpl in Hm, Hr, Hn;
    try rewrite Hex in Hm;
    cbv [RunE whoamiRunE serverListRunE serverCreateRunE serverShowRunE
         serverDeleteRunE serverUpdateRunE serverMetricsRunE
         serverHistoryRunE serverInstallRunE serverKeyRunE webListRunE
         webRemoveRunE webStatusRunE webCheckRunE sshAgentRunE sshWebRunE
         GetCurrentUser ListServers CreateServer UpdateServer DeleteServer
         RegenerateAgentKey GetInstallCommand GetServerMetrics
         GetServerHistory ListWebInstances GetWebInstance
         RegisterWebInstance UpdateWebInstance RemoveWebInstance
         CheckWebInstance GetUserPlan fetch get post put delete];
    try rewrite Hex;
    keeps_cmd;
    first [ solve [apply Hm; simpl; auto 8]
          | solve [apply Hr; reflexivity]
          | solve [apply Hn; reflexivity]
          | exfalso;
            match goal with
            | E : negb _ = _ |- _ =>
                rewrite ?Hex in E; simpl in E; discriminate E
            end ].
Qed.

End Discipline.


Lemma RunE_events (c : AuthCommand) (w : World Env)
    (okmethod : string -> Prop) (okrun oknow : Prop) :
  (forall method, In method (methods_of c) -> okmethod method) ->
  (runs_process c = true -> okrun) ->
  (reads_clock c = true -> oknow) ->
  cfg (snd (RunE P c w)) = cfg w
  /\ vars (snd (RunE P c w)) = vars w
  /\ exists tr,
       trace (snd (RunE P c w)) = (trace w ++ tr)%list
       /\ Forall (allowed (cfg w) (vars w) okmethod okrun oknow) tr.
Proof.
  intros Hm Hr Hn.
  destruct (RunE P c w) as [r w'] eqn:E.
  destruct (RunE_keeps (cfg w) (vars w) okmethod okrun oknow c Hm Hr Hn
              w r w' eq_refl eq_refl E) as [C [V [T _]]].
  split; [exact C|split; [exact V|exact T]].
Qed.

Lemma api_calls_In (tr : list Event) (method path : string) :
  In (method, path) (api_calls tr) <-> In (EvDo method path) tr.
Proof.
  induction tr as [|e tr IH]; simpl; [tauto|].
  destruct e; simpl; rewrite IH; split;
    try (intros [H|H]; [first [discriminate H | inversion H; subst; auto]
                       | auto]);
    try (intros H; right; exact H).
Qed.

(** X4. No command that needs a session changes the session it runs in
    or writes to the file system: the configuration and the flags are
    the same afterwards, and the trace gains no directory creation and
    no file write.  This holds for [server key --regenerate] as for the
    others.  The clock is read by [server list] and [web list] only,
    for the relative times of their tables: no other command reads
    it. *)
Theorem commands_keep_session (c : AuthCommand) (w : World Env) :
  cfg (snd (RunE P c w)) = cfg w
  /\ vars (snd (RunE P c w)) = vars w
  /\ exists tr,
       trace (snd (RunE P c w)) = (trace w ++ tr)%list
       /\ (forall dir perm, ~ In (EvMkdirAll dir perm) tr)
       /\ (forall path data perm, ~ In (EvWriteFile path data perm) tr)
       /\ (reads_clock c = false -> forall t, ~ In (EvNow t) tr).
Proof.
  destruct (RunE_events c w (fun _ => True) True (reads_clock c = true)
              (fun _ _ => I) (fun _ => I) (fun H => H))
    as [C [V [tr [T F]]]].
  split; [exact C|split; [exact V|]].
  exists tr. split; [exact T|].
  rewrite Forall_forall in F.
  split; [|split].
  - intros dir perm Hin. exact (F _ Hin).
  - intros path data perm Hin. exact (F _ Hin).
  - intros Hno t Hin. pose proof (F _ Hin) as Hc. simpl in Hc.
    rewrite Hno in Hc. discriminate Hc.
Qed.

(** X5. Every request a command hands to [HTTPClient.Do] is a request
    of the session's client: it was built for a URL string that starts
    with the configured cloud URL, says it speaks JSON, names the client
    version, and carries the session's token as bearer token (and no
    [Authorization] header when the session has none).  Requests the
    HTTP client makes of its own accord, such as the one after a
    redirect, are not calls of this program and are not covered. *)
Theorem commands_build_session_requests (c : AuthCommand) (w : World Env)
    (tr : list Event) (req : Request) :
  trace (snd (RunE P c w)) = (trace w ++ tr)%list ->
  In (EvRoundTrip req) tr ->
  from_client (client_of (cfg w)) (version (vars w)) req.
Proof.
  intros T Hin.
  destruct (RunE_events c w (fun _ => True) True True
              (fun _ _ => I) (fun _ => I) (fun _ => I))
    as [_ [_ [tr' [T' F]]]].
  rewrite T in T'. apply app_inv_head in T'. subst tr'.
  rewrite Forall_forall in F. exact (F _ Hin).
Qed.

(** X6. Every call a command makes to the API client uses one of the
    methods listed for it in [methods_of]; in particular [whoami],
    [server list], [show], [metrics], [history], [install], [key]
    without [--regenerate], and [web list], [status] and [check] only
    ever make GET calls. *)
Theorem commands_use_their_methods (c : AuthCommand) (w : World Env)
    (tr : list Event) (method path : string) :
  trace (snd (RunE P c w)) = (trace w ++ tr)%list ->
  In (method, path) (api_calls tr) ->
  In method (methods_of c).
Proof.
  intros T Hin.
  destruct (RunE_events c w (fun m => In m (methods_of c)) True True
              (fun _ H => H) (fun _ => I) (fun _ => I))
    as [_ [_ [tr' [T' F]]]].
  rewrite T in T'. apply app_inv_head in T'. subst tr'.
  rewrite Forall_forall in F. apply api_calls_In in Hin.
  exact (F _ Hin).
Qed.

(** X7. Only the two [ssh] commands run a child process. *)
Theorem only_ssh_commands_run_a_process (c : AuthCommand) (w : World Env)
    (tr : list Event) (path : string) (args : list string) :
  runs_process c = false ->
  trace (snd (RunE P c w)) = (trace w ++ tr)%list ->
  ~ In (EvRun path args) tr.
Proof.
  intros Hno T Hin.
  destruct (RunE_events c w (fun _ => True) False True (fun _ _ => I))
    as [_ [_ [tr' [T' F]]]].
  { rewrite Hno. discriminate. }
  { intros _. exact I. }
  rewrite T in T'. apply app_inv_head in T'. subst tr'.
  rewrite Forall_forall in F. exact (F _ Hin).
Qed.


(** *** More on resolution *)

Lemma scanByName_found (name : string) (servers : list Server)
    (s : Server) :
  scanByName name servers = Some s -> first_named name servers s.
Proof.
  induction servers as [|x rest IH]; simpl; [discriminate|].
  destruct (String.eqb_spec (Server_Name x) name) as [E|N].
  - intros H. inversion H; subst x.
    exists [], rest. split; [reflexivity|split; [exact E|]].
    intros y [].
  - intros H. destruct (IH H) as [before [after [-> [Hs Hb]]]].
    exists (x :: before), after.
    split; [reflexivity|split; [exact Hs|]].
    intros y [<-|Hy]; [exact N | exact (Hb y Hy)].
Qed.

(** X8. The loop of [findServerByNameOrID] finds a server exactly when
    one is named as asked, and then it is the first such server of the
    listing; it finds none exactly when no server of the listing has
    that name. *)
Theorem scanByName_spec (name : string) (servers : list Server) :
  (forall s, scanByName name servers = Some s
             <-> first_named name servers s)
  /\ (scanByName name servers = None
      <-> forall s, In s servers -> Server_Name s <> name).
Proof.
  split.
  - intros s. split; [apply scanByName_found | apply scanByName_first].
  - split; [|apply scanByName_none].
    induction servers as [|x rest IH]; simpl; [intros _ s []|].
    destruct (String.eqb_spec (Server_Name x) name) as [E|N];
      [discriminate|].
    intros H s [<-|Hs]; [exact N | exact (IH H s Hs)].
Qed.

(** X9. A server [findServerByNameOrID] returns is one the cloud
    reported: the answer of the fetch by id, or, when that fetch failed,
    the first server of the fetched listing named as the reference. *)
Theorem findServerByNameOrID_sound
    (client : Client) (nameOrID : string) (w w' : World Env) (s : Server) :
  findServerByNameOrID P client nameOrID w = (Ok s, w') ->
  GetServer P client nameOrID w = (Ok s, w')
  \/ exists e w1 servers,
       GetServer P client nameOrID w = (Fail e, w1)
       /\ ListServers P client w1 = (Ok servers, w')
       /\ first_named nameOrID servers s.
Proof.
  unfold findServerByNameOrID, bind, ret. intros H.
  destruct (GetServer P client nameOrID w) as [[server|e] w1] eqn:G.
  - left. exact H.
  - right. destruct (ListServers P client w1) as [[servers|e2] w2] eqn:L;
      [|discriminate].
    destruct (scanByName nameOrID servers) as [x|] eqn:S; [|discriminate].
    inversion H; subst x w2.
    exists e, w1, servers. split; [reflexivity|split; [exact L|]].
    apply scanByName_found. exact S.
Qed.

(** X10. The only error [findServerByNameOrID] ever returns is the plain
    "server not found: " error naming the reference: a fetch that failed
    in transport, with a server error or in decoding is reported the
    same way as a reference that matches nothing. *)
Theorem findServerByNameOrID_only_error
    (client : Client) (nameOrID : string) (w w' : World Env) (err : error) :
  findServerByNameOrID P client nameOrID w = (Fail err, w') ->
  err = Errorf ("server not found: " ++ nameOrID).
Proof.
  unfold findServerByNameOrID, bind, ret. intros H.
  destruct (GetServer P client nameOrID w) as [[server|e] w1];
    [discriminate|].
  destruct (ListServers P client w1) as [[servers|e2] w2].
  - destruct (scanByName nameOrID servers); [discriminate|].
    inversion H. reflexivity.
  - inversion H. reflexivity.
Qed.


(** *** The SSH target and the child process *)

Lemma splitFirst_join (c : ascii) (s : string) :
  containsByte c s = true ->
  s = fst (splitFirst c s) ++ String c (snd (splitFirst c s))
  /\ containsByte c (fst (splitFirst c s)) = false.
Proof.
  induction s as [|a rest IH]; simpl; [discriminate|].
  destruct (Ascii.eqb_spec a c) as [->|N].
  - intros _. split; reflexivity.
  - intros H. destruct (IH H) as [J F].
    destruct (splitFirst c rest) as [before after]. simpl in *.
    split.
    + rewrite <- J. reflexivity.
    + apply Ascii.eqb_neq in N. rewrite N. exact F.
Qed.

Lemma containsByte_app (c : ascii) (a b : string) :
  containsByte c (a ++ b) = containsByte c a || containsByte c b.
Proof.
  induction a as [|x a IH]; simpl; [reflexivity|].
  destruct (Ascii.eqb x c); [reflexivity | exact IH].
Qed.

Lemma splitFirst_app (c : ascii) (a b : string) :
  containsByte c a = false ->
  splitFirst c (a ++ String c b) = (a, b).
Proof.
  induction a as [|x a IH]; simpl.
  - intros _. rewrite Ascii.eqb_refl. reflexivity.
  - destruct (Ascii.eqb x c); [discriminate|].
    intros H. rewrite (IH H). reflexivity.
Qed.

(** X11. [parseSSHHost] splits at the first "@": when the argument has
    one, the user has none and user, "@" and host put together give the
    argument back; when it has none, the user is empty and the host is
    the argument.  Conversely a user without "@" followed by "@" and a
    host parses into that user and host. *)
Theorem parseSSHHost_spec (hostArg : string) :
  (containsByte "@"%char hostArg = true ->
     hostArg = fst (parseSSHHost hostArg) ++ "@" ++ snd (parseSSHHost hostArg)
     /\ containsByte "@"%char (fst (parseSSHHost hostArg)) = false)
  /\ (containsByte "@"%char hostArg = false ->
        parseSSHHost hostArg = ("", hostArg))
  /\ (forall user host,
        containsByte "@"%char user = false ->
        parseSSHHost (user ++ "@" ++ host) = (user, host)).
Proof.
  unfold parseSSHHost. split; [|split].
  - intros H. rewrite H. apply splitFirst_join. exact H.
  - intros H. rewrite H. reflexivity.
  - intros user host H.
    rewrite containsByte_app. simpl. rewrite orb_true_r.
    apply splitFirst_app. exact H.
Qed.

(** X12. The user the [ssh] commands connect as is never empty: it is
    the [--user] flag when given, else the user of [user@host], else
    [root].  So the last argument handed to [ssh] is always of the form
    user@host, after [-p port] when a port is set and [-i key] when a
    key is set, in that order: a bare host or alias is never passed. *)
Theorem sshTarget_always_names_a_user (v : Vars) (hostArg : string) :
  let user := fst (sshTarget v hostArg) in
  let host := snd (sshTarget v hostArg) in
  user <> ""
  /\ host = snd (parseSSHHost hostArg)
  /\ (sshUser v <> "" -> user = sshUser v)
  /\ (sshUser v = "" -> fst (parseSSHHost hostArg) <> "" ->
      user = fst (parseSSHHost hostArg))
  /\ (sshUser v = "" -> fst (parseSSHHost hostArg) = "" -> user = "root")
  /\ buildSSHArgs v user host
     = ((if sshPort v =? 0 then [] else ["-p"; Itoa (sshPort v)])
        ++ (if String.eqb (sshKey v) "" then [] else ["-i"; sshKey v])
        ++ [(user ++ "@" ++ host)%string])%list.
Proof.
  cbv zeta. unfold sshTarget.
  destruct (parseSSHHost hostArg) as [u h]. simpl fst. simpl snd.
  destruct (String.eqb_spec (sshUser v) "") as [E|N]; simpl negb; cbv iota.
  - destruct (String.eqb_spec u "") as [Eu|Nu]; simpl fst; simpl snd.
    + split; [discriminate|]. split; [reflexivity|].
      split; [intros H; contradiction|].
      split; [intros _ H; contradiction|].
      split; [reflexivity|].
      unfold buildSSHArgs.
      destruct (sshPort v =? 0); destruct (String.eqb (sshKey v) "");
        reflexivity.
    + split; [exact Nu|]. split; [reflexivity|].
      split; [intros H; contradiction|].
      split; [reflexivity|].
      split; [intros _ H; contradiction|].
      unfold buildSSHArgs. apply String.eqb_neq in Nu. rewrite Nu.
      destruct (sshPort v =? 0); destruct (String.eqb (sshKey v) "");
        reflexivity.
  - assert (Hne : String.eqb (sshUser v) "" = false)
      by (apply String.eqb_neq; exact N).
    rewrite Hne. simpl fst. simpl snd.
    split; [exact N|]. split; [reflexivity|].
    split; [reflexivity|].
    split; [intros H; contradiction|].
    split; [intros H; contradiction|].
    unfold buildSSHArgs. rewrite Hne.
    destruct (sshPort v =? 0); destruct (String.eqb (sshKey v) "");
      reflexivity.
Qed.

(** [runSSHCommand] without an [ssh] executable on the search path
    returns the fixed "ssh not found" error, which wraps nothing, and
    runs no process: the world is untouched.  With one, it runs that
    executable once, the remote command as the last argument after the
    given ones, and returns what the run returns, unwrapped. *)
Lemma runSSHCommand_spec (sshArgs : list string) (command : string)
    (w : World Env) :
  (forall e, exec_LookPath P "ssh" (env w) = Fail e ->
     runSSHCommand P sshArgs command w
     = (Some (Errorf "ssh not found in PATH. Please install OpenSSH"), w))
  /\ (forall sshPath r e',
        exec_LookPath P "ssh" (env w) = Ok sshPath ->
        exec_Run P sshPath (sshArgs ++ [command])%list (env w) = (r, e') ->
        runSSHCommand P sshArgs command w
        = (r, {| cfg := cfg w; vars := vars w; env := e';
                 trace := trace w
                          ++ [EvRun sshPath (sshArgs ++ [command])] |})).
Proof.
  unfold runSSHCommand, bind, readEnv, log, liftEnv, ret. split.
  - intros e H. rewrite H. reflexivity.
  - intros sshPath r e' H R. rewrite H. simpl. rewrite R. reflexivity.
Qed.


(** *** The configuration file, logout and login *)

(** [SaveConfig] stage by stage. *)
Lemma SaveConfig_cases (w : World Env) :
  match os_UserHomeDir P (env w) with
  | Fail err => SaveConfig P w = (Some err, w)
  | Ok home =>
    let path := config_path home in
    let dir := filepath_Dir P path in
    let (merr, e1) := os_MkdirAll P dir 448 (env w) in
    let w1 := {| cfg := cfg w; vars := vars w; env := e1;
                 trace := trace w ++ [EvMkdirAll dir 448] |} in
    match merr with
    | Some err => SaveConfig P w = (Some err, w1)
    | None =>
      match yaml_Marshal P TConfig (cfg w) with
      | Fail err => SaveConfig P w = (Some err, w1)
      | Ok data =>
        let (werr, e2) := os_WriteFile P path data 384 e1 in
        SaveConfig P w
        = (werr, {| cfg := cfg w; vars := vars w; env := e2;
                    trace := (trace w ++ [EvMkdirAll dir 448])
                             ++ [EvWriteFile path data 384] |})
      end
    end
  end.
Proof.
  unfold SaveConfig, GetConfigPath, GetConfigDir, config_path, bind,
    readEnv, log, liftEnv, getCfg, ret.
  destruct (os_UserHomeDir P (env w)) as [home|err]; [|reflexivity].
  cbn [cfg vars env trace].
  destruct (os_MkdirAll P _ 448 (env w)) as [[err|] e1]; [reflexivity|].
  cbn [cfg vars env trace].
  destruct (yaml_Marshal P TConfig (cfg w)) as [data|err]; [|reflexivity].
  cbn [cfg vars env trace].
  destruct (os_WriteFile P _ data 384 e1) as [werr e2]. reflexivity.
Qed.

(** What [SaveConfig] writes. *)
Lemma SaveConfig_writes (w w' : World Env) (r : option error) :
  SaveConfig P w = (r, w') ->
  cfg w' = cfg w
  /\ (r = None ->
      exists home data,
        os_UserHomeDir P (env w) = Ok home
        /\ yaml_Marshal P TConfig (cfg w) = Ok data
        /\ trace w'
           = (trace w
              ++ [EvMkdirAll (filepath_Dir P (config_path home)) 448;
                  EvWriteFile (config_path home) data 384])%list)
  /\ (forall tr path data perm,
        trace w' = (trace w ++ tr)%list ->
        In (EvWriteFile path data perm) tr ->
        perm = 384
        /\ yaml_Marshal P TConfig (cfg w) = Ok data
        /\ exists home,
             os_UserHomeDir P (env w) = Ok home
             /\ path = config_path home
             /\ tr = [EvMkdirAll (filepath_Dir P path) 448;
                      EvWriteFile path data 384]).
Proof.
  intros H. pose proof (SaveConfig_cases w) as C. rewrite H in C.
  destruct (os_UserHomeDir P (env w)) as [home|err] eqn:Hh.
  2:{ injection C as Hr Hw; subst r w'. split; [reflexivity|split].
      - discriminate.
      - intros tr path data perm T Hin.
        rewrite <- (app_nil_r (trace w)) in T at 1.
        apply app_inv_head in T. subst tr. destruct Hin. }
  cbv zeta in C.
  destruct (os_MkdirAll P (filepath_Dir P (config_path home)) 448 (env w))
    as [[merr|] e1].
  { injection C as Hr Hw; subst r w'. split; [reflexivity|split].
    - discriminate.
    - intros tr path data perm T Hin. simpl in T.
      apply app_inv_head in T. subst tr.
      destruct Hin as [Hin|[]]. discriminate. }
  destruct (yaml_Marshal P TConfig (cfg w)) as [data|err] eqn:Hy.
  2:{ injection C as Hr Hw; subst r w'. split; [reflexivity|split].
      - discriminate.
      - intros tr path data perm T Hin. simpl in T.
        apply app_inv_head in T. subst tr.
        destruct Hin as [Hin|[]]. discriminate. }
  destruct (os_WriteFile P (config_path home) data 384 e1) as [werr e2].
  injection C as Hr Hw; subst r w'. split; [reflexivity|split].
  - intros _. exists home, data.
    split; [reflexivity|split; [reflexivity|]].
    simpl. rewrite <- app_assoc. reflexivity.
  - intros tr path data' perm T Hin. simpl in T.
    rewrite <- app_assoc in T. apply app_inv_head in T. subst tr.
    destruct Hin as [Hin|[Hin|[]]]; [discriminate|].
    inversion Hin; subst.
    split; [reflexivity|split; [reflexivity|]].
    exists home. split; [reflexivity|split; reflexivity].
Qed.

(** X13. [SaveConfig] never changes the configuration or the flags in
    memory, and returns the error of the stage that failed as it is.
    With the home directory unknown it touches nothing.  Otherwise it
    calls [os.MkdirAll] on the directory of [.vstats/config.yaml] under
    the home directory with permission argument 0700.  If that call
    fails, or if the configuration cannot be encoded, no file is
    written: the environment is the one [os.MkdirAll] left.  Otherwise
    it calls [os.WriteFile] on that file with the encoded configuration
    and permission argument 0600, and its result and the environment it
    leaves are those of that call. *)
Theorem SaveConfig_spec (w w' : World Env) (r : option error) :
  SaveConfig P w = (r, w') ->
  cfg w' = cfg w /\ vars w' = vars w
  /\ (forall err, os_UserHomeDir P (env w) = Fail err ->
        r = Some err /\ w' = w)
  /\ (forall home merr e1,
        os_UserHomeDir P (env w) = Ok home ->
        os_MkdirAll P (filepath_Dir P (config_path home)) 448 (env w)
        = (merr, e1) ->
        let made := EvMkdirAll (filepath_Dir P (config_path home)) 448 in
        (forall err, merr = Some err ->
           r = Some err /\ env w' = e1
           /\ trace w' = (trace w ++ [made])%list)
        /\ (forall err, merr = None ->
              yaml_Marshal P TConfig (cfg w) = Fail err ->
              r = Some err /\ env w' = e1
              /\ trace w' = (trace w ++ [made])%list)
        /\ (forall data, merr = None ->
              yaml_Marshal P TConfig (cfg w) = Ok data ->
              os_WriteFile P (config_path home) data 384 e1 = (r, env w')
              /\ trace w'
                 = (trace w
                    ++ [made; EvWriteFile (config_path home) data 384])%list)).
Proof.
  intros H. pose proof (SaveConfig_cases w) as C. rewrite H in C.
  destruct (os_UserHomeDir P (env w)) as [home|err] eqn:Hh.
  2:{ injection C as Hr Hw; subst r w'.
      split; [reflexivity|]. split; [reflexivity|]. split.
      - intros e0 E. inversion E. split; reflexivity.
      - intros home merr e1 E. discriminate E. }
  cbv zeta in C.
  assert (Hcv : cfg w' = cfg w /\ vars w' = vars w).
  { destruct (os_MkdirAll P (filepath_Dir P (config_path home)) 448 (env w))
      as [[merr|] e1].
    - injection C as Hr Hw; subst r w'. split; reflexivity.
    - destruct (yaml_Marshal P TConfig (cfg w)) as [data|err].
      + destruct (os_WriteFile P (config_path home) data 384 e1)
          as [werr e2].
        injection C as Hr Hw; subst r w'. split; reflexivity.
      + injection C as Hr Hw; subst r w'. split; reflexivity. }
  split; [exact (proj1 Hcv)|]. split; [exact (proj2 Hcv)|]. split.
  { intros e0 E. discriminate E. }
  intros home0 merr e1 E M. inversion E; subst home0. rewrite M in C.
  cbv zeta. split; [|split].
  - intros err ->. injection C as Hr Hw; subst r w'.
    split; [reflexivity|]. split; reflexivity.
  - intros err -> Y. rewrite Y in C. injection C as Hr Hw; subst r w'.
    split; [reflexivity|]. split; reflexivity.
  - intros data -> Y. rewrite Y in C.
    destruct (os_WriteFile P (config_path home) data 384 e1) as [werr e2].
    injection C as Hr Hw; subst r w'. split; [reflexivity|].
    simpl. rewrite <- app_assoc. reflexivity.
Qed.


Lemma SaveConfig_events (w w' : World Env) (r : option error) :
  SaveConfig P w = (r, w') ->
  exists tr,
    trace w' = (trace w ++ tr)%list
    /\ Forall (fun e => match e with
                        | EvMkdirAll _ _ => True
                        | EvWriteFile _ _ _ => True
                        | _ => False
                        end) tr.
Proof.
  intros H. pose proof (SaveConfig_cases w) as C. rewrite H in C.
  destruct (os_UserHomeDir P (env w)) as [home|err].
  2:{ injection C as Hr Hw; subst r w'. exists [].
      rewrite app_nil_r. split; [reflexivity|constructor]. }
  cbv zeta in C.
  destruct (os_MkdirAll P (filepath_Dir P (config_path home)) 448 (env w))
    as [[merr|] e1].
  { injection C as Hr Hw; subst r w'. eexists. split; [reflexivity|].
    repeat constructor. }
  destruct (yaml_Marshal P TConfig (cfg w)) as [data|err].
  2:{ injection C as Hr Hw; subst r w'. eexists. split; [reflexivity|].
      repeat constructor. }
  destruct (os_WriteFile P (config_path home) data 384 e1) as [werr e2].
  injection C as Hr Hw; subst r w'. eexists. split.
  - simpl. rewrite <- app_assoc. reflexivity.
  - repeat constructor.
Qed.

(** What [logout] does with a session. *)
Lemma logout_clears_session_aux (w w' : World Env) (r : option error) :
  Token (cfg w) <> "" ->
  logoutRunE P w = (r, w') ->
  cfg w' = cleared (cfg w)
  /\ issued w w' []
  /\ (forall err, r = Some err ->
        exists e, err = Errorf_w "failed to save config: " e)
  /\ (r = None ->
      exists home data,
        yaml_Marshal P TConfig (cleared (cfg w)) = Ok data
        /\ trace w'
           = (trace w
              ++ [EvMkdirAll (filepath_Dir P (config_path home)) 448;
                  EvWriteFile (config_path home) data 384])%list).
Proof.
  intros Htok H. apply String.eqb_neq in Htok.
  unfold logoutRunE, IsLoggedIn, bind, getCfg, modifyCfg, ret in H.
  rewrite Htok in H. simpl in H.
  match type of H with
  | context [SaveConfig P ?v] =>
      destruct (SaveConfig P v) as [rs w1] eqn:S
  end.
  destruct (SaveConfig_writes _ _ _ S) as [C [Hok _]].
  destruct (SaveConfig_frame _ _ _ S) as [I _].
  simpl in C, Hok.
  assert (Hw : w1 = w') by (destruct rs; inversion H; reflexivity).
  subst w1.
  split; [exact C|]. split.
  - destruct I as [tr [T A]]. exists tr. split; [exact T | exact A].
  - split.
    + intros err ->. destruct rs as [e|]; [|discriminate].
      exists e. inversion H. reflexivity.
    + intros ->. destruct rs as [e|]; [discriminate|].
      destruct (Hok eq_refl) as [home [data [_ [Y T]]]].
      exists home, data. split; [exact Y | exact T].
Qed.

(** X14. [logout] with a session clears the token, the username and the
    expiry in memory and keeps the cloud URL, whether or not the file
    can then be saved; it makes no call to the cloud; an error it
    returns is the save error under "failed to save config: ".  When it
    succeeds, the cleared configuration was persisted: [os.MkdirAll] on
    the directory of the configuration file returned no error, and
    [os.WriteFile] of the encoded cleared configuration to the
    configuration file returned no error and left the final
    environment. *)
Theorem logout_clears_session (w w' : World Env) (r : option error) :
  Token (cfg w) <> "" ->
  logoutRunE P w = (r, w') ->
  cfg w' = cleared (cfg w)
  /\ issued w w' []
  /\ (forall err, r = Some err ->
        exists e, err = Errorf_w "failed to save config: " e)
  /\ (r = None ->
      exists home data e1,
        os_UserHomeDir P (env w) = Ok home
        /\ os_MkdirAll P (filepath_Dir P (config_path home)) 448 (env w)
           = (None, e1)
        /\ yaml_Marshal P TConfig (cleared (cfg w)) = Ok data
        /\ os_WriteFile P (config_path home) data 384 e1 = (None, env w')
        /\ trace w'
           = (trace w
              ++ [EvMkdirAll (filepath_Dir P (config_path home)) 448;
                  EvWriteFile (config_path home) data 384])%list).
Proof.
  intros Htok H.
  destruct (logout_clears_session_aux w w' r Htok H) as [C [I [E _]]].
  split; [exact C|]. split; [exact I|]. split; [exact E|].
  intros ->. apply String.eqb_neq in Htok.
  unfold logoutRunE, IsLoggedIn, bind, getCfg, modifyCfg, ret in H.
  rewrite Htok in H. simpl in H.
  match type of H with
  | context [SaveConfig P ?v] =>
      pose proof (SaveConfig_cases v) as S;
      destruct (SaveConfig P v) as [rs w1] eqn:HS
  end.
  destruct rs as [err|]; [discriminate H|].
  injection H as Hw; subst w1.
  cbn [cfg vars env trace] in S.
  unfold set_ExpiresAt, set_Username, set_Token in S.
  cbn [CloudURL Token Username ExpiresAt] in S.
  fold (cleared (cfg w)) in S.
  destruct (os_UserHomeDir P (env w)) as [home|err] eqn:Hh;
    [|discriminate S].
  cbv zeta in S.
  destruct (os_MkdirAll P (filepath_Dir P (config_path home)) 448 (env w))
    as [[merr|] e1] eqn:Hm; [discriminate S|].
  destruct (yaml_Marshal P TConfig (cleared (cfg w))) as [data|err] eqn:Hy;
    [|discriminate S].
  destruct (os_WriteFile P (config_path home) data 384 e1) as [werr e2]
    eqn:Hwr.
  injection S as Hr Hw; subst werr w'.
  exists home, data, e1.
  split; [first [exact Hh | reflexivity]|].
  split; [first [exact Hm | reflexivity]|].
  split; [first [exact Hy | reflexivity]|].
  split; [first [exact Hwr | reflexivity]|].
  simpl. rewrite <- app_assoc. reflexivity.
Qed.

(** [runLogin] stage by stage. *)
Lemma runLogin_cases (w : World Env) :
  let (r0, w0) := readToken P w in
  match r0 with
  | Fail err => runLogin P w = (Some err, w0)
  | Ok token =>
    if String.eqb token "" then
      runLogin P w = (Some (Errorf "token is required"), w0)
    else
      let (rv, w1) :=
        VerifyToken P {| BaseURL := CloudURL (cfg w0); Client_Token := token |}
          w0 in
      match rv with
      | Fail err =>
          runLogin P w = (Some (Errorf_w "authentication failed: " err), w1)
      | Ok resp =>
        if Valid resp then
          let (now, e2) := time_Now P (env w1) in
          let (rs, w3) :=
            SaveConfig P
              {| cfg := {| CloudURL := CloudURL (cfg w1);
                           Token := token;
                           Username := VerifyResponse_Username resp;
                           ExpiresAt :=
                             Time_Unix (Time_Add now (7 * 24 * Hour)) |};
                 vars := vars w1; env := e2;
                 trace := trace w1 ++ [EvNow now] |} in
          runLogin P w
          = (match rs with
             | Some err => Some (Errorf_w "failed to save config: " err)
             | None => None
             end, w3)
        else runLogin P w = (Some (Errorf "invalid token"), w1)
      end
  end.
Proof.
  unfold runLogin, bind.
  destruct (readToken P w) as [[token|err] w0]; [|reflexivity].
  destruct (String.eqb token ""); [reflexivity|].
  unfold getCfg.
  destruct (VerifyToken P _ w0) as [[resp|err] w1]; [|reflexivity].
  destruct (Valid resp); [|reflexivity].
  simpl negb. cbv iota.
  unfold modifyCfg, Now, bind, liftEnv, log, ret.
  cbn -[Time_Unix Time_Add Hour Z.mul SaveConfig].
  destruct (time_Now P (env w1)) as [now e2].
  cbn -[Time_Unix Time_Add Hour Z.mul SaveConfig].
  unfold set_ExpiresAt, set_Username, set_Token.
  cbn [CloudURL Token Username ExpiresAt].
  match goal with
  | |- context [SaveConfig P ?v] => destruct (SaveConfig P v) as [rs w3]
  end.
  destruct rs; reflexivity.
Qed.


Lemma readToken_vars (w w0 : World Env) (r : result string) :
  readToken P w = (r, w0) -> vars w0 = vars w.
Proof.
  unfold readToken, promptToken, bind, getVars, readEnv, liftEnv, ret.
  intros H. revert H. split_run; intros H; inversion H; subst;
    repeat match goal with
           | E : (_, _) = (_, _) |- _ => inversion E; subst; clear E
           end;
    reflexivity.
Qed.

Lemma fetch_world c method path body t w :
  snd (fetch P c method path body t w)
  = snd (Do P c method path body (Some t) (zero t) w).
Proof.
  unfold fetch, bind, ret.
  destruct (Do P c method path body (Some t) (zero t) w) as [[v err] w1].
  destruct err; reflexivity.
Qed.

(** The events of the verify call: the call, then at most one request,
    of the client that made the call. *)
Lemma VerifyToken_events c (w w1 : World Env) (r : result VerifyResponse) :
  VerifyToken P c w = (r, w1) ->
  exists tr,
    trace w1 = (trace w ++ tr)%list
    /\ api_calls tr = [("GET", "/api/auth/verify")]
    /\ (forall t, ~ In (EvNow t) tr)
    /\ (forall path data perm, ~ In (EvWriteFile path data perm) tr)
    /\ forall req, In (EvRoundTrip req) tr ->
         Method req = "GET"
         /\ Request_URL req = BaseURL c ++ "/api/auth/verify"
         /\ from_client c (version (vars w)) req.
Proof.
  intros H.
  assert (W : w1 = snd (Do P c "GET" "/api/auth/verify" None
                          (Some TVerifyResponse) (zero TVerifyResponse) w)).
  { rewrite <- fetch_world. unfold VerifyToken in H. rewrite H.
    reflexivity. }
  pose proof (Do_trace c "GET" "/api/auth/verify" None
                (Some TVerifyResponse) (zero TVerifyResponse) w) as D.
  cbv zeta in D. rewrite <- W in D.
  destruct D as [[T _]|[req [T [Hm [Hu Hf]]]]].
  - exists [EvDo "GET" "/api/auth/verify"]. split; [exact T|].
    split; [reflexivity|].
    split; [intros t [Hin|[]]; discriminate|].
    split; [intros p d m [Hin|[]]; discriminate|].
    intros r0 [Hin|[]]. discriminate.
  - exists [EvDo "GET" "/api/auth/verify"; EvRoundTrip req].
    split; [exact T|]. split; [reflexivity|].
    split; [intros t [Hin|[Hin|[]]]; discriminate|].
    split; [intros p d m [Hin|[Hin|[]]]; discriminate|].
    intros r0 [Hin|[Hin|[]]]; [discriminate|].
    inversion Hin; subst r0. split; [exact Hm|split; [exact Hu|exact Hf]].
Qed.

(** X15. A login that fails before the save leaves the session as it
    was: when [runLogin] returns an error other than a save error, the
    configuration in memory is unchanged, the clock was not read and no
    file was written.  (After a save error the new session is in memory
    but not in the file.) *)
Theorem runLogin_failure_keeps_session (w w' : World Env) (err : error) :
  runLogin P w = (Some err, w') ->
  (exists e, err = Errorf_w "failed to save config: " e)
  \/ (cfg w' = cfg w
      /\ exists tr,
           trace w' = (trace w ++ tr)%list
           /\ (forall t, ~ In (EvNow t) tr)
           /\ (forall path data perm, ~ In (EvWriteFile path data perm) tr)).
Proof.
  intros H. pose proof (runLogin_cases w) as C.
  destruct (readToken P w) as [r0 w0] eqn:R.
  destruct (readToken_cfg _ _ _ R) as [C0 T0].
  assert (Hnone : cfg w0 = cfg w
                  /\ exists tr,
                       trace w0 = (trace w ++ tr)%list
                       /\ (forall t, ~ In (EvNow t) tr)
                       /\ (forall path data perm,
                             ~ In (EvWriteFile path data perm) tr)).
  { split; [exact C0|]. exists []. rewrite app_nil_r.
    split; [exact T0|]. split; intros; intros []. }
  destruct r0 as [token|e0].
  2:{ rewrite H in C. injection C as _ Hw. subst w'. right. exact Hnone. }
  destruct (String.eqb token "").
  { rewrite H in C. injection C as _ Hw. subst w'. right. exact Hnone. }
  destruct (VerifyToken P _ w0) as [rv w1] eqn:V.
  destruct (VerifyToken_frame _ _ _ _ V) as [_ [C1 _]].
  destruct (VerifyToken_events _ _ _ _ V) as [tr [T1 [_ [N1 [W1 _]]]]].
  assert (Hverify : cfg w1 = cfg w
                    /\ exists tr,
                         trace w1 = (trace w ++ tr)%list
                         /\ (forall t, ~ In (EvNow t) tr)
                         /\ (forall path data perm,
                               ~ In (EvWriteFile path data perm) tr)).
  { split; [congruence|]. exists tr. rewrite T1, T0.
    split; [reflexivity|]. split; assumption. }
  destruct rv as [resp|e1].
  2:{ rewrite H in C. injection C as _ Hw. subst w'. right. exact Hverify. }
  destruct (Valid resp).
  2:{ rewrite H in C. injection C as _ Hw. subst w'. right. exact Hverify. }
  destruct (time_Now P (env w1)) as [now e2].
  match type of C with
  | context [SaveConfig P ?v] => destruct (SaveConfig P v) as [rs w3]
  end.
  rewrite H in C. destruct rs as [e|]; [|discriminate].
  left. exists e. injection C as He _. exact He.
Qed.

(** X16. The token [runLogin] verifies is the one it has just read, not
    the one of the stored session: its only call to the API client is
    the verify call, and a request it hands to [HTTPClient.Do] is a GET
    built for the URL string made of the configured cloud URL and
    [/api/auth/verify], with the candidate token as bearer token.  What
    the HTTP client does with that request, such as following a
    redirect, is not covered. *)
Theorem runLogin_verifies_candidate_token
    (w w0 : World Env) (token : string) :
  readToken P w = (Ok token, w0) ->
  token <> "" ->
  exists tr,
    trace (snd (runLogin P w)) = (trace w ++ tr)%list
    /\ api_calls tr = [("GET", "/api/auth/verify")]
    /\ forall req, In (EvRoundTrip req) tr ->
         Method req = "GET"
         /\ Request_URL req = CloudURL (cfg w) ++ "/api/auth/verify"
         /\ from_client
              {| BaseURL := CloudURL (cfg w); Client_Token := token |}
              (version (vars w)) req.
Proof.
  intros R Htok. apply String.eqb_neq in Htok.
  pose proof (runLogin_cases w) as C. rewrite R, Htok in C.
  destruct (readToken_cfg _ _ _ R) as [C0 T0].
  pose proof (readToken_vars _ _ _ R) as V0.
  rewrite C0 in C.
  destruct (VerifyToken P _ w0) as [rv w1] eqn:V.
  destruct (VerifyToken_events _ _ _ _ V) as [tr [T1 [A1 [_ [_ F1]]]]].
  rewrite V0 in F1. simpl in F1. rewrite T0 in T1.
  assert (Hstop : forall r, runLogin P w = (r, w1) ->
            exists tr0,
              trace (snd (runLogin P w)) = (trace w ++ tr0)%list
              /\ api_calls tr0 = [("GET", "/api/auth/verify")]
              /\ forall req, In (EvRoundTrip req) tr0 ->
                   Method req = "GET"
                   /\ Request_URL req
                      = CloudURL (cfg w) ++ "/api/auth/verify"
                   /\ from_client
                        {| BaseURL := CloudURL (cfg w);
                           Client_Token := token |}
                        (version (vars w)) req).
  { intros r E. rewrite E. exists tr.
    split; [exact T1|split; [exact A1|exact F1]]. }
  destruct rv as [resp|e1]; [|exact (Hstop _ C)].
  destruct (Valid resp); [|exact (Hstop _ C)].
  destruct (time_Now P (env w1)) as [now e2].
  match type of C with
  | context [SaveConfig P ?v] =>
      destruct (SaveConfig P v) as [rs w3] eqn:S
  end.
  destruct (SaveConfig_events _ _ _ S) as [ts [Ts Fs]].
  simpl in Ts. rewrite C. simpl.
  exists (tr ++ [EvNow now] ++ ts)%list. split; [|split].
  - rewrite Ts, T1, <- !app_assoc. reflexivity.
  - rewrite !api_calls_app, A1. simpl.
    assert (Hts : api_calls ts = []).
    { clear -Fs. induction Fs as [|e l He _ IH]; [reflexivity|].
      destruct e; simpl; try contradiction; exact IH. }
    rewrite Hts. reflexivity.
  - intros req Hin. apply in_app_or in Hin. destruct Hin as [Hin|Hin].
    + exact (F1 req Hin).
    + exfalso. destruct Hin as [Hin|Hin]; [discriminate|].
      rewrite Forall_forall in Fs. exact (Fs _ Hin).
Qed.

(** X17. A successful login establishes a session: the token in memory
    is the non-empty token that was read, so every command passes its
    login check afterwards; and a [logout] that follows clears that
    session again, keeping the cloud URL. *)
Theorem runLogin_then_session (w w' : World Env) :
  runLogin P w = (None, w') ->
  Token (cfg w') <> ""
  /\ (exists w0, readToken P w = (Ok (Token (cfg w')), w0))
  /\ requireLogin w' = (None, w')
  /\ cfg (snd (logoutRunE P w')) = cleared (cfg w).
Proof.
  intros H. pose proof (runLogin_cases w) as C.
  destruct (readToken P w) as [r0 w0] eqn:R.
  destruct (readToken_cfg _ _ _ R) as [C0 _].
  destruct r0 as [token|e0]; [|rewrite H in C; discriminate].
  destruct (String.eqb_spec token "") as [E|N];
    [rewrite H in C; discriminate|].
  destruct (VerifyToken P _ w0) as [rv w1] eqn:V.
  destruct (VerifyToken_frame _ _ _ _ V) as [_ [C1 _]].
  destruct rv as [resp|e1]; [|rewrite H in C; discriminate].
  destruct (Valid resp); [|rewrite H in C; discriminate].
  destruct (time_Now P (env w1)) as [now e2].
  match type of C with
  | context [SaveConfig P ?v] =>
      destruct (SaveConfig P v) as [rs w3] eqn:S
  end.
  destruct (SaveConfig_writes _ _ _ S) as [Cs _]. simpl in Cs.
  rewrite H in C. destruct rs; [discriminate|].
  injection C as Hw. subst w3.
  assert (Htok : Token (cfg w') = token) by (rewrite Cs; reflexivity).
  assert (Hne : Token (cfg w') <> "") by (rewrite Htok; exact N).
  split; [exact Hne|]. split; [exists w0; rewrite Htok; reflexivity|].
  split; [apply logged_in; exact Hne|].
  destruct (logoutRunE P w') as [r w''] eqn:L.
  destruct (logout_clears_session_aux w' w'' r Hne L) as [Cl _].
  simpl. rewrite Cl, Cs. unfold cleared. simpl. congruence.
Qed.


(** *** Single commands *)


Lemma session_start (w : World Env) :
  Token (cfg w) <> "" ->
  requireLogin w = (None, w) /\ NewClient w = (session_client w, w).
Proof.
  intros H. split; [apply logged_in; exact H | reflexivity].
Qed.


(** X19. [web remove] reports a fetch of the instance that fails, for
    whatever reason, as "web instance not found: " followed by the id
    given, wrapping nothing, and then makes no removal call.  With
    [--force] and the instance found, the removal call uses the id of
    the fetched instance. *)
Theorem webRemove_spec (instanceID : string) (force : bool)
    (w w1 : World Env) (instance : WebInstance) (gerr : option error) :
  Token (cfg w) <> "" ->
  GetWebInstance P (session_client w) instanceID w = ((instance, gerr), w1) ->
  (forall e, gerr = Some e ->
     webRemoveRunE P instanceID force w
     = (Some (Errorf ("web instance not found: " ++ instanceID)), w1))
  /\ (gerr = None -> force = true ->
      forall r w2,
        RemoveWebInstance P (session_client w) (WebInstance_ID instance) w1
        = (r, w2) ->
        webRemoveRunE P instanceID force w
        = (match r with
           | Some e => Some (Errorf_w "failed to remove instance: " e)
           | None => None
           end, w2)
        /\ issued w w2
             [("GET", "/api/web/instances/" ++ instanceID);
              ("DELETE",
               "/api/web/instances/" ++ WebInstance_ID instance)]).
Proof.
  intros Htok Hget. destruct (session_start w Htok) as [L N].
  split.
  - intros e ->. unfold webRemoveRunE, bind. rewrite L, N, Hget.
    reflexivity.
  - intros -> -> r w2 Hrm. split.
    + unfold webRemoveRunE, bind. rewrite L, N, Hget.
      unfold ret. cbv beta iota delta [negb]. rewrite Hrm.
      destruct r; reflexivity.
    + assert (I1 : issued w w1 [("GET", "/api/web/instances/" ++ instanceID)]).
      { unfold GetWebInstance, get in Hget.
        apply (Do_frame _ _ _ _ (Some TWebInstance)) in Hget.
        exact (proj1 Hget). }
      destruct (RemoveWebInstance_frame _ _ _ _ _ Hrm) as [I2 _].
      exact (issued_trans _ _ _ _ _ I1 I2).
Qed.

(** [server update] without a new name fails with the "no changes
    specified" error before anything is resolved or sent: the world is
    untouched. *)
Lemma serverUpdate_requires_name (serverID : string) (w : World Env) :
  Token (cfg w) <> "" ->
  serverUpdateRunE P serverID "" w
  = (Some (Errorf
       "no changes specified. Use --name to update the server name"), w).
Proof.
  intros Htok. destruct (session_start w Htok) as [L _].
  unfold serverUpdateRunE, bind. rewrite L. reflexivity.
Qed.

(** X20. The errors of [web check].  A fetch of the instance that fails
    is reported as "web instance not found: " followed by the id given,
    wrapping nothing, and no health check is requested.  With the
    instance found, a health check that fails ends the command with no
    error.  With the health check answered, the command returns what the
    encoder returns under [--output json] or [--output yaml], and no
    error under any other format. *)
Theorem webCheck_spec
    (instanceID : string) (w w1 : World Env) (instance : WebInstance)
    (gerr : option error) :
  Token (cfg w) <> "" ->
  GetWebInstance P (session_client w) instanceID w = ((instance, gerr), w1) ->
  (forall e, gerr = Some e ->
     webCheckRunE P instanceID w
     = (Some (Errorf ("web instance not found: " ++ instanceID)), w1))
  /\ (gerr = None ->
      forall status cerr w2,
        CheckWebInstance P (session_client w) (WebInstance_ID instance) w1
        = ((status, cerr), w2) ->
        (forall e, cerr = Some e -> webCheckRunE P instanceID w = (None, w2))
        /\ (cerr = None ->
            webCheckRunE P instanceID w
            = (if String.eqb (outputFmt (vars w)) "json"
               then match json_MarshalIndent P TWebInstanceStatus status with
                    | Fail err => Some err
                    | Ok _ => None
                    end
               else if String.eqb (outputFmt (vars w)) "yaml"
               then match yaml_Marshal P TWebInstanceStatus status with
                    | Fail err => Some err
                    | Ok _ => None
                    end
               else None, w2))).
Proof.
  intros Htok Hget. destruct (session_start w Htok) as [L N].
  split.
  - intros e ->. unfold webCheckRunE, bind. rewrite L, N, Hget. reflexivity.
  - intros -> status cerr w2 Hcheck. split.
    + intros e ->. unfold webCheckRunE, bind.
      rewrite L, N, Hget, Hcheck. reflexivity.
    + intros ->.
      assert (V : vars w2 = vars w).
      { pose proof (Do_same_vars (session_client w) "GET"
                      ("/api" ++ "/web/instances/" ++ instanceID) None
                      (Some TWebInstance) zeroWebInstance w) as [_ V1].
        pose proof (Do_same_vars (session_client w) "GET"
                      ("/api" ++ "/web/instances/" ++ WebInstance_ID instance
                       ++ "/check") None
                      (Some TWebInstanceStatus) (zero TWebInstanceStatus) w1)
          as [_ V2].
        unfold GetWebInstance, get in Hget.
        unfold CheckWebInstance, get in Hcheck.
        rewrite Hget in V1. rewrite Hcheck in V2. simpl in V1, V2.
        congruence. }
      unfold webCheckRunE, bind. rewrite L, N, Hget, Hcheck.
      unfold output, OutputJSON, OutputYAML, bind, getVars, ret.
      rewrite V.
      destruct (String.eqb (outputFmt (vars w)) "json").
      * destruct (json_MarshalIndent P TWebInstanceStatus status);
          reflexivity.
      * destruct (String.eqb (outputFmt (vars w)) "yaml"); [|reflexivity].
        destruct (yaml_Marshal P TWebInstanceStatus status); reflexivity.
Qed.


Lemma UpdateWebInstance_frame c i w r w1 :
  UpdateWebInstance P c i w = (r, w1) ->
  issued w w1 [("PUT", "/api/web/instances/" ++ WebInstance_ID i)]
  /\ same_vars w w1.
Proof.
  unfold UpdateWebInstance, put, bind, ret. intros H.
  destruct (Do P c "PUT" ("/api" ++ "/web/instances/" ++ WebInstance_ID i)
              (Some (pack TWebInstance i)) None tt w)
    as [[v err] w'] eqn:E.
  apply Do_frame in E. inversion H; subst. exact E.
Qed.

Lemma findServerByNameOrID_same_vars c nameOrID w r w1 :
  findServerByNameOrID P c nameOrID w = (r, w1) -> same_vars w w1.
Proof.
  unfold findServerByNameOrID, bind, ret. intros H.
  destruct (GetServer P c nameOrID w) as [[server|e] w0] eqn:G.
  - inversion H; subst. exact (proj2 (GetServer_frame _ _ _ _ _ G)).
  - destruct (ListServers P c w0) as [[servers|e2] w2] eqn:L.
    + assert (w2 = w1)
        by (destruct (scanByName nameOrID servers); inversion H;
            reflexivity).
      subst w2.
      exact (same_vars_trans _ _ _ (proj2 (GetServer_frame _ _ _ _ _ G))
               (proj2 (ListServers_frame _ _ _ _ L))).
    + inversion H; subst.
      exact (same_vars_trans _ _ _ (proj2 (GetServer_frame _ _ _ _ _ G))
               (proj2 (ListServers_frame _ _ _ _ L))).
Qed.

(** The web deployment from the plan check on, for a plan that passes
    it. *)
Lemma sshWeb_registers hostArg webName webPort domain enableSSL
    (w w1 w2 : World Env) (plan : UserPlan) (instance : WebInstance)
    (rerr : option error) :
  let client := session_client w in
  let user := fst (sshTarget (vars w) hostArg) in
  let host := snd (sshTarget (vars w) hostArg) in
  let port := defaultWebPort webPort in
  Token (cfg w) <> "" ->
  GetUserPlan P client w = ((plan, None), w1) ->
  IsPro plan = true \/ CurrentCount plan < MaxWebApps plan ->
  RegisterWebInstance P client
    (newWebInstance (defaultWebName webName host) host port
       (buildWebURL host port domain enableSSL)) w1
  = ((instance, rerr), w2) ->
  sshWebRunE P hostArg webName webPort domain enableSSL w
  = match rerr with
    | Some err =>
        (Some (Errorf_w "failed to register web instance: " err), w2)
    | None =>
        let (serr, w3) :=
          runSSHCommand P (buildSSHArgs (vars w) user host)
            (webInstallCmd (cloudURLOrDefault (cfg w)) (Token (cfg w)) port
               domain enableSSL) w2 in
        match serr with
        | Some err =>
            (Some (Errorf_w "deployment failed: " err),
             snd (RemoveWebInstance P client (WebInstance_ID instance) w3))
        | None =>
            (None,
             snd (UpdateWebInstance P client (set_Status "online" instance)
                    w3))
        end
    end.
Proof.
  intros client user host port Htok Hplan Hq Hreg.
  pose proof (GetUserPlan_frame _ _ _ _ Hplan) as [_ [C1 V1]].
  pose proof (RegisterWebInstance_frame _ _ _ _ _ Hreg) as [_ [C2 V2]].
  assert (Hq' : negb (IsPro plan)
                && (CurrentCount plan >=? MaxWebApps plan) = false).
  { destruct Hq as [Hp|Hc]; [rewrite Hp; reflexivity|].
    apply andb_false_iff. right.
    destruct (Z.geb_spec (CurrentCount plan) (MaxWebApps plan));
      [lia | reflexivity]. }
  apply logged_in in Htok.
  unfold sshWebRunE, bind. rewrite Htok.
  unfold NewClient, bind, getCfg, getVars, ret.
  change {| BaseURL := CloudURL (cfg w); Client_Token := Token (cfg w) |}
    with client.
  rewrite Hplan, Hq', V1.
  rewrite (surjective_pairing (sshTarget (vars w) hostArg)).
  fold user host port. rewrite Hreg.
  destruct rerr as [err|]; [reflexivity|].
  rewrite C2, C1.
  destruct (runSSHCommand P _ _ w2) as [[serr|] w3].
  - destruct (RemoveWebInstance P client (WebInstance_ID instance) w3).
    reflexivity.
  - destruct (UpdateWebInstance P client (set_Status "online" instance) w3).
    reflexivity.
Qed.

(** X21. When the web deployment's SSH step succeeds, the command marks
    the registered instance "online", sends that update for the
    instance's id, and returns no error whatever the update returns.
    The calls of the run are the plan fetch, the registration and the
    update. *)
Theorem sshWeb_success_updates_status
    hostArg webName webPort domain enableSSL
    (w w1 w2 w3 : World Env) (plan : UserPlan) (instance : WebInstance) :
  let client := session_client w in
  let user := fst (sshTarget (vars w) hostArg) in
  let host := snd (sshTarget (vars w) hostArg) in
  let port := defaultWebPort webPort in
  Token (cfg w) <> "" ->
  GetUserPlan P client w = ((plan, None), w1) ->
  IsPro plan = true \/ CurrentCount plan < MaxWebApps plan ->
  RegisterWebInstance P client
    (newWebInstance (defaultWebName webName host) host port
       (buildWebURL host port domain enableSSL)) w1
  = ((instance, None), w2) ->
  runSSHCommand P (buildSSHArgs (vars w) user host)
    (webInstallCmd (cloudURLOrDefault (cfg w)) (Token (cfg w)) port
       domain enableSSL) w2
  = (None, w3) ->
  exists update w4,
    UpdateWebInstance P client (set_Status "online" instance) w3
    = (update, w4)
    /\ sshWebRunE P hostArg webName webPort domain enableSSL w = (None, w4)
    /\ issued w w4
         [("GET", "/api/user/plan");
          ("POST", "/api/web/instances");
          ("PUT", "/api/web/instances/" ++ WebInstance_ID instance)].
Proof.
  intros client user host port Htok Hplan Hq Hreg Hssh.
  destruct (UpdateWebInstance P client (set_Status "online" instance) w3)
    as [update w4] eqn:Hup.
  exists update, w4. split; [reflexivity|split].
  - rewrite (sshWeb_registers _ _ _ _ _ _ _ _ _ _ _ Htok Hplan Hq Hreg).
    fold client user host port. rewrite Hssh, Hup. reflexivity.
  - pose proof (GetUserPlan_frame _ _ _ _ Hplan) as [I1 _].
    pose proof (RegisterWebInstance_frame _ _ _ _ _ Hreg) as [I2 _].
    pose proof (runSSHCommand_frame _ _ _ _ _ Hssh) as [I3 _].
    pose proof (UpdateWebInstance_frame _ _ _ _ _ Hup) as [I4 _].
    exact (issued_trans _ _ _ _ _ I1
             (issued_trans _ _ _ _ _ I2
                (issued_trans _ _ _ _ _ I3 I4))).
Qed.

(** X22. When the registration of the web instance fails, the web
    deployment returns that error under "failed to register web
    instance: " in the world the registration left: the plan fetch and
    the registration are the only calls, no process is run and nothing
    is removed. *)
Theorem sshWeb_registration_failure
    hostArg webName webPort domain enableSSL
    (w w1 w2 : World Env) (plan : UserPlan) (instance : WebInstance)
    (e : error) :
  let client := session_client w in
  let host := snd (sshTarget (vars w) hostArg) in
  let port := defaultWebPort webPort in
  Token (cfg w) <> "" ->
  GetUserPlan P client w = ((plan, None), w1) ->
  IsPro plan = true \/ CurrentCount plan < MaxWebApps plan ->
  RegisterWebInstance P client
    (newWebInstance (defaultWebName webName host) host port
       (buildWebURL host port domain enableSSL)) w1
  = ((instance, Some e), w2) ->
  sshWebRunE P hostArg webName webPort domain enableSSL w
  = (Some (Errorf_w "failed to register web instance: " e), w2)
  /\ issued w w2 [("GET", "/api/user/plan"); ("POST", "/api/web/instances")]
  /\ forall tr path args,
       trace w2 = (trace w ++ tr)%list -> ~ In (EvRun path args) tr.
Proof.
  intros client host port Htok Hplan Hq Hreg.
  split; [|split].
  - rewrite (sshWeb_registers _ _ _ _ _ _ _ _ _ _ _ Htok Hplan Hq Hreg).
    reflexivity.
  - pose proof (GetUserPlan_frame _ _ _ _ Hplan) as [I1 _].
    pose proof (RegisterWebInstance_frame _ _ _ _ _ Hreg) as [I2 _].
    exact (issued_trans _ _ _ _ _ I1 I2).
  - intros tr path args T Hin.
    assert (K : keeps (cfg w) (vars w) (fun _ => True) False False
                  (bind (GetUserPlan P client)
                     (fun _ => RegisterWebInstance P client
                        (newWebInstance (defaultWebName webName host) host
                           port (buildWebURL host port domain enableSSL))))
                  (fun _ => True)).
    { apply keeps_bind with (Q := fun _ => True).
      - unfold GetUserPlan, get.
        exact (keeps_Do (cfg w) (vars w) (fun _ => True) False False "GET"
                 _ None
                 (Some TUserPlan) zeroUserPlan I).
      - intros a _. unfold RegisterWebInstance, post.
        exact (keeps_Do (cfg w) (vars w) (fun _ => True) False False "POST"
                 _ _
                 (Some TWebInstance) zeroWebInstance I). }
    destruct (K w (instance, Some e) w2 eq_refl eq_refl)
      as [_ [_ [[tr' [T' F]] _]]].
    { unfold bind. rewrite Hplan. exact Hreg. }
    rewrite T in T'. apply app_inv_head in T'. subst tr'.
    rewrite Forall_forall in F. exact (F _ Hin).
Qed.

(** X23. A "pro" plan is never stopped by the plan check, whatever its
    count and maximum: the web deployment goes on to register the
    instance. *)
Theorem sshWeb_pro_plan_is_not_limited
    hostArg webName webPort domain enableSSL
    (w w1 : World Env) (plan : UserPlan) :
  Token (cfg w) <> "" ->
  GetUserPlan P (session_client w) w = ((plan, None), w1) ->
  IsPro plan = true ->
  fst (sshWebRunE P hostArg webName webPort domain enableSSL w)
  <> Some errLimitReached
  /\ exists calls,
       issued w (snd (sshWebRunE P hostArg webName webPort domain
                        enableSSL w))
         (("GET", "/api/user/plan") :: ("POST", "/api/web/instances")
          :: calls).
Proof.
  intros Htok Hplan Hpro.
  destruct (RegisterWebInstance P (session_client w)
              (newWebInstance
                 (defaultWebName webName (snd (sshTarget (vars w) hostArg)))
                 (snd (sshTarget (vars w) hostArg)) (defaultWebPort webPort)
                 (buildWebURL (snd (sshTarget (vars w) hostArg))
                    (defaultWebPort webPort) domain enableSSL)) w1)
    as [[instance rerr] w2] eqn:Hreg.
  pose proof (GetUserPlan_frame _ _ _ _ Hplan) as [I1 _].
  pose proof (RegisterWebInstance_frame _ _ _ _ _ Hreg) as [I2 _].
  pose proof (issued_trans _ _ _ _ _ I1 I2) as I12.
  rewrite (sshWeb_registers _ _ _ _ _ _ _ _ _ _ _ Htok Hplan
             (or_introl Hpro) Hreg).
  destruct rerr as [err|].
  - split; [discriminate|]. exists []. exact I12.
  - destruct (runSSHCommand P _ _ w2) as [[serr|] w3] eqn:Hssh.
    + pose proof (runSSHCommand_frame _ _ _ _ _ Hssh) as [I3 _].
      destruct (RemoveWebInstance P (session_client w)
                  (WebInstance_ID instance) w3) as [x w4] eqn:Hrm.
      pose proof (RemoveWebInstance_frame _ _ _ _ _ Hrm) as [I4 _].
      split; [discriminate|]. eexists.
      exact (issued_trans _ _ _ _ _ I12 (issued_trans _ _ _ _ _ I3 I4)).
    + pose proof (runSSHCommand_frame _ _ _ _ _ Hssh) as [I3 _].
      destruct (UpdateWebInstance P (session_client w)
                  (set_Status "online" instance) w3) as [x w4] eqn:Hup.
      pose proof (UpdateWebInstance_frame _ _ _ _ _ Hup) as [I4 _].
      split; [discriminate|]. eexists.
      exact (issued_trans _ _ _ _ _ I12 (issued_trans _ _ _ _ _ I3 I4)).
Qed.


(** X24. With [--server], the agent deployment creates nothing: it
    resolves the reference, and a failed resolution is returned as it is
    with no process run.  The remote command and the SSH arguments are
    built from the cloud URL, the session token, the flags and the host
    argument alone: the server that was resolved does not enter them. *)
Theorem sshAgent_existing_server
    (hostArg serverName existingServerID : string) (w w1 : World Env)
    (rf : result Server) :
  let client := session_client w in
  let user := fst (sshTarget (vars w) hostArg) in
  let host := snd (sshTarget (vars w) hostArg) in
  let name := defaultServerName serverName host in
  Token (cfg w) <> "" ->
  existingServerID <> "" ->
  findServerByNameOrID P client existingServerID w = (rf, w1) ->
  match rf with
  | Fail err =>
      sshAgentRunE P hostArg serverName existingServerID w = (Some err, w1)
  | Ok _ =>
      forall r w2,
        runSSHCommand P (buildSSHArgs (vars w) user host)
          (agentInstallCmd (cloudURLOrDefault (cfg w)) (Token (cfg w)) name)
          w1 = (r, w2) ->
        sshAgentRunE P hostArg serverName existingServerID w
        = (match r with
           | Some e => Some (Errorf_w "deployment failed: " e)
           | None => None
           end, w2)
  end.
Proof.
  intros client user host name Htok Hex Hfind.
  destruct (findServerByNameOrID_same_vars _ _ _ _ _ Hfind) as [C1 V1].
  apply String.eqb_neq in Hex. apply logged_in in Htok.
  assert (Hrun :
    sshAgentRunE P hostArg serverName existingServerID w
    = match rf with
      | Fail err => (Some err, w1)
      | Ok _ =>
          let (r, w2) :=
            runSSHCommand P (buildSSHArgs (vars w) user host)
              (agentInstallCmd (cloudURLOrDefault (cfg w)) (Token (cfg w))
                 name) w1 in
          (match r with
           | Some e => Some (Errorf_w "deployment failed: " e)
           | None => None
           end, w2)
      end).
  { unfold sshAgentRunE, bind. rewrite Htok.
    unfold NewClient, bind, getCfg, getVars, ret.
    rewrite (surjective_pairing (sshTarget (vars w) hostArg)).
    fold user host name. rewrite Hex. cbv beta iota delta [negb].
    change {| BaseURL := CloudURL (cfg w); Client_Token := Token (cfg w) |}
      with client.
    rewrite Hfind. destruct rf as [server|err]; [|reflexivity].
    rewrite C1.
    destruct (runSSHCommand P _ _ w1) as [[e|] w2]; reflexivity. }
  rewrite Hrun. destruct rf as [server|err]; [|reflexivity].
  intros r w2 Hssh. rewrite Hssh. reflexivity.
Qed.




(** *** Reading and setting the configuration *)

(** X26. [config set] knows the single key [cloud_url].  Any other key
    fails with "unknown configuration key: " and the key, leaving the
    world untouched.  For [cloud_url] the cloud URL in memory becomes
    the value while token, username and expiry stay, with or without a
    session; no call is made to the cloud; and the only error is the
    save error under "failed to save config: ". *)
Theorem configSet_spec (key value : string) (w w' : World Env)
    (r : option error) :
  configSetRunE P key value w = (r, w') ->
  (key <> "cloud_url" ->
     r = Some (Errorf ("unknown configuration key: " ++ key)) /\ w' = w)
  /\ (key = "cloud_url" ->
      cfg w' = {| CloudURL := value; Token := Token (cfg w);
                  Username := Username (cfg w);
                  ExpiresAt := ExpiresAt (cfg w) |}
      /\ issued w w' []
      /\ forall err, r = Some err ->
           exists e, err = Errorf_w "failed to save config: " e).
Proof.
  unfold configSetRunE. intros H. split.
  - intros Hk. apply String.eqb_neq in Hk. rewrite Hk in H.
    inversion H. split; reflexivity.
  - intros ->. simpl in H. unfold bind, modifyCfg in H.
    match type of H with
    | context [SaveConfig P ?v] =>
        destruct (SaveConfig P v) as [rs w1] eqn:S
    end.
    destruct (SaveConfig_writes _ _ _ S) as [C _].
    destruct (SaveConfig_frame _ _ _ S) as [I _].
    assert (Hw : w1 = w') by (destruct rs; inversion H; reflexivity).
    subst w1. split; [exact C|]. split.
    + destruct I as [tr [T A]]. exists tr. split; [exact T | exact A].
    + intros err ->. destruct rs as [e|]; [|discriminate].
      exists e. inversion H. reflexivity.
Qed.

Lemma LoadConfig_read (p : string) (w : World Env) :
  bind (readEnv (os_ReadFile FR p))
    (fun data =>
       match data with
       | Ok data0 =>
           bind getCfg
             (fun c =>
                let (c', err) := yaml_Unmarshal FR data0 c in
                bind (modifyCfg (fun _ => c')) (fun _ => ret err))
       | Fail err =>
           if os_IsNotExist FR err then ret None else ret (Some err)
       end) w
  = loaded p w.
Proof.
  unfold loaded, ret, bind, readEnv, getCfg, modifyCfg.
  destruct (os_ReadFile FR p (env w)) as [data|e].
  - destruct (yaml_Unmarshal FR data (cfg w)) as [c' err]. reflexivity.
  - destruct (os_IsNotExist FR e); reflexivity.
Qed.

Lemma LoadConfig_path (p : string) (w : World Env) :
  p <> "" -> LoadConfig P FR p w = loaded p w.
Proof.
  intros Hp. apply String.eqb_neq in Hp.
  unfold LoadConfig. unfold bind at 1. rewrite Hp. unfold ret at 1.
  apply LoadConfig_read.
Qed.

Lemma LoadConfig_home (home : string) (w : World Env) :
  os_UserHomeDir P (env w) = Ok home ->
  LoadConfig P FR "" w = loaded (config_path home) w.
Proof.
  intros Hh.
  assert (G : GetConfigPath P w = (Ok (config_path home), w)).
  { unfold GetConfigPath, GetConfigDir, bind, readEnv, ret, config_path.
    rewrite Hh. reflexivity. }
  unfold LoadConfig. unfold bind at 1.
  change (String.eqb "" "") with true. cbv iota.
  rewrite G. apply LoadConfig_read.
Qed.

(** X27. [LoadConfig] with no path reads the file [SaveConfig] writes,
    and fails if the home directory is unknown.  A file that does not
    exist is no error and leaves the configuration as it is; any other
    read error is returned and leaves it as it is too.  A file that is
    read is decoded into the configuration in memory, and what the
    decoder has filled in stays even when the decoder fails. *)
Theorem LoadConfig_spec (path : string) (w : World Env) :
  (forall home, os_UserHomeDir P (env w) = Ok home ->
     LoadConfig P FR "" w = LoadConfig P FR (config_path home) w)
  /\ (forall e, os_UserHomeDir P (env w) = Fail e ->
        LoadConfig P FR "" w = (Some e, w))
  /\ (path <> "" ->
      LoadConfig P FR path w = loaded path w)
  /\ (forall e, os_ReadFile FR path (env w) = Fail e ->
        loaded path w = (if os_IsNotExist FR e then None else Some e, w))
  /\ (forall data, os_ReadFile FR path (env w) = Ok data ->
        loaded path w
        = (snd (yaml_Unmarshal FR data (cfg w)),
           {| cfg := fst (yaml_Unmarshal FR data (cfg w));
              vars := vars w; env := env w; trace := trace w |})).
Proof.
  split; [|split; [|split; [|split]]].
  - intros home Hh. rewrite (LoadConfig_home home w Hh).
    destruct (String.eqb_spec (config_path home) "") as [E|N].
    + rewrite E at 2. symmetry. exact (LoadConfig_home home w Hh).
    + symmetry. exact (LoadConfig_path _ w N).
  - intros e Hh.
    assert (G : GetConfigPath P w = (Fail e, w)).
    { unfold GetConfigPath, GetConfigDir, bind, readEnv, ret.
      rewrite Hh. reflexivity. }
    unfold LoadConfig. unfold bind at 1.
    change (String.eqb "" "") with true. cbv iota.
    rewrite G. reflexivity.
  - exact (LoadConfig_path path w).
  - intros e H. unfold loaded. rewrite H. reflexivity.
  - intros data H. unfold loaded. rewrite H. reflexivity.
Qed.


Lemma runLogin_success_cfg (w w' : World Env) :
  runLogin P w = (None, w') -> CloudURL (cfg w') = CloudURL (cfg w).
Proof.
  intros H. pose proof (runLogin_cases w) as C.
  destruct (readToken P w) as [r0 w0] eqn:R.
  destruct (readToken_cfg _ _ _ R) as [C0 _].
  destruct r0 as [token|e0]; [|rewrite H in C; discriminate].
  destruct (String.eqb token ""); [rewrite H in C; discriminate|].
  destruct (VerifyToken P _ w0) as [rv w1] eqn:V.
  destruct (VerifyToken_frame _ _ _ _ V) as [_ [C1 _]].
  destruct rv as [resp|e1]; [|rewrite H in C; discriminate].
  destruct (Valid resp); [|rewrite H in C; discriminate].
  destruct (time_Now P (env w1)) as [now e2].
  match type of C with
  | context [SaveConfig P ?v] =>
      destruct (SaveConfig P v) as [rs w3] eqn:S
  end.
  destruct (SaveConfig_frame _ _ _ S) as [_ [Cs _]]. simpl in Cs.
  rewrite H in C. destruct rs; [discriminate|].
  injection C as Hw. subst w3. rewrite Cs. simpl. congruence.
Qed.

(** X28. Start-up never fails on the configuration file: [initConfig]
    drops the error of [LoadConfig].  A [--cloud-url] flag replaces the
    cloud URL of whatever was loaded and leaves the loaded token,
    username and expiry; without the flag the configuration is the
    loaded one.  A login that then succeeds keeps that URL, so the URL
    of the flag is the one saved with the session. *)
Theorem initConfig_cloud_url_flag (cfgFile cloudURL : string)
    (w : World Env) :
  let wl := snd (LoadConfig P FR cfgFile w) in
  let w1 := snd (initConfig P FR cfgFile cloudURL w) in
  (cloudURL = "" -> w1 = wl)
  /\ (cloudURL <> "" ->
      cfg w1 = {| CloudURL := cloudURL; Token := Token (cfg wl);
                  Username := Username (cfg wl);
                  ExpiresAt := ExpiresAt (cfg wl) |}
      /\ vars w1 = vars wl /\ env w1 = env wl /\ trace w1 = trace wl
      /\ forall w2, runLogin P w1 = (None, w2) ->
           CloudURL (cfg w2) = cloudURL).
Proof.
  cbv zeta. unfold initConfig, bind.
  destruct (LoadConfig P FR cfgFile w) as [r wl]. simpl snd. split.
  - intros ->. reflexivity.
  - intros Hne. apply String.eqb_neq in Hne. rewrite Hne. simpl.
    repeat split.
    intros w2 H. apply runLogin_success_cfg in H. exact H.
Qed.

(** X29. What [SaveConfig] has saved, [LoadConfig] reads back.  On a
    file system where a file that was written without error reads back
    as what was written, and with a decoder that, started from the
    configuration [c0] of a new process, inverts the encoder on the
    saved configuration: if [SaveConfig] succeeded and the home
    directory is still the same, then [LoadConfig] with no path, run in
    the environment [SaveConfig] left, succeeds and leaves exactly the
    saved configuration.  The file read back is the one [SaveConfig]
    wrote. *)
Theorem SaveConfig_LoadConfig_round_trip
    (w w' : World Env) (c0 : Config) (v : Vars) (tr : list Event) :
  (forall path data perm e e',
     os_WriteFile P path data perm e = (None, e') ->
     os_ReadFile FR path e' = Ok data) ->
  (forall data,
     yaml_Marshal P TConfig (cfg w) = Ok data ->
     yaml_Unmarshal FR data c0 = (cfg w, None)) ->
  SaveConfig P w = (None, w') ->
  os_UserHomeDir P (env w') = os_UserHomeDir P (env w) ->
  LoadConfig P FR ""
    {| cfg := c0; vars := v; env := env w'; trace := tr |}
  = (None, {| cfg := cfg w; vars := v; env := env w'; trace := tr |}).
Proof.
  intros Hfs Hcodec S Hh.
  pose proof (SaveConfig_cases w) as C. rewrite S in C.
  destruct (os_UserHomeDir P (env w)) as [home|err] eqn:Hhome;
    [|discriminate].
  cbv zeta in C.
  destruct (os_MkdirAll P (filepath_Dir P (config_path home)) 448 (env w))
    as [[merr|] e1]; [discriminate|].
  destruct (yaml_Marshal P TConfig (cfg w)) as [data|err] eqn:Hy;
    [|discriminate].
  destruct (os_WriteFile P (config_path home) data 384 e1) as [werr e2]
    eqn:Hw.
  injection C as Hr Hw'; subst werr w'. cbn [env] in *.
  pose proof (Hfs _ _ _ _ _ Hw) as Hr.
  pose proof (Hcodec data eq_refl) as Hu.
  rewrite (LoadConfig_home home); [|exact Hh].
  unfold loaded. cbn [env cfg vars trace]. rewrite Hr, Hu. reflexivity.
Qed.

(** *** Status rendering *)

(** X30. With [--no-color] the status renderers add no escape
    character: [color] returns its text, and the output of
    [formatStatus] and of [formatWebStatus] contains an escape character
    exactly when the status text itself does.  [formatWebStatus] leaves
    a status other than "online", "offline" and "pending" as it is, in
    either mode. *)
Theorem no_color_adds_no_escape (v : Vars) (status : string) :
  let esc := ascii_of_nat 27 in
  (noColor v = true ->
     (forall c text, color v c text = text)
     /\ containsByte esc (formatStatus P v status)
        = containsByte esc status
     /\ containsByte esc (formatWebStatus v status)
        = containsByte esc status)
  /\ (status <> "online" -> status <> "offline" -> status <> "pending" ->
      formatWebStatus v status = status).
Proof.
  cbv zeta. split.
  - intros Hn. split; [|split].
    + intros c text. unfold color. rewrite Hn. reflexivity.
    + unfold formatStatus, color, statusIcon. rewrite Hn.
      repeat match goal with
             | |- context [if ?b then _ else _] => destruct b
             end;
        rewrite containsByte_app; reflexivity.
    + unfold formatWebStatus. rewrite Hn.
      destruct (String.eqb_spec status "online") as [->|_];
        [reflexivity|].
      destruct (String.eqb_spec status "offline") as [->|_];
        [reflexivity|].
      destruct (String.eqb_spec status "pending") as [->|_]; reflexivity.
  - intros H1 H2 H3. unfold formatWebStatus.
    apply String.eqb_neq in H1. apply String.eqb_neq in H2.
    apply String.eqb_neq in H3. rewrite H1, H2, H3. reflexivity.
Qed.


End Properties.

(** ** The properties on the test double *)

Example parseSSHHost_user_host : parseSSHHost "admin@h" = ("admin", "h").
Proof. reflexivity. Qed.

Example parseSSHHost_alias : parseSSHHost "myserver" = ("", "myserver").
Proof. reflexivity. Qed.

Example parseSSHHost_first_at : parseSSHHost "a@b@c" = ("a", "b@c").
Proof. reflexivity. Qed.

Example sshTarget_default_user :
  sshTarget (Fake.flags "") "myserver" = ("root", "myserver").
Proof. reflexivity. Qed.

Example buildSSHArgs_plain :
  buildSSHArgs (Fake.flags "") "root" "h" = ["root@h"].
Proof. reflexivity. Qed.

Example formatLimit_samples :
  formatLimit 1 = "1" /\ formatLimit 0 = "0" /\ formatLimit (-1) = "unlimited".
Proof. repeat split; reflexivity. Qed.

Example sshWeb_success_marks_online :
  fst (sshWebRunE Fake.cloud "admin@h" "" 0 "" false Fake.loggedIn) = None
  /\ api_calls
       (trace (snd (sshWebRunE Fake.cloud "admin@h" "" 0 "" false
                      Fake.loggedIn)))
     = [("GET", "/api/user/plan"); ("POST", "/api/web/instances");
        ("PUT", "/api/web/instances/w-7")].
Proof. split; vm_compute; reflexivity. Qed.

Lemma findServerByNameOrID_resolves_witness :
  (exists w1,
     findServerByNameOrID Fake.cloud Fake.client "srv-1" Fake.loggedIn
     = (Ok (Fake.mkServer "srv-1" "alpha"), w1)
     /\ issued Fake.loggedIn w1 [("GET", "/api/servers/srv-1")])
  /\ fst (findServerByNameOrID Fake.cloud Fake.client "web" Fake.loggedIn)
     = Ok (Fake.mkServer "s-2" "web").
Proof.
  split.
  - eexists.
    refine (findServerByNameOrID_resolves Fake.cloud Fake.client "srv-1"
              Fake.loggedIn _ (Ok _) _).
    lazy. reflexivity.
  - pose (g := GetServer Fake.cloud Fake.client "web" Fake.loggedIn).
    assert (H : g = (Fail (Fake.errorOf (fst g)), snd g))
      by (vm_compute; reflexivity).
    pose proof (findServerByNameOrID_resolves Fake.cloud Fake.client "web"
                  Fake.loggedIn _ _ H) as T.
    cbv beta iota in T.
    destruct (ListServers Fake.cloud Fake.client (snd g)) as [l w2] eqn:HL.
    destruct T as [_ [_ T]].
    apply (T Fake.listing).
    + vm_compute in HL. inversion HL. reflexivity.
    + exists [Fake.mkServer "s-1" "WEB"], [Fake.mkServer "s-3" "web"].
      split; [reflexivity|split; [reflexivity|]].
      intros x [<-|[]]. discriminate.
Defined.

Lemma sshWeb_failure_removes_instance_witness :
  exists cleanup w3 w4,
    RemoveWebInstance Fake.cloudSSHFails Fake.client "w-7" w3 = (cleanup, w4)
    /\ cleanup
       = Some (Errorf_w "request failed: " (Errorf "connection reset"))
    /\ sshWebRunE Fake.cloudSSHFails "admin@h" "" 0 "" false Fake.loggedIn
       = (Some (Errorf_w "deployment failed: " (Errorf "exit status 1")), w4)
    /\ issued Fake.loggedIn w4
         [("GET", "/api/user/plan");
          ("POST", "/api/web/instances");
          ("DELETE", "/api/web/instances/w-7")].
Proof.
  pose (P := Fake.cloudSSHFails).
  pose (w1 := snd (GetUserPlan P Fake.client Fake.loggedIn)).
  pose (w2 := snd (RegisterWebInstance P Fake.client
                     (newWebInstance "web-h" "h" 3001 "http://h:3001") w1)).
  pose (w3 := snd (runSSHCommand P ["admin@h"]
                     (webInstallCmd DefaultCloudURL "tok" 3001 "" false) w2)).
  destruct (sshWeb_failure_removes_instance P "admin@h" "" 0 "" false
              Fake.loggedIn w1 w2 w3 (Fake.freePlan 0) Fake.registered
              (Errorf "exit status 1"))
    as [cleanup [w4 H]].
  - vm_compute. discriminate.
  - vm_compute. reflexivity.
  - right. vm_compute. reflexivity.
  - vm_compute. reflexivity.
  - vm_compute. reflexivity.
  - exists cleanup, w3, w4. destruct H as [Hrm H].
    split; [exact Hrm|split; [|exact H]].
    vm_compute in Hrm. inversion Hrm. reflexivity.
Defined.

Lemma sshWeb_quota_preflight_witness :
  exists w1,
    sshWebRunE Fake.cloudFull "root@h" "" 3001 "" false Fake.loggedIn
    = (Some errLimitReached, w1)
    /\ issued Fake.loggedIn w1 [("GET", "/api/user/plan")].
Proof.
  exists (snd (GetUserPlan Fake.cloudFull Fake.client Fake.loggedIn)).
  apply (sshWeb_quota_preflight Fake.cloudFull "root@h" "" 3001 "" false
           Fake.loggedIn _ (Fake.freePlan 1)).
  - vm_compute. discriminate.
  - vm_compute. reflexivity.
  - reflexivity.
  - vm_compute. discriminate.
Defined.

Lemma buildWebURL_spec_witness :
  buildWebURL "h" 8443 "d.example.com" true = "https://d.example.com:8443"
  /\ buildWebURL "h" 443 "d.example.com" true = "https://d.example.com"
  /\ buildWebURL "h" 3001 "" false = "http://h:3001".
Proof.
  destruct buildWebURL_spec as (_ & _ & _ & _ & Hdomain & Hhost).
  split; [|split].
  - apply (Hdomain "h" 8443 "d.example.com" true); discriminate.
  - apply (Hdomain "h" 443 "d.example.com" true);
      [discriminate | reflexivity].
  - apply (Hhost "h" 3001 false); discriminate.
Defined.

Lemma sshAgent_failure_keeps_server_witness :
  exists w2,
    sshAgentRunE Fake.cloudSSHFails "admin@h" "" "" Fake.loggedIn
    = (Some (Errorf_w "deployment failed: " (Errorf "exit status 1")), w2)
    /\ issued Fake.loggedIn w2 [("POST", "/api/servers")].
Proof.
  pose (P := Fake.cloudSSHFails).
  pose (w1 := snd (CreateServer P Fake.client "h" Fake.loggedIn)).
  pose (w2 := snd (runSSHCommand P ["admin@h"]
                     (agentInstallCmd DefaultCloudURL "tok" "h") w1)).
  exists w2.
  destruct (sshAgent_failure_keeps_server P "admin@h" "" Fake.loggedIn
              w1 w2 (Fake.mkServer "srv-1" "alpha") (Errorf "exit status 1"))
    as [H [_ [I _]]].
  - vm_compute. discriminate.
  - vm_compute. reflexivity.
  - vm_compute. reflexivity.
  - split; [exact H | exact I].
Defined.

Lemma findServerByNameOrID_not_found_witness :
  (exists err w2,
     findServerByNameOrID Fake.cloudListFails Fake.client "web"
       Fake.loggedIn = (Fail err, w2)
     /\ Error err = "server not found: web"
     /\ Unwrap err = None)
  /\ (exists err w2,
        findServerByNameOrID Fake.cloud Fake.client "Web" Fake.loggedIn
        = (Fail err, w2)
        /\ Error err = "server not found: Web"
        /\ Unwrap err = None).
Proof.
  split.
  - pose (P := Fake.cloudListFails).
    pose (g := GetServer P Fake.client "web" Fake.loggedIn).
    pose (l := ListServers P Fake.client (snd g)).
    destruct (findServerByNameOrID_not_found P Fake.client "web"
                Fake.loggedIn (snd g) (snd l) (Fake.errorOf (fst g)) (fst l))
      as [err [H [M [_ U]]]].
    + vm_compute. reflexivity.
    + vm_compute. reflexivity.
    + intros servers E. vm_compute in E. discriminate E.
    + exists err, (snd l). split; [exact H | split; [exact M | exact U]].
  - pose (P := Fake.cloud).
    pose (g := GetServer P Fake.client "Web" Fake.loggedIn).
    pose (l := ListServers P Fake.client (snd g)).
    destruct (findServerByNameOrID_not_found P Fake.client "Web"
                Fake.loggedIn (snd g) (snd l) (Fake.errorOf (fst g)) (fst l))
      as [err [H [M [_ U]]]].
    + vm_compute. reflexivity.
    + vm_compute. reflexivity.
    + intros servers E. vm_compute in E. inversion E; subst servers.
      intros s [<-|[<-|[<-|[]]]]; vm_compute; discriminate.
    + exists err, (snd l). split; [exact H | split; [exact M | exact U]].
Defined.

Lemma commands_require_login_witness :
  RunE Fake.cloud (SSHWeb "root@h" "" 0 "" false) Fake.loggedOut
  = (Some errNotLoggedIn, Fake.loggedOut)
  /\ RunE Fake.cloud (ServerDelete "srv-1" true) Fake.loggedOut
     = (Some errNotLoggedIn, Fake.loggedOut).
Proof.
  split; apply commands_require_login; reflexivity.
Defined.

Lemma logout_idempotent_witness :
  logoutRunE Fake.cloud Fake.loggedOut = (None, Fake.loggedOut)
  /\ logoutRunE Fake.cloud (snd (logoutRunE Fake.cloud Fake.loggedIn))
     = (None, snd (logoutRunE Fake.cloud Fake.loggedIn)).
Proof.
  split.
  - apply (proj1 (logout_idempotent Fake.cloud Fake.loggedOut)).
    reflexivity.
  - exact (proj2 (logout_idempotent Fake.cloud Fake.loggedIn)).
Defined.

Lemma sshWeb_negative_limit_witness :
  exists w1,
    sshWebRunE Fake.cloudNegative "root@h" "" 3001 "" false Fake.loggedIn
    = (Some errLimitReached, w1)
    /\ formatLimit (-1) = "unlimited".
Proof.
  exists (snd (GetUserPlan Fake.cloudNegative Fake.client Fake.loggedIn)).
  apply (sshWeb_negative_limit Fake.cloudNegative "root@h" "" 3001 "" false
           Fake.loggedIn _
           {| Plan := "free"; MaxWebApps := -1; CurrentCount := 0;
              IsPro := false |}).
  - vm_compute. discriminate.
  - vm_compute. reflexivity.
  - reflexivity.
  - simpl. lia.
  - simpl. lia.
Defined.

Lemma runLogin_expiry_witness :
  exists w' now,
    runLogin Fake.cloud Fake.atLogin = (None, w')
    /\ In (EvNow now) (trace w')
    /\ ExpiresAt (cfg w') = Time_Unix now + 7 * 24 * 3600
    /\ ExpiresAt (cfg w') = 1700604800
    /\ Username (cfg w') = "alice".
Proof.
  pose (w' := snd (runLogin Fake.cloud Fake.atLogin)).
  assert (H : runLogin Fake.cloud Fake.atLogin = (None, w'))
    by (vm_compute; reflexivity).
  destruct (runLogin_expiry Fake.cloud Fake.atLogin w' H)
    as (token & w0 & resp & w1 & now & e2 & home & data & e3
        & _ & _ & _ & _ & Hcfg & _ & _ & _ & _ & Htrace).
  exists w', now. split; [exact H|]. split; [|split; [|split]].
  - rewrite Htrace. apply in_or_app. right. left. reflexivity.
  - rewrite Hcfg. reflexivity.
  - vm_compute. reflexivity.
  - vm_compute. reflexivity.
Defined.

(** ** The further properties on the test double *)

Lemma Do_calls_transport_at_most_once_witness :
  exists req,
    trace (snd (Do Fake.cloud Fake.client "GET" "/api/servers" None
                  (Some TServers) [] Fake.loggedIn))
    = [EvDo "GET" "/api/servers"; EvRoundTrip req]
    /\ env (snd (Do Fake.cloud Fake.client "GET" "/api/servers" None
                   (Some TServers) [] Fake.loggedIn))
       = snd (http_Do Fake.cloud req O)
    /\ Request_URL req = "https://api.vstats.zsoft.cc/api/servers"
    /\ In ("Authorization", "Bearer tok") (Header req).
Proof.
  destruct (Do_calls_transport_at_most_once Fake.cloud Fake.client "GET"
              "/api/servers" None (Some TServers) [] Fake.loggedIn)
    as [[T _]|[bodyReader [_ [_ [T [E [_ [U [_ [_ [_ [_ A]]]]]]]]]]]].
  - vm_compute in T. discriminate T.
  - eexists. split; [exact T|]. split; [exact E|]. split; [exact U|].
    apply A. split; [discriminate | reflexivity].
Defined.

Lemma Do_success_is_complete_witness :
  exists resp,
    StatusCode resp < 400
    /\ fst (http_Do Fake.cloud
              (request_of Fake.client "dev" "GET" "/api/servers" None) O)
       = Ok resp.
Proof.
  pose (r := Do Fake.cloud Fake.client "GET" "/api/servers" None
               (Some TServers) [] Fake.loggedIn).
  assert (H : r = ((fst (fst r), None), snd r)) by (vm_compute; reflexivity).
  destruct (Do_success_is_complete Fake.cloud Fake.client "GET"
              "/api/servers" None (Some TServers) [] Fake.loggedIn _ _ H)
    as [bodyReader [resp [respBody [M [_ [D [_ [S _]]]]]]]].
  exists resp. split; [exact S|].
  vm_compute in M. inversion M; subst bodyReader.
  change (version (vars Fake.loggedIn)) with "dev" in D.
  change (env Fake.loggedIn) with O in D.
  rewrite D. reflexivity.
Defined.

Lemma Do_http_status_error_witness :
  exists err w',
    Do Fake.cloud Fake.client "GET" "/api/servers/nope" None (Some TServer)
      zeroServer Fake.loggedIn = ((zeroServer, Some err), w')
    /\ Unwrap err = None
    /\ Error err = "request failed with status 404: gone".
Proof.
  destruct (Do_http_status_error Fake.cloud Fake.client "GET"
              "/api/servers/nope" None (Some TServer) zeroServer
              Fake.loggedIn None
              {| StatusCode := 404; Response_Body := Ok "gone" |} (S O))
    as [err [w' [D [_ [_ B]]]]].
  - reflexivity.
  - reflexivity.
  - vm_compute. reflexivity.
  - vm_compute. discriminate.
  - destruct (B "gone" eq_refl) as [U [_ M]].
    exists err, w'. split; [exact D|]. split; [exact U|].
    apply M. intros apiErr H. vm_compute in H. discriminate H.
Defined.

Lemma commands_keep_session_witness :
  cfg (snd (RunE Fake.cloud (ServerKey "srv-1" true) Fake.loggedIn))
  = cfg Fake.loggedIn
  /\ api_calls
       (trace (snd (RunE Fake.cloud (ServerKey "srv-1" true) Fake.loggedIn)))
     = [("GET", "/api/servers/srv-1");
        ("POST", "/api/servers/srv-1/regenerate-key")]
  /\ (forall t,
        ~ In (EvNow t)
            (trace (snd (RunE Fake.cloud (ServerKey "srv-1" true)
                           Fake.loggedIn))))
  /\ In (EvNow 1700000000123456789)
        (trace (snd (RunE Fake.cloudSeen ServerList Fake.loggedIn))).
Proof.
  destruct (commands_keep_session Fake.cloud (ServerKey "srv-1" true)
              Fake.loggedIn) as [C [_ [tr [T [_ [_ N]]]]]].
  split; [exact C|]. split; [vm_compute; reflexivity|]. split.
  - intros t. rewrite T. exact (N eq_refl t).
  - vm_compute. right. right. left. reflexivity.
Defined.

Lemma commands_build_session_requests_witness :
  from_client Fake.client "dev"
    (request_of Fake.client "dev" "GET" "/api/servers" None).
Proof.
  apply (commands_build_session_requests Fake.cloud ServerList Fake.loggedIn
           (trace (snd (RunE Fake.cloud ServerList Fake.loggedIn)))).
  - reflexivity.
  - vm_compute. right. left. reflexivity.
Defined.

Lemma commands_use_their_methods_witness :
  In "GET" (methods_of (ServerShow "web")).
Proof.
  apply (commands_use_their_methods Fake.cloud (ServerShow "web")
           Fake.loggedIn
           (trace (snd (RunE Fake.cloud (ServerShow "web") Fake.loggedIn)))
           "GET" "/api/servers").
  - reflexivity.
  - vm_compute. right. left. reflexivity.
Defined.

Lemma only_ssh_commands_run_a_process_witness :
  ~ In (EvRun "/usr/bin/ssh" [])
       (trace (snd (RunE Fake.cloud (ServerDelete "srv-1" true)
                      Fake.loggedIn))).
Proof.
  apply (only_ssh_commands_run_a_process Fake.cloud
           (ServerDelete "srv-1" true) Fake.loggedIn).
  - reflexivity.
  - reflexivity.
Defined.

Lemma scanByName_spec_witness :
  first_named "web" Fake.listing (Fake.mkServer "s-2" "web")
  /\ forall s, In s Fake.listing -> Server_Name s <> "Web".
Proof.
  split.
  - apply (proj1 (proj1 (scanByName_spec "web" Fake.listing) _)).
    reflexivity.
  - apply (proj1 (proj2 (scanByName_spec "Web" Fake.listing))).
    reflexivity.
Defined.

Lemma findServerByNameOrID_sound_witness :
  exists e w1 w',
    GetServer Fake.cloud Fake.client "web" Fake.loggedIn = (Fail e, w1)
    /\ ListServers Fake.cloud Fake.client w1 = (Ok Fake.listing, w')
    /\ first_named "web" Fake.listing (Fake.mkServer "s-2" "web").
Proof.
  pose (r := findServerByNameOrID Fake.cloud Fake.client "web"
               Fake.loggedIn).
  assert (H : r = (Ok (Fake.mkServer "s-2" "web"), snd r))
    by (vm_compute; reflexivity).
  destruct (findServerByNameOrID_sound Fake.cloud Fake.client "web"
              Fake.loggedIn (snd r) (Fake.mkServer "s-2" "web") H)
    as [G|[e [w1 [servers [G [L N]]]]]].
  - vm_compute in G. discriminate G.
  - assert (E : servers = Fake.listing).
    { pose proof L as L'. vm_compute in G. inversion G; subst.
      vm_compute in L'. inversion L'. reflexivity. }
    subst servers. exists e, w1, (snd r).
    split; [exact G|split; [exact L|exact N]].
Defined.

Lemma findServerByNameOrID_only_error_witness :
  Fake.errorOf
    (fst (findServerByNameOrID Fake.cloudListFails Fake.client "web"
            Fake.loggedIn))
  = Errorf "server not found: web".
Proof.
  pose (r := findServerByNameOrID Fake.cloudListFails Fake.client "web"
               Fake.loggedIn).
  assert (H : r = (Fail (Fake.errorOf (fst r)), snd r))
    by (vm_compute; reflexivity).
  exact (findServerByNameOrID_only_error Fake.cloudListFails Fake.client
           "web" Fake.loggedIn (snd r) (Fake.errorOf (fst r)) H).
Defined.

Lemma parseSSHHost_spec_witness :
  parseSSHHost "deploy@db.example.com" = ("deploy", "db.example.com")
  /\ "a@b@c" = fst (parseSSHHost "a@b@c") ++ "@" ++ snd (parseSSHHost "a@b@c").
Proof.
  split.
  - exact (proj2 (proj2 (parseSSHHost_spec "")) "deploy" "db.example.com"
             eq_refl).
  - apply (proj1 (parseSSHHost_spec "a@b@c")). reflexivity.
Defined.

Lemma sshTarget_always_names_a_user_witness :
  fst (sshTarget (Fake.flags "") "myserver") = "root"
  /\ buildSSHArgs (Fake.flags "") "root" "myserver" = ["root@myserver"].
Proof.
  destruct (sshTarget_always_names_a_user (Fake.flags "") "myserver")
    as [_ [_ [_ [_ [R B]]]]].
  split.
  - apply R; reflexivity.
  - exact B.
Defined.

Lemma SaveConfig_spec_witness :
  exists w',
    SaveConfig Fake.cloud Fake.loggedIn = (None, w')
    /\ cfg w' = cfg Fake.loggedIn
    /\ os_WriteFile Fake.cloud "/home/u/.vstats/config.yaml"
         "token: tok; username: alice; expires_at: 1700604800" 384 1%nat
       = (None, env w')
    /\ trace w'
       = [EvMkdirAll "/home/u/.vstats" 448;
          EvWriteFile "/home/u/.vstats/config.yaml"
            "token: tok; username: alice; expires_at: 1700604800" 384].
Proof.
  pose (r := SaveConfig Fake.cloud Fake.loggedIn).
  assert (H : r = (None, snd r)) by (vm_compute; reflexivity).
  destruct (SaveConfig_spec Fake.cloud Fake.loggedIn (snd r) None H)
    as [C [_ [_ S]]].
  destruct (S "/home/u" None 1%nat eq_refl eq_refl) as [_ [_ W]].
  destruct (W "token: tok; username: alice; expires_at: 1700604800"
              eq_refl eq_refl) as [Hw Ht].
  exists (snd r). split; [exact H|]. split; [exact C|].
  split; [exact Hw | exact Ht].
Defined.

Lemma logout_clears_session_witness :
  exists w' e1,
    logoutRunE Fake.cloud Fake.loggedIn = (None, w')
    /\ cfg w' = {| CloudURL := DefaultCloudURL; Token := "";
                   Username := ""; ExpiresAt := 0 |}
    /\ issued Fake.loggedIn w' []
    /\ os_WriteFile Fake.cloud "/home/u/.vstats/config.yaml"
         "token: ; username: ; expires_at: 0" 384 e1
       = (None, env w').
Proof.
  pose (r := logoutRunE Fake.cloud Fake.loggedIn).
  assert (H : r = (None, snd r)) by (vm_compute; reflexivity).
  destruct (logout_clears_session Fake.cloud Fake.loggedIn (snd r) None)
    as [C [I [_ W]]].
  - vm_compute. discriminate.
  - exact H.
  - destruct (W eq_refl) as [home [data [e1 [Hh [_ [Hy [Hw _]]]]]]].
    vm_compute in Hh. inversion Hh; subst home.
    vm_compute in Hy. inversion Hy; subst data.
    exists (snd r), e1. split; [exact H|]. split; [exact C|].
    split; [exact I | exact Hw].
Defined.

Lemma runLogin_failure_keeps_session_witness :
  exists w',
    runLogin Fake.cloud Fake.loggedIn
    = (Some (Errorf "token is required"), w')
    /\ cfg w' = cfg Fake.loggedIn.
Proof.
  pose (r := runLogin Fake.cloud Fake.loggedIn).
  assert (H : r = (Some (Errorf "token is required"), snd r))
    by (vm_compute; reflexivity).
  exists (snd r). split; [exact H|].
  destruct (runLogin_failure_keeps_session Fake.cloud Fake.loggedIn (snd r)
              (Errorf "token is required") H) as [[e E]|[C _]].
  - discriminate E.
  - exact C.
Defined.

Lemma runLogin_verifies_candidate_token_witness :
  exists tr,
    trace (snd (runLogin Fake.cloud
                  {| cfg := cfg Fake.loggedIn; vars := Fake.flags "t0k";
                     env := O; trace := [] |})) = tr
    /\ api_calls tr = [("GET", "/api/auth/verify")]
    /\ forall req, In (EvRoundTrip req) tr ->
         In ("Authorization", "Bearer t0k") (Header req).
Proof.
  pose (w := {| cfg := cfg Fake.loggedIn; vars := Fake.flags "t0k";
                env := O; trace := [] |} : World Fake.Env).
  destruct (runLogin_verifies_candidate_token Fake.cloud w w "t0k")
    as [tr [T [A F]]].
  - reflexivity.
  - discriminate.
  - exists tr. split; [exact T|]. split; [exact A|].
    intros req Hin. destruct (F req Hin) as [_ [_ [_ [_ [_ [_ B]]]]]].
    apply B. split; [discriminate | reflexivity].
Defined.

Lemma runLogin_then_session_witness :
  exists w',
    runLogin Fake.cloud Fake.atLogin = (None, w')
    /\ Token (cfg w') = "t0k"
    /\ requireLogin w' = (None, w').
Proof.
  pose (r := runLogin Fake.cloud Fake.atLogin).
  assert (H : r = (None, snd r)) by (vm_compute; reflexivity).
  destruct (runLogin_then_session Fake.cloud Fake.atLogin (snd r) H)
    as [_ [_ [L _]]].
  exists (snd r). split; [exact H|]. split; [|exact L].
  vm_compute. reflexivity.
Defined.


Lemma webRemove_spec_witness :
  (exists w2,
     webRemoveRunE Fake.cloud "w-7" true Fake.loggedIn
     = (Some (Errorf_w "failed to remove instance: "
                (Errorf_w "request failed: " (Errorf "connection reset"))),
        w2))
  /\ exists w1,
       webRemoveRunE
         (Fake.failing Fake.cloud "GET"
            (Fake.base ++ "/api/web/instances/w-7") (Errorf "timeout"))
         "w-7" true Fake.loggedIn
       = (Some (Errorf "web instance not found: w-7"), w1).
Proof.
  split.
  - pose (g := GetWebInstance Fake.cloud Fake.client "w-7" Fake.loggedIn).
    destruct (webRemove_spec Fake.cloud "w-7" true Fake.loggedIn (snd g)
                Fake.registered None) as [_ Rm].
    + vm_compute. discriminate.
    + vm_compute. reflexivity.
    + pose (d := RemoveWebInstance Fake.cloud Fake.client "w-7" (snd g)).
      destruct (Rm eq_refl eq_refl
                  (Some (Errorf_w "request failed: "
                           (Errorf "connection reset"))) (snd d))
        as [R _].
      * vm_compute. reflexivity.
      * exists (snd d). exact R.
  - pose (P := Fake.failing Fake.cloud "GET"
                 (Fake.base ++ "/api/web/instances/w-7") (Errorf "timeout")).
    pose (g := GetWebInstance P Fake.client "w-7" Fake.loggedIn).
    destruct (webRemove_spec P "w-7" true Fake.loggedIn (snd g)
                zeroWebInstance
                (Some (Errorf_w "request failed: " (Errorf "timeout"))))
      as [NotFound _].
    + vm_compute. discriminate.
    + vm_compute. reflexivity.
    + exists (snd g). exact (NotFound _ eq_refl).
Defined.

Lemma webCheck_spec_witness :
  exists w2,
    webCheckRunE Fake.cloudCheckFails "w-7" Fake.loggedIn = (None, w2)
    /\ api_calls (trace w2)
       = [("GET", "/api/web/instances/w-7");
          ("GET", "/api/web/instances/w-7/check")].
Proof.
  pose (P := Fake.cloudCheckFails).
  pose (g := GetWebInstance P Fake.client "w-7" Fake.loggedIn).
  pose (c := CheckWebInstance P Fake.client "w-7" (snd g)).
  exists (snd c). split.
  - destruct (webCheck_spec P "w-7" Fake.loggedIn (snd g) Fake.registered
                None) as [_ K].
    + vm_compute. discriminate.
    + vm_compute. reflexivity.
    + destruct (K eq_refl (zero TWebInstanceStatus)
                  (Some (Errorf_w "request failed: " (Errorf "timeout")))
                  (snd c)) as [F _].
      * vm_compute. reflexivity.
      * exact (F _ eq_refl).
  - vm_compute. reflexivity.
Defined.

Lemma sshWeb_success_updates_status_witness :
  exists w4,
    sshWebRunE Fake.cloud "admin@h" "" 0 "" false Fake.loggedIn = (None, w4)
    /\ issued Fake.loggedIn w4
         [("GET", "/api/user/plan");
          ("POST", "/api/web/instances");
          ("PUT", "/api/web/instances/w-7")].
Proof.
  pose (P := Fake.cloud).
  pose (w1 := snd (GetUserPlan P Fake.client Fake.loggedIn)).
  pose (w2 := snd (RegisterWebInstance P Fake.client
                     (newWebInstance "web-h" "h" 3001 "http://h:3001") w1)).
  pose (w3 := snd (runSSHCommand P ["admin@h"]
                     (webInstallCmd DefaultCloudURL "tok" 3001 "" false) w2)).
  destruct (sshWeb_success_updates_status P "admin@h" "" 0 "" false
              Fake.loggedIn w1 w2 w3 (Fake.freePlan 0) Fake.registered)
    as [update [w4 [_ [R I]]]].
  - vm_compute. discriminate.
  - vm_compute. reflexivity.
  - right. vm_compute. reflexivity.
  - vm_compute. reflexivity.
  - vm_compute. reflexivity.
  - exists w4. split; [exact R | exact I].
Defined.

Lemma sshWeb_registration_failure_witness :
  exists w2,
    sshWebRunE Fake.cloudRegisterFails "admin@h" "" 0 "" false Fake.loggedIn
    = (Some (Errorf_w "failed to register web instance: "
               (Errorf_w "request failed: " (Errorf "connection refused"))),
       w2)
    /\ issued Fake.loggedIn w2
         [("GET", "/api/user/plan"); ("POST", "/api/web/instances")].
Proof.
  pose (P := Fake.cloudRegisterFails).
  pose (w1 := snd (GetUserPlan P Fake.client Fake.loggedIn)).
  pose (w2 := snd (RegisterWebInstance P Fake.client
                     (newWebInstance "web-h" "h" 3001 "http://h:3001") w1)).
  destruct (sshWeb_registration_failure P "admin@h" "" 0 "" false
              Fake.loggedIn w1 w2 (Fake.freePlan 0) zeroWebInstance
              (Errorf_w "request failed: " (Errorf "connection refused")))
    as [R [I _]].
  - vm_compute. discriminate.
  - vm_compute. reflexivity.
  - right. vm_compute. reflexivity.
  - vm_compute. reflexivity.
  - exists w2. split; [exact R | exact I].
Defined.

Lemma sshWeb_pro_plan_is_not_limited_witness :
  fst (sshWebRunE Fake.cloudPro "admin@h" "" 0 "" false Fake.loggedIn)
  <> Some errLimitReached.
Proof.
  pose (w1 := snd (GetUserPlan Fake.cloudPro Fake.client Fake.loggedIn)).
  apply (sshWeb_pro_plan_is_not_limited Fake.cloudPro "admin@h" "" 0 ""
           false Fake.loggedIn w1
           {| Plan := "pro"; MaxWebApps := 1; CurrentCount := 5;
              IsPro := true |}).
  - vm_compute. discriminate.
  - vm_compute. reflexivity.
  - reflexivity.
Defined.

Lemma sshAgent_existing_server_witness :
  (exists w2,
     sshAgentRunE Fake.cloud "admin@h" "" "srv-1" Fake.loggedIn = (None, w2)
     /\ api_calls (trace w2) = [("GET", "/api/servers/srv-1")])
  /\ exists w1,
       sshAgentRunE Fake.cloudListFails "admin@h" "" "nope" Fake.loggedIn
       = (Some (Errorf "server not found: nope"), w1).
Proof.
  split.
  - pose (f := findServerByNameOrID Fake.cloud Fake.client "srv-1"
                 Fake.loggedIn).
    pose (r := runSSHCommand Fake.cloud ["admin@h"]
                 (agentInstallCmd DefaultCloudURL "tok" "h") (snd f)).
    pose proof (sshAgent_existing_server Fake.cloud "admin@h" "" "srv-1"
                  Fake.loggedIn (snd f) (Ok (Fake.mkServer "srv-1" "alpha")))
      as T.
    cbv zeta in T. exists (snd r). split.
    + apply (T ltac:(vm_compute; discriminate) ltac:(discriminate)
               ltac:(vm_compute; reflexivity) None (snd r)).
      vm_compute. reflexivity.
    + vm_compute. reflexivity.
  - pose (f := findServerByNameOrID Fake.cloudListFails Fake.client "nope"
                 Fake.loggedIn).
    exists (snd f).
    apply (sshAgent_existing_server Fake.cloudListFails "admin@h" "" "nope"
             Fake.loggedIn (snd f) (Fail (Errorf "server not found: nope"))).
    + vm_compute. discriminate.
    + discriminate.
    + vm_compute. reflexivity.
Defined.


Lemma configSet_spec_witness :
  (exists w',
     configSetRunE Fake.cloud "cloud_url" "https://x" Fake.loggedIn
     = (None, w')
     /\ cfg w' = {| CloudURL := "https://x"; Token := "tok";
                    Username := "alice"; ExpiresAt := 1700604800 |})
  /\ configSetRunE Fake.cloud "token" "abc" Fake.loggedIn
     = (Some (Errorf "unknown configuration key: token"), Fake.loggedIn).
Proof.
  split.
  - pose (r := configSetRunE Fake.cloud "cloud_url" "https://x"
                 Fake.loggedIn).
    assert (H : r = (None, snd r)) by (vm_compute; reflexivity).
    destruct (configSet_spec Fake.cloud "cloud_url" "https://x"
                Fake.loggedIn (snd r) None H) as [_ Hset].
    destruct (Hset eq_refl) as [C _].
    exists (snd r). split; [exact H | exact C].
  - pose (r := configSetRunE Fake.cloud "token" "abc" Fake.loggedIn).
    destruct (configSet_spec Fake.cloud "token" "abc" Fake.loggedIn
                (snd r) (fst r)) as [Hun _].
    + vm_compute. reflexivity.
    + destruct Hun as [E W]; [discriminate|].
      change (configSetRunE Fake.cloud "token" "abc" Fake.loggedIn) with r.
      rewrite (surjective_pairing r), E, W. reflexivity.
Defined.

Lemma LoadConfig_spec_witness :
  LoadConfig Fake.cloud Fake.reader "" Fake.loggedOut
  = (None, Fake.loggedOut)
  /\ LoadConfig Fake.cloud Fake.reader "/etc/vstats.yaml" Fake.loggedOut
     = (None, Fake.loggedOut).
Proof.
  destruct (LoadConfig_spec Fake.cloud Fake.reader "/etc/vstats.yaml"
              Fake.loggedOut) as [Hhome [_ [Hpath [Hmiss _]]]].
  split.
  - rewrite (Hhome "/home/u" eq_refl). vm_compute. reflexivity.
  - rewrite (Hpath ltac:(discriminate)).
    rewrite (Hmiss Fake.notExist eq_refl). reflexivity.
Defined.

Lemma initConfig_cloud_url_flag_witness :
  CloudURL (cfg (snd (initConfig Fake.cloud Fake.reader "" "https://x"
                        Fake.loggedOut))) = "https://x".
Proof.
  destruct (initConfig_cloud_url_flag Fake.cloud Fake.reader ""
              "https://x" Fake.loggedOut) as [_ H].
  destruct (H ltac:(discriminate)) as [C _].
  rewrite C. reflexivity.
Defined.

Lemma SaveConfig_LoadConfig_round_trip_witness :
  exists w',
    SaveConfig Disk.platform Disk.session = (None, w')
    /\ LoadConfig Disk.platform Disk.reader ""
         {| cfg := Disk.fresh; vars := Fake.flags "";
            env := env w'; trace := [] |}
       = (None, {| cfg := cfg Fake.loggedIn; vars := Fake.flags "";
                   env := env w'; trace := [] |})
    /\ LoadConfig Disk.platform Disk.reader ""
         {| cfg := Disk.fresh; vars := Fake.flags "";
            env := env Disk.session; trace := [] |}
       = (None, {| cfg := Disk.fresh; vars := Fake.flags "";
                   env := env Disk.session; trace := [] |}).
Proof.
  pose (r := SaveConfig Disk.platform Disk.session).
  assert (H : r = (None, snd r)) by (vm_compute; reflexivity).
  exists (snd r). split; [exact H|]. split.
  - apply (SaveConfig_LoadConfig_round_trip Disk.platform Disk.reader
             Disk.session (snd r) Disk.fresh (Fake.flags "") []).
    + intros path data perm e e' W. simpl in W. inversion W. simpl.
      rewrite String.eqb_refl. reflexivity.
    + intros data Hy. vm_compute in Hy. inversion Hy. vm_compute.
      reflexivity.
    + exact H.
    + reflexivity.
  - vm_compute. reflexivity.
Defined.

Lemma no_color_adds_no_escape_witness :
  containsByte (ascii_of_nat 27) (formatWebStatus Fake.plainFlags "online")
  = false
  /\ containsByte (ascii_of_nat 27)
       (formatStatus Fake.cloud Fake.plainFlags "offline") = false
  /\ formatWebStatus (Fake.flags "") "degraded" = "degraded".
Proof.
  destruct (no_color_adds_no_escape Fake.cloud Fake.plainFlags "online")
    as [Hn _].
  destruct (Hn eq_refl) as [_ [_ W]].
  destruct (no_color_adds_no_escape Fake.cloud Fake.plainFlags "offline")
    as [Hn' _].
  destruct (Hn' eq_refl) as [_ [S _]].
  split; [rewrite W; reflexivity|]. split; [rewrite S; reflexivity|].
  apply (proj2 (no_color_adds_no_escape Fake.cloud (Fake.flags "")
                  "degraded")); discriminate.
Defined.
